(** * Baxter pick-and-place: calibration, visual servoing and pick attempts

    A shallow embedding of the Python sources

      - [src/baxter_pick_and_place/robot.py]  (class [Robot]),
      - [src/vision/segmentation.py]          (class [ObjectSegmentation]),
      - [src/servoing/base.py]                (class [Servoing]),
      - [scripts/demonstration.py]            (class [Demonstrator]),

    followed by the properties established about them.

    Conventions of the embedding.

    - Python floats are idealised as exact rationals ([Q]); integers are [Z].
      Rounding of binary64 arithmetic is modelled only where a property
      depends on it: the calibration samples and their mean are evaluated
      a second time on binary64 floats (module [F64]).
    - Methods run in a state-and-exception monad: a computation maps the
      state to an outcome (a value, a raised exception, or running out of
      loop fuel) and the state reached.  [while] loops carry explicit fuel.
    - Hardware and ROS services are stubs: functions of the number of the
      call (and of the arguments), so that scripted collaborators such as
      "fails twice, then succeeds" can be written down.  Every call leaves
      an event in a chronological trace.
    - Console output ([print]) and debug/info logging are not modelled;
      error logging is. *)

From Stdlib Require Import ZArith QArith Lqa List String Bool Lia.
From Stdlib Require PrimFloat.
From stdpp Require Import gmap strings.
Import ListNotations.

Local Open Scope Q_scope.

(** ** Python values, exceptions and the method monad *)

Module Py.

(** The exception classes the three modules raise or catch. *)
Inductive ExcClass : Type :=
| Exception            (* the plain base class *)
| AttributeError
| ValueError
| KeyError
| IndexError
| TypeError
| RuntimeError
| NotImplementedError
| ServiceException.    (* rospy.ServiceException / rospy.ROSException *)

Definition ExcClass_eqb (a b : ExcClass) : bool :=
  match a, b with
  | Exception, Exception | AttributeError, AttributeError
  | ValueError, ValueError | KeyError, KeyError
  | IndexError, IndexError | TypeError, TypeError
  | RuntimeError, RuntimeError
  | NotImplementedError, NotImplementedError
  | ServiceException, ServiceException => true
  | _, _ => false
  end.

Record Exc : Type := mkExc { exc_class : ExcClass; exc_msg : string }.

(** [isinstance e cls]: every class above derives from [Exception];
    [NotImplementedError] derives from [RuntimeError]; no other
    subclassing among them. *)
Definition isinstance (e : Exc) (cls : ExcClass) : bool :=
  match cls with
  | Exception => true
  | RuntimeError =>
      match exc_class e with
      | RuntimeError | NotImplementedError => true
      | _ => false
      end
  | _ => ExcClass_eqb (exc_class e) cls
  end.

Inductive Outcome (A : Type) : Type :=
| Ret (a : A)        (* the method returned [a] *)
| Raise (e : Exc)    (* an exception left the method *)
| Diverge.           (* a loop ran out of fuel *)
Arguments Ret {A} a.
Arguments Raise {A} e.
Arguments Diverge {A}.

Definition M (W A : Type) : Type := W -> Outcome A * W.

Definition ret {W A} (a : A) : M W A := fun w => (Ret a, w).
Definition raise {W A} (e : Exc) : M W A := fun w => (Raise e, w).
Definition diverge {W A} : M W A := fun w => (Diverge, w).

Definition bind {W A B} (c : M W A) (k : A -> M W B) : M W B :=
  fun w =>
    match c w with
    | (Ret a, w') => k a w'
    | (Raise e, w') => (Raise e, w')
    | (Diverge, w') => (Diverge, w')
    end.

(** [try: c  except cls as e: h e] *)
Definition try_except {W A} (c : M W A) (cls : ExcClass)
    (h : Exc -> M W A) : M W A :=
  fun w =>
    match c w with
    | (Raise e, w') => if isinstance e cls then h e w' else (Raise e, w')
    | r => r
    end.

(** [while cond(s): s = body(s)], the loop-carried locals being [s]. *)
Fixpoint while {W S} (fuel : nat) (cond : S -> bool) (body : S -> M W S)
    (s : S) : M W S :=
  if cond s then
    match fuel with
    | O => diverge
    | Datatypes.S fuel' => bind (body s) (while fuel' cond body)
    end
  else ret s.

Definition modify {W} (f : W -> W) : M W unit := fun w => (Ret tt, f w).
Definition gets {W A} (f : W -> A) : M W A := fun w => (Ret (f w), w).

(** Strict comparison of floats, [a < b]. *)
Definition Qltb (a b : Q) : bool :=
  (Qnum a * QDen b <? Qnum b * QDen a)%Z.

(** [[a + b for a, b in zip(xs, ys)]] *)
Definition zip_add (xs ys : list Q) : list Q :=
  map (fun ab => fst ab + snd ab) (combine xs ys).

(** Truth value of a list: empty lists are false. *)
Definition truthy {A} (l : list A) : bool :=
  match l with [] => false | _ :: _ => true end.

(** [np.mean] of a list of floats. *)
Definition np_mean (l : list Q) : Q :=
  fold_left Qplus l 0 / inject_Z (Z.of_nat (length l)).

(** The binary64 value of [np.pi]. *)
Definition np_pi : Q := 884279719003555 # 281474976710656.

End Py.

Declare Scope py_scope.
Delimit Scope py_scope with py.
Notation "'let*' x := c 'in' k" := (Py.bind c (fun x => k))
  (at level 10, x name, c at level 100, k at level 200,
   format "'[v' 'let*'  x  :=  c  'in' '/' k ']'") : py_scope.
Notation "c ;; k" := (Py.bind c (fun _ => k))
  (at level 100, k at level 200, right associativity,
   format "'[v' c  ;; '/' k ']'") : py_scope.

Local Open Scope py_scope.

(** ** [baxter_pick_and_place/robot.py]: class [Robot] *)

Module Robot.
Import Py.

(** A Cartesian pose is the Python list [[x, y, z, roll, pitch, yaw]]. *)
Definition Pose : Type := list Q.

(** A joint command: the dictionary of joint names and positions that
    the IK service answers with. *)
Definition Joints : Type := list (string * Q).

(** What the IK service proxy does with one request. *)
Inductive IKReply : Type :=
| ServiceFails (msg : string)                 (* ServiceException / ROSException *)
| Response (isValid : bool) (joints : Joints).

(** The hardware and ROS collaborators, as stubs.  The index is the
    number of earlier calls of the same kind, except for the limb
    readings, which are indexed by the number of joint moves executed so
    far (the limb only moves when commanded). *)
Record Hardware : Type := mkHardware {
  ik_service    : nat -> Pose -> IKReply;
  random        : nat -> Q;              (* np.random.random(), in [0, 1) *)
  hand_range    : nat -> Z;              (* AnalogIO(arm + '_hand_range').state() *)
  gripping      : nat -> bool;           (* gripper.gripping() after a close *)
  endpoint_pose : nat -> Pose;           (* limb.endpoint_pose(), as Euler list *)
  joint_angles  : nat -> Joints          (* limb.joint_angles() *)
}.

Inductive Event : Type :=
| EvSleep (t : Q)
| EvIKRequest (pose : Pose)
| EvLogErr (msg : string)
| EvMoveJoints (cmd : Joints)
| EvMoveNeutral
| EvRangeRead (d : Z)
| EvRecordImage
| EvDisplayImage
| EvGripperClose
| EvGripperOpen.

(** The fields of [self] that the methods below read or write, the call
    counters of the stubs, and the trace. *)
Record State : Type := mkState {
  _cam_pars   : option (gmap string Q);
  resolution  : Z * Z;                   (* self._camera.resolution = (w, h) *)
  n_ik        : nat;
  n_random    : nat;
  n_range     : nat;
  n_grip      : nat;
  n_moves     : nat;
  trace       : list Event
}.

Definition set_cam_pars (c : option (gmap string Q)) (s : State) : State :=
  mkState c (resolution s) (n_ik s) (n_random s) (n_range s) (n_grip s)
          (n_moves s) (trace s).
Definition emit (e : Event) (s : State) : State :=
  mkState (_cam_pars s) (resolution s) (n_ik s) (n_random s) (n_range s)
          (n_grip s) (n_moves s) (trace s ++ [e]).
Definition tick_ik (s : State) : State :=
  mkState (_cam_pars s) (resolution s) (S (n_ik s)) (n_random s) (n_range s)
          (n_grip s) (n_moves s) (trace s).
Definition tick_random (s : State) : State :=
  mkState (_cam_pars s) (resolution s) (n_ik s) (S (n_random s)) (n_range s)
          (n_grip s) (n_moves s) (trace s).
Definition tick_range (s : State) : State :=
  mkState (_cam_pars s) (resolution s) (n_ik s) (n_random s) (S (n_range s))
          (n_grip s) (n_moves s) (trace s).
Definition tick_grip (s : State) : State :=
  mkState (_cam_pars s) (resolution s) (n_ik s) (n_random s) (n_range s)
          (S (n_grip s)) (n_moves s) (trace s).
Definition tick_moves (s : State) : State :=
  mkState (_cam_pars s) (resolution s) (n_ik s) (n_random s) (n_range s)
          (n_grip s) (S (n_moves s)) (trace s).

(** The fixed top-down viewing pose and the retry budget, as set in
    [__init__]. *)
Definition _top_pose : Pose :=
  [0.50; 0.00; 0.15; -(1.0) * np_pi; 0.0 * np_pi; 0.0 * np_pi].
Definition _N_TRIES : Z := 2.

Section Methods.
Variable hw : Hardware.

Local Abbreviation R := (M State).

(** [np.random.random()] *)
Definition np_random_random : R Q :=
  let* k := gets n_random in
  modify tick_random ;;
  ret (random hw k).

(** [np.random.uniform(low, high)] *)
Definition np_random_uniform (low high : Q) : R Q :=
  let* r := np_random_random in
  ret (low + (high - low) * r).

(** [_perturbe_pose(pose)] (static method) *)
Definition _perturbe_pose (pose : Pose) : R Pose :=
  let* r0 := np_random_random in
  let* r1 := np_random_random in
  let* r2 := np_random_random in
  let* r3 := np_random_random in
  let* r4 := np_random_random in
  let* r5 := np_random_random in
  let perturbation :=
    [ r0 * 0.02;
      r1 * 0.03;
      r2 * 0.02;
      r3 * 2.0 / 180.0;
      r4 * 2.0 / 180.0;
      r5 * 2.0 / 180.0 ] in
  ret (zip_add pose perturbation).

(** [list[i]] on a pose. *)
Definition pose_item (p : Pose) (i : nat) : R Q :=
  match nth_error p i with
  | Some v => ret v
  | None => raise (mkExc IndexError "list index out of range")
  end.

(** [_endpoint_pose()] *)
Definition _endpoint_pose : R Pose :=
  let* k := gets n_moves in
  ret (endpoint_pose hw k).

Definition no_valid_configuration : string :=
  "ERROR - inverse kinematics - No valid joint configuration found".

(** [_inverse_kinematics(pose=None)] *)
Definition _inverse_kinematics (pose : option Pose) : R Joints :=
  match pose with
  | None =>
      let* k := gets n_moves in
      ret (joint_angles hw k)
  | Some pose =>
      let* k := gets n_ik in
      modify tick_ik ;;
      modify (emit (EvIKRequest pose)) ;;
      match ik_service hw k pose with
      | ServiceFails msg =>
          modify (emit (EvLogErr msg)) ;;
          raise (mkExc ServiceException msg)
      | Response true joints => ret joints
      | Response false _ =>
          modify (emit (EvLogErr no_valid_configuration)) ;;
          raise (mkExc Exception no_valid_configuration)
      end
  end.

(** [_move_to_pose(pose)] *)
Definition _move_to_pose (pose : Pose) : R bool :=
  let* cmd :=
    try_except
      (let* cmd := _inverse_kinematics (Some pose) in ret (Some cmd))
      Exception
      (fun e => ret None) in
  match cmd with
  | None => ret false
  | Some cmd =>
      modify (emit (EvMoveJoints cmd)) ;;
      modify tick_moves ;;
      ret true
  end.

(** [_approach_pose(pose)] *)
Definition _approach_pose (pose : Pose) : R bool :=
  let offset := [0.0; 0.0; 5.0; 0.0; 0.0; 0.0] in
  let p := zip_add pose offset in
  _move_to_pose p.

(** [_record_image()]: the blocking wait for the camera callback is
    taken to end with a frame. *)
Definition _record_image : R unit :=
  modify (emit EvRecordImage).

(** [_display_image(imgmsg)] *)
Definition _display_image : R unit :=
  modify (emit EvDisplayImage).

(** [_grasp_object()] *)
Definition _grasp_object : R bool :=
  modify (emit EvGripperClose) ;;
  let* k := gets n_grip in
  modify tick_grip ;;
  ret (gripping hw k).

(** [_release_object()] *)
Definition _release_object : R unit :=
  modify (emit EvGripperOpen).

(** [_try_object()] *)
Definition _try_object : R bool :=
  _record_image ;;
  _display_image ;;
  let* grasped := _grasp_object in
  if grasped then
    _release_object ;;
    modify (emit EvMoveNeutral) ;;
    modify tick_moves ;;
    ret true
  else
    _release_object ;;
    ret false.

(** The local function [_trigger_dummy(max_time)] of
    [pick_and_place_object]. *)
Definition _trigger_dummy (max_time : Q) : R unit :=
  let* t := np_random_uniform 0.0 max_time in
  modify (emit (EvSleep t)).

(** One pass through the body of the [while n_tries > 0] loop. *)
Definition retry_body (n_tries : Z) : R Z :=
  let n_tries := (n_tries - 1)%Z in
  let* p := _perturbe_pose _top_pose in
  if truthy p then ret (-1)%Z else ret n_tries.

(** [pick_and_place_object()] *)
Definition pick_and_place_object (fuel : nat) : R bool :=
  _trigger_dummy 10.0 ;;
  let* moved := _move_to_pose _top_pose in
  if negb moved then
    let n_tries := _N_TRIES in
    let* n_tries := while fuel (fun n => (0 <? n)%Z) retry_body n_tries in
    if negb (n_tries =? -1)%Z then ret false
    else _try_object
  else _try_object.

(** One pass through the body of the [while len(dist) < n_calibrations]
    loop of [_perform_setup], for the probing pose [pose]. *)
Definition setup_body (pose : Pose) (dist : list Q) : R (list Q) :=
  let* p := _perturbe_pose pose in
  let* moved := _move_to_pose p in
  if moved then
    let* k := gets n_range in
    modify tick_range ;;
    let d := hand_range hw k in
    modify (emit (EvRangeRead d)) ;;
    if (d <? 65000)%Z then
      let* p2 := pose_item p 2 in
      ret (dist ++ [inject_Z d / 1000.0 - p2])
    else ret dist
  else ret dist.

(** [_perform_setup()] *)
Definition _perform_setup (fuel : nat) : R unit :=
  let pose := [0.60; 0.20; 0.0; -(1.0) * np_pi; 0.0 * np_pi; 0.0 * np_pi] in
  let n_calibrations := 10%nat in
  modify (set_cam_pars (Some ∅)) ;;
  let* dist :=
    while fuel (fun dist => (length dist <? n_calibrations)%nat)
          (setup_body pose) [] in
  let bfh := 0.0 in
  let store (k : string) (v : Q) : R unit :=
    let* c := gets _cam_pars in
    match c with
    | Some c => modify (set_cam_pars (Some (<[k := v]> c)))
    | None => raise (mkExc TypeError "'NoneType' object does not support item assignment")
    end in
  store "dist"%string (np_mean dist) ;;
  store "mpp"%string 0.0025 ;;
  store "x_offset"%string 0.01 ;;
  store "y_offset"%string (-(0.02)) ;;
  store "z_offset"%string (0.02 + 0.01 + bfh).

(** [self._cam_pars[key]] *)
Definition cam_par (key : string) : R Q :=
  let* c := gets _cam_pars in
  match c with
  | None => raise (mkExc TypeError "'NoneType' object has no attribute '__getitem__'")
  | Some c =>
      match c !! key with
      | Some v => ret v
      | None => raise (mkExc KeyError key)
      end
  end.

(** [_pixel2position(px)]; integer [h/2] and [w/2] are Python 2 floor
    divisions. *)
Definition _pixel2position (px : Q * Q) : R Pose :=
  let* wh := gets resolution in
  let '(w, h) := wh in
  let* mpp := cam_par "mpp" in
  let* dist := cam_par "dist" in
  let* ep := _endpoint_pose in
  let* ep0 := pose_item ep 0 in
  let* x_offset := cam_par "x_offset" in
  let x := (snd px - inject_Z (h / 2)) * mpp * dist + ep0 + x_offset in
  let* mpp := cam_par "mpp" in
  let* dist := cam_par "dist" in
  let* ep := _endpoint_pose in
  let* ep1 := pose_item ep 1 in
  let* y_offset := cam_par "y_offset" in
  let y := (fst px - inject_Z (w / 2)) * mpp * dist + ep1 + y_offset in
  let* dist := cam_par "dist" in
  let* z_offset := cam_par "z_offset" in
  let z := dist - z_offset in
  ret [x; y; z; 0.0; 0.0; 0.0].

End Methods.

Definition initial_state : State :=
  mkState None (1280, 800)%Z 0 0 0 0 0 [].

End Robot.

(** ** [vision/segmentation.py]: class [ObjectSegmentation] *)

Module Segmentation.
Import Py.

(** An image is known by its [shape] and by which frame it is. *)
Record Image : Type := mkImage { shape : list Z; frame : nat }.

Definition Box : Type := list Q.               (* <xul, yul, xlr, ylr> *)
Definition RawMask : Type := list (list Q).    (* the 21x21 network mask *)
Definition MaskImage : Type := list (list Z).  (* (height, width) raster *)

(** The fields of an [ObjectSegmentation] instance and the two opaque
    pieces below it: the forward pass of the network ([_im_detect]) and
    the raster arithmetic of [_mask_image_from_mask] (numpy and OpenCV),
    which either yields the mask image or raises. *)
Record ObjectSegmentation : Type := mkSegmentation {
  _classes   : list string;
  net_loaded : bool;                    (* self._net is not None *)
  _im_detect : Image -> list (list Q) * list Box * list (list RawMask);
  _mask_image_from_mask : RawMask -> Box -> list Z -> Exc + MaskImage
}.

(** The dictionary [{'id': .., 'score': .., 'box': .., 'mask': ..}];
    [None] for a Python [None] entry. *)
Record Detection : Type := mkDetection {
  det_id    : string;
  det_score : Q;
  det_box   : option Box;
  det_mask  : option MaskImage
}.

(** [list.index(x)] *)
Fixpoint index (l : list string) (x : string) : option nat :=
  match l with
  | [] => None
  | y :: l' => if String.eqb y x then Some O
               else option_map S (index l' x)
  end.

(** [np.argmax] of a non-empty one-dimensional array: the first index at
    which the maximum is attained.  [argmax_from i best bi l] scans [l],
    whose head has index [i], with the best value [best] seen at [bi]. *)
Fixpoint argmax_from (i : nat) (best : Q) (bi : nat) (l : list Q) : nat :=
  match l with
  | [] => bi
  | x :: l' => if Qltb best x then argmax_from (S i) x i l'
               else argmax_from (S i) best bi l'
  end.

Definition np_argmax (l : list Q) : option nat :=
  match l with
  | [] => None
  | x :: l' => Some (argmax_from 1 x 0 l')
  end.

Section Methods.
Context {W : Type}.
Variable self : ObjectSegmentation.

Local Abbreviation R := (M W).

Definition lift {A} (r : Exc + A) : R A :=
  match r with inl e => raise e | inr a => ret a end.

(** [a[i]] with Python's bounds check. *)
Definition item {A} (l : list A) (i : nat) : R A :=
  match nth_error l i with
  | Some a => ret a
  | None => raise (mkExc IndexError "index out of bounds")
  end.

(** [a[:, j]] on a two-dimensional array given by its rows. *)
Fixpoint column (rows : list (list Q)) (j : nat) : R (list Q) :=
  match rows with
  | [] => ret []
  | r :: rows' =>
      let* x := item r j in
      let* xs := column rows' j in
      ret (x :: xs)
  end.

(** [detect(image)] *)
Definition detect (image : Image)
    : R (list (list Q) * list Box * list (list RawMask)) :=
  if negb (net_loaded self) then
    raise (mkExc RuntimeError "No loaded network found! Did you run init_model()?")
  else
    let* bad :=
      if negb (length (shape image) =? 3)%nat then
        let* c := item (shape image) 2 in
        ret (negb (c =? 3)%Z)
      else ret false in
    if (bad : bool) then
      raise (mkExc ValueError
               "Image must be a three channel color image with shape (h, w, 3)!")
    else ret (_im_detect self image).

(** [detect_object(image, object_id, threshold)] *)
Definition detect_object (image : Image) (object_id : string)
    (threshold : Q) : R Detection :=
  match index (_classes self) object_id with
  | None => raise (mkExc KeyError object_id)
  | Some cls_idx =>
      let* d := detect image in
      let '(scores, boxes, masks) := d in
      let* cls_scores := column scores cls_idx in
      match np_argmax cls_scores with
      | None =>
          raise (mkExc ValueError "attempt to get argmax of an empty sequence")
      | Some best_idx =>
          let* best_score := item cls_scores best_idx in
          let* best_box := item boxes best_idx in
          let* m := item masks best_idx in
          let* m0 := item m 0 in
          let* best_mask :=
            lift (_mask_image_from_mask self m0 best_box
                    (firstn 2 (shape image))) in
          if Qltb threshold best_score then
            ret (mkDetection object_id best_score
                             (Some best_box) (Some best_mask))
          else
            ret (mkDetection object_id best_score None None)
      end
  end.

(** [detect_best(image, threshold)] *)
Definition detect_best (image : Image) (threshold : Q) : R Detection :=
  let* d := detect image in
  let '(scores, boxes, masks) := d in
  (* scores[:, 1:], its flattened argmax and np.unravel_index *)
  let fg := map (skipn 1) scores in
  let ncols := match fg with [] => O | r :: _ => length r end in
  match np_argmax (concat fg) with
  | None =>
      raise (mkExc ValueError "attempt to get argmax of an empty sequence")
  | Some k =>
      let best_proposal := (k / ncols)%nat in
      let best_class := (k mod ncols)%nat in
      let best_class := (best_class + 1)%nat in
      let* row := item scores best_proposal in
      let* best_score := item row best_class in
      let* best_box := item boxes best_proposal in
      let* m := item masks best_proposal in
      let* m0 := item m 0 in
      let* best_mask :=
        lift (_mask_image_from_mask self m0 best_box
                (firstn 2 (shape image))) in
      let* best_object := item (_classes self) best_class in
      if Qltb threshold best_score then
        ret (mkDetection best_object best_score
                         (Some best_box) (Some best_mask))
      else
        ret (mkDetection best_object best_score None None)
  end.

End Methods.

End Segmentation.

(** ** [servoing/base.py]: class [Servoing] *)

Module Servoing.
Import Py.
Export Segmentation.

(** The rotated rectangle [((cx, cy), (w, h), alpha)]. *)
Record RRoi : Type := mkRRoi {
  center : Q * Q;
  size   : Q * Q;
  angle  : Q
}.

Definition Config : Type := list (string * Q).

(** A camera of the robot handle. *)
Record Camera : Type := mkCamera {
  collect_image    : nat -> Image;   (* the n-th frame collected *)
  meters_per_pixel : Q
}.

(** The robot handle passed to [Servoing].  Its class is not part of
    these sources; it is known by what the module does with it.
    [camera_attrs] holds, per attribute name, the dictionary of cameras
    (keyed by arm) stored under that name; the methods are stubs
    indexed by the number of earlier calls of the same kind
    ([endpoint_pose] by the number of moves executed). *)
Record RobotHandle : Type := mkRobotHandle {
  camera_attrs       : gmap string (gmap string Camera);
  endpoint_pose      : nat -> string -> list Q;
  inverse_kinematics : nat -> string -> list Q -> Exc + Config
}.

(** The instance: the fields set by [__init__], the two library
    functions imported from [vision] and [numpy], and the
    [estimate_distance] method, which subclasses override. *)
Record Servo : Type := mkServo {
  _robot            : RobotHandle;
  _segmentation     : ObjectSegmentation;
  _tolerance        : Q;
  estimate_distance : string -> RRoi -> string -> Exc + Q;
  mask_to_rroi      : MaskImage -> RRoi;
  np_sqrt           : Q -> Q
}.

(** [estimate_distance] of the base class itself. *)
Definition base_estimate_distance (object_id : string) (rroi : RRoi)
    (arm : string) : Exc + Q :=
  inl (mkExc NotImplementedError "").

Inductive Event : Type :=
| EvCollectImage (arm : string) (img : Image)
| EvDetect (img : Image)
| EvDrawPublish (img : Image) (rroi : RRoi)
| EvIKRequest (arm : string) (pose : list Q)
| EvMoveTo (cfg : Config)
| EvLogError (msg : string).

Record State : Type := mkState {
  n_frames : nat;
  n_ik     : nat;
  n_moves  : nat;
  trace    : list Event
}.

Definition emit (e : Event) (s : State) : State :=
  mkState (n_frames s) (n_ik s) (n_moves s) (trace s ++ [e]).
Definition tick_frames (s : State) : State :=
  mkState (S (n_frames s)) (n_ik s) (n_moves s) (trace s).
Definition tick_ik (s : State) : State :=
  mkState (n_frames s) (S (n_ik s)) (n_moves s) (trace s).
Definition tick_moves (s : State) : State :=
  mkState (n_frames s) (n_ik s) (S (n_moves s)) (trace s).

Definition initial_state : State := mkState 0 0 0 [].

Section Methods.
Variable self : Servo.

Local Abbreviation R := (M State).

(** [self._robot.<attr>[arm]] for a camera dictionary attribute. *)
Definition robot_camera (attr arm : string) : R Camera :=
  match camera_attrs (_robot self) !! attr with
  | None =>
      raise (mkExc AttributeError
               ("'Robot' object has no attribute '" ++ attr ++ "'"))
  | Some cams =>
      match cams !! arm with
      | None => raise (mkExc KeyError arm)
      | Some cam => ret cam
      end
  end.

(** [camera.collect_image()] *)
Definition camera_collect (arm : string) (cam : Camera) : R Image :=
  let* k := gets n_frames in
  modify tick_frames ;;
  let img := collect_image cam k in
  modify (emit (EvCollectImage arm img)) ;;
  ret img.

(** [h, w = image_size] *)
Definition unpack2 (l : list Z) : R (Z * Z) :=
  match l with
  | [a; b] => ret (a, b)
  | _ => raise (mkExc ValueError "wrong number of values to unpack")
  end.

(** [_find_rotated_enclosing_rect(image, object_id)]; the identity test
    [object_id is 'hand'], which only shapes the message, is read as
    equality. *)
Definition _find_rotated_enclosing_rect (image : Image)
    (object_id : string) : R RRoi :=
  modify (emit (EvDetect image)) ;;
  let* det :=
    if String.eqb object_id "hand" then
      detect_best (_segmentation self) image 0.8
    else
      detect_object (_segmentation self) image object_id 0.8 in
  let handstring :=
    if String.eqb object_id "hand" then " in hand"%string else ""%string in
  let* rroi :=
    match det_mask det with
    | Some mask => ret (mask_to_rroi self mask)
    | None =>
        raise (mkExc ValueError
                 ("Segmentation of " ++ det_id det ++ handstring ++ " failed!"))
    end in
  modify (emit (EvDrawPublish image rroi)) ;;
  ret rroi.

(** [_pixel_to_camera_factor(object_id, rroi, arm)] *)
Definition _pixel_to_camera_factor (object_id : string) (rroi : RRoi)
    (arm : string) : R Q :=
  let* cam := robot_camera "cameras" arm in
  let* d := lift (estimate_distance self object_id rroi arm) in
  ret (meters_per_pixel cam * d).

(** [_error(image_size, object_id, rroi, arm)] *)
Definition _error (image_size : list Z) (object_id : string)
    (rroi : RRoi) (arm : string) : R Q :=
  let* hw := unpack2 image_size in
  let '(h, w) := hw in
  let pixel_delta :=
    map (fun ab => fst ab - snd ab)
        (combine [inject_Z (w / 2); inject_Z (h / 2)]
                 [fst (center rroi); snd (center rroi)]) in
  let dot :=
    fold_left Qplus (map (fun d => d * d) pixel_delta) 0 in
  let pixel_error := np_sqrt self dot in
  let* p2c_factor := _pixel_to_camera_factor object_id rroi arm in
  ret (pixel_error * p2c_factor).

(** The proportional gain of [_iterate]. *)
Definition kp : Q := 0.7.

(** [_iterate(arm, object_id, rroi)].  The [try] block assigns [rroi]
    before it assigns [camera_error]; the inner handler covers a
    [ValueError] raised between the two assignments. *)
Definition _iterate (arm object_id : string) (rroi : RRoi)
    : R (RRoi * Q) :=
  let* cam := robot_camera "cameras" arm in
  let* img := camera_collect arm cam in
  let* camera_error := _error (firstn 2 (shape img)) object_id rroi arm in
  if Qltb (_tolerance self) camera_error then
    let* p2c_factor := _pixel_to_camera_factor object_id rroi arm in
    let* hw := unpack2 (firstn 2 (shape img)) in
    let '(h, w) := hw in
    let dx := (fst (center rroi) - inject_Z (w / 2)) * p2c_factor * kp in
    let dy := (snd (center rroi) - inject_Z (h / 2)) * p2c_factor * kp in
    let* k := gets n_moves in
    let pose := endpoint_pose (_robot self) k arm in
    let pose := zip_add pose [dx; dy; 0; 0; 0; angle rroi] in
    let log_error (e : Exc) : R unit :=
      modify (emit (EvLogError (exc_msg e))) in
    try_except
      (let* k := gets n_ik in
       modify tick_ik ;;
       modify (emit (EvIKRequest arm pose)) ;;
       let* cfg := lift (inverse_kinematics (_robot self) k arm pose) in
       modify (emit (EvMoveTo cfg)) ;;
       modify tick_moves ;;
       let* rroi := _find_rotated_enclosing_rect img object_id in
       try_except
         (let* camera_error :=
            _error (firstn 2 (shape img)) object_id rroi arm in
          ret (rroi, camera_error))
         ValueError
         (fun e => log_error e ;; ret (rroi, camera_error)))
      ValueError
      (fun e => log_error e ;; ret (rroi, camera_error))
  else ret (rroi, camera_error).

(** The [while camera_error > self._tolerance] loop of [servo]; the
    loop-carried locals are [(rroi, camera_error)]. *)
Definition servo_loop (fuel : nat) (arm object_id : string)
    (rroi : RRoi) (camera_error : Q) : R (RRoi * Q) :=
  while fuel
        (fun st => Qltb (_tolerance self) (snd st))
        (fun st => _iterate arm object_id (fst st))
        (rroi, camera_error).

(** [servo(arm, object_id)], with the camera dictionary read from the
    attribute [cameras_attr] of the robot handle. *)
Definition servo_with (cameras_attr : string) (fuel : nat)
    (arm object_id : string) : R bool :=
  let* cam := robot_camera cameras_attr arm in
  let* img := camera_collect arm cam in
  let* found :=
    try_except
      (let* rroi := _find_rotated_enclosing_rect img object_id in
       ret (Some rroi))
      ValueError
      (fun e => modify (emit (EvLogError (exc_msg e))) ;; ret None) in
  match found with
  | None => ret false
  | Some rroi =>
      let camera_error := 2 * _tolerance self in
      servo_loop fuel arm object_id rroi camera_error ;;
      ret true
  end.

(** [servo(arm, object_id)] as written: its first statement reads
    [self._robot.camears]. *)
Definition servo (fuel : nat) (arm object_id : string) : R bool :=
  servo_with "camears" fuel arm object_id.

End Methods.

End Servoing.

(** ** [scripts/demonstration.py]: class [Demonstrator] *)

Module Demonstration.
Import Py.

(** The robot of the demonstrator and the number of times
    [rospy.is_shutdown()] has been asked. *)
Record State : Type := mkState {
  robot   : Robot.State;
  n_polls : nat
}.

(** [while cond(s): s = body(s)] for a condition with effects. *)
Fixpoint while_do {W S} (fuel : nat) (cond : S -> M W bool)
    (body : S -> M W S) (s : S) : M W S :=
  let* go := cond s in
  if (go : bool) then
    match fuel with
    | O => diverge
    | Datatypes.S fuel' =>
        let* s' := body s in while_do fuel' cond body s'
    end
  else ret s.

Section Methods.
Variable hw : Robot.Hardware.
(** [rospy.is_shutdown()], by the number of earlier calls. *)
Variable is_shutdown : nat -> bool.

(** A method of [self.robot], run on the robot's part of the state. *)
Definition on_robot {A} (c : M Robot.State A) : M State A :=
  fun s =>
    let (o, r) := c (robot s) in
    (o, mkState r (n_polls s)).

Definition rospy_is_shutdown : M State bool :=
  fun s => (Ret (is_shutdown (n_polls s)), mkState (robot s) (S (n_polls s))).

(** [not rospy.is_shutdown() and n < n_objects_to_pick] *)
Definition keep_going (n_objects_to_pick n : Z) : M State bool :=
  let* down := rospy_is_shutdown in
  if negb down then ret (n <? n_objects_to_pick)%Z else ret false.

(** One pass through the loop body; [pick_fuel] bounds the retry loop of
    [pick_and_place_object]. *)
Definition attempt (pick_fuel : nat) (n : Z) : M State Z :=
  let* picked := on_robot (Robot.pick_and_place_object hw pick_fuel) in
  if (picked : bool) then ret (n + 1)%Z else ret n.

(** [demonstrate(n_objects_to_pick)] *)
Definition demonstrate (fuel pick_fuel : nat) (n_objects_to_pick : Z)
    : M State bool :=
  let n := 0%Z in
  while_do fuel (keep_going n_objects_to_pick) (attempt pick_fuel) n ;;
  ret true.

End Methods.

End Demonstration.

(** ** Binary64 evaluation of the calibration samples and their mean

    [_perform_setup] computes [d/1000.0 - p[2]] and [np.mean(dist)] on
    Python floats.  The functions of this module evaluate the same
    expressions in IEEE 754 binary64, on primitive floats. *)

Module F64.
Import PrimFloat.
Local Open Scope float_scope.

(** [float(n)] for a Python integer [n]; exact for [|n| < 2^53]. *)
Fixpoint of_pos (p : positive) : float :=
  match p with
  | xH => 1
  | xO q => 2 * of_pos q
  | xI q => 2 * of_pos q + 1
  end.

Definition of_Z (z : Z) : float :=
  match z with
  | Z0 => 0
  | Zpos p => of_pos p
  | Zneg p => - of_pos p
  end.

(** [d/1000.0 - p[2]], the sample appended to [dist]. *)
Definition sample (d : Z) (z : float) : float := of_Z d / 1000 - z.

(** numpy's summation of a contiguous array of doubles.  Fewer than eight
    elements are added from left to right, starting from zero.  Up to 128
    elements are added into eight running sums, which are combined
    pairwise before the remaining elements are added one by one.  A
    longer array is split in two, at a multiple of eight. *)
Fixpoint add_blocks (fuel : nat) (r a : list float)
    : list float * list float :=
  match fuel with
  | O => (r, a)
  | S fuel' =>
      if (8 <=? length a)%nat then
        add_blocks fuel'
          (map (fun xy => fst xy + snd xy) (combine r (firstn 8 a)))
          (skipn 8 a)
      else (r, a)
  end.

Definition block_sum (a : list float) : float :=
  let (r, rest) := add_blocks (length a) (firstn 8 a) (skipn 8 a) in
  let r_ (i : nat) := nth i r 0 in
  fold_left add rest
    (((r_ 0%nat + r_ 1%nat) + (r_ 2%nat + r_ 3%nat))
     + ((r_ 4%nat + r_ 5%nat) + (r_ 6%nat + r_ 7%nat))).

Fixpoint pairwise_sum_from (fuel : nat) (a : list float) : float :=
  let n := length a in
  if (n <? 8)%nat then fold_left add a 0
  else if (n <=? 128)%nat then block_sum a
  else
    match fuel with
    | O => nan
    | S fuel' =>
        let n2 := (n / 2)%nat in
        let n2 := (n2 - n2 mod 8)%nat in
        pairwise_sum_from fuel' (firstn n2 a)
        + pairwise_sum_from fuel' (skipn n2 a)
    end.

Definition pairwise_sum (a : list float) : float :=
  pairwise_sum_from (length a) a.

(** [np.mean] of a list of floats: their sum divided by their number. *)
Definition np_mean (a : list float) : float :=
  pairwise_sum a / of_Z (Z.of_nat (length a)).

(** The mean with the sum taken from left to right, as [sum(a)/len(a)]
    takes it. *)
Definition sequential_mean (a : list float) : float :=
  fold_left add a 0 / of_Z (Z.of_nat (length a)).

End F64.

(** * Vocabulary of the properties and collaborator stubs *)

(** A computation that leaves the state as it found it. *)
Definition pure {W A} (c : Py.M W A) : Prop := forall w, snd (c w) = w.

Module PerturbSpec.
Import Py Robot.


(** The six offsets [_perturbe_pose] draws when the random source has
    already been asked [k] times. *)
Definition perturbation (hw : Hardware) (k : nat) : list Q :=
  [ random hw k * 0.02;
    random hw (k + 1) * 0.03;
    random hw (k + 2) * 0.02;
    random hw (k + 3) * 2.0 / 180.0;
    random hw (k + 4) * 2.0 / 180.0;
    random hw (k + 5) * 2.0 / 180.0 ].

Definition draw6 (s : State) : State :=
  mkState (_cam_pars s) (resolution s) (n_ik s) (n_random s + 6)
          (n_range s) (n_grip s) (n_moves s) (trace s).



End PerturbSpec.

Module PickStubs.
Import Py Robot.

(** A move-to-pose stub whose inverse kinematics never finds a valid
    configuration; the other collaborators are arbitrary. *)
Definition always_fails (rnd : nat -> Q) (rng : nat -> Z)
    (grip : nat -> bool) (ep : nat -> Pose) (ja : nat -> Joints)
    : Hardware :=
  mkHardware (fun _ _ => Response false []) rnd rng grip ep ja.

(** A stub that fails on the first two requests and succeeds from the
    third on. *)
Definition fails_twice (rnd : nat -> Q) (rng : nat -> Z)
    (grip : nat -> bool) (ep : nat -> Pose) (ja : nat -> Joints)
    : Hardware :=
  mkHardware (fun k _ => Response (2 <=? k)%nat []) rnd rng grip ep ja.

(** What a pick attempt leaves in the trace when its direct move fails:
    one sleep, one IK request with its error log, and the grasp. *)
Definition trace_after_failed_move (t : Q) (gripped : bool) : list Event :=
  [ EvSleep t; EvIKRequest _top_pose; EvLogErr no_valid_configuration;
    EvRecordImage; EvDisplayImage; EvGripperClose; EvGripperOpen ]
  ++ (if gripped then [EvMoveNeutral] else []).

End PickStubs.

Module CalibSpec.
Import Py Robot PerturbSpec.

(** The probing pose and sample count of [_perform_setup]. *)
Definition probing_pose : Pose :=
  [0.60; 0.20; 0.0; -(1.0) * np_pi; 0.0 * np_pi; 0.0 * np_pi].
Definition n_calibrations : nat := 10.

(** The validity ceiling of the range sensor. *)
Definition ceiling : Z := 65000.

(** The probing pose as perturbed by the [j]-th perturbation drawn after
    the random source has been asked [n0] times. *)
Definition commanded (hw : Hardware) (n0 j : nat) : Pose :=
  zip_add probing_pose (perturbation hw (n0 + 6 * j)).

(** [x] is a sample taken from a reading below the ceiling, after a
    successful move to a perturbed probing pose. *)
Definition accepted_sample (hw : Hardware) (n0 : nat) (x : Q) : Prop :=
  exists (j ki kr : nat) (joints : Joints),
    ik_service hw ki (commanded hw n0 j) = Response true joints /\
    (hand_range hw kr < ceiling)%Z /\
    x = inject_Z (hand_range hw kr) / 1000.0 - nth 2 (commanded hw n0 j) 0.

(** A calibration stub: every move succeeds, the sensor always reads
    [d], and every perturbation is zero. *)
Definition steady (d : Z) : Hardware :=
  mkHardware (fun _ _ => Response true []) (fun _ => 0) (fun _ => d)
             (fun _ => false) (fun _ => [0; 0; 0; 0; 0; 0]) (fun _ => []).

(** The dictionary [_perform_setup] leaves in [self._cam_pars] when the
    averaged distance is [avg]. *)
Definition calibrated (avg : Q) : gmap string Q :=
  <["z_offset"%string := 0.02 + 0.01 + 0.0]>
    (<["y_offset"%string := -(0.02)]>
       (<["x_offset"%string := 0.01]>
          (<["mpp"%string := 0.0025]>
             (<["dist"%string := avg]> ∅)))).

(** The loop of [_perform_setup]. *)
Definition setup_loop (hw : Hardware) (fuel : nat)
    : list Q -> M State (list Q) :=
  while fuel (fun dist => (length dist <? n_calibrations)%nat)
        (setup_body hw probing_pose).

(** The state once the IK request for [p] has been issued. *)
Definition ik_requested (p : Pose) (s : State) : State :=
  emit (EvIKRequest p) (tick_ik s).

(** What the loop maintains: at most ten samples, all accepted ones;
    the random source advanced by whole perturbations; the dictionary
    still empty. *)
Definition setup_inv (hw : Hardware) (n0 : nat) (dist : list Q)
    (w : State) : Prop :=
  (length dist <= n_calibrations)%nat /\
  Forall (accepted_sample hw n0) dist /\
  (exists j, n_random w = (n0 + 6 * j)%nat) /\
  _cam_pars w = Some ∅.

End CalibSpec.

Module CalibFloat.
Import PrimFloat.
Local Open Scope float_scope.

(** The float [d/1000.0]. *)
Definition metres (d : Z) : float := F64.of_Z d / 1000.

(** The ten samples [_perform_setup] records when every accepted reading
    is [d] and every commanded pose has z = 0. *)
Definition steady_samples (d : Z) : list float :=
  repeat (F64.sample d 0) CalibSpec.n_calibrations.

(** [m] is [x], one of its two neighbours among the floats, or one of
    their outer neighbours. *)
Definition within_two_ulps (m x : float) : bool :=
  leb (next_down (next_down x)) m && leb m (next_up (next_up x)).

(** The mean of the ten samples for the reading [d] is within two units
    in the last place of [d/1000.0], in either order of summation. *)
Definition close (d : Z) : bool :=
  within_two_ulps (F64.np_mean (steady_samples d)) (metres d)
  && within_two_ulps (F64.sequential_mean (steady_samples d)) (metres d).

(** [close] holds of the [n] readings from [d] on. *)
Fixpoint all_from (n : nat) (d : Z) : bool :=
  match n with
  | O => true
  | S n' => close d && all_from n' (d + 1)
  end.

End CalibFloat.

Module PixelSpec.
Import Py Robot.

(** The calibration dictionary holds the five parameters. *)
Definition calibration (c : gmap string Q)
    (dist mpp x_offset y_offset z_offset : Q) : Prop :=
  c !! "dist"%string = Some dist /\
  c !! "mpp"%string = Some mpp /\
  c !! "x_offset"%string = Some x_offset /\
  c !! "y_offset"%string = Some y_offset /\
  c !! "z_offset"%string = Some z_offset.



(** A limb stub resting at [(ex, ey, 0, 0, 0, 0)]. *)
Definition resting (ex ey : Q) : Hardware :=
  mkHardware (fun _ _ => Response true []) (fun _ => 0) (fun _ => 0%Z)
             (fun _ => false) (fun _ => [ex; ey; 0; 0; 0; 0]) (fun _ => []).


End PixelSpec.

Module DetectSpec.
Import Py Segmentation.

(** Box and mask are both present or both absent, and they are present
    exactly when the score exceeds the threshold. *)
Definition detection_invariant (threshold : Q) (det : Detection) : Prop :=
  (det_box det = None <-> det_mask det = None) /\
  (is_Some (det_box det) <-> threshold < det_score det) /\
  (is_Some (det_mask det) <-> threshold < det_score det).

(** The network output is a well-formed triple for [n_classes] classes:
    at least one proposal, one score per class and proposal, one box and
    at least one raw mask per proposal. *)
Definition well_formed (n_classes : nat)
    (out : list (list Q) * list Box * list (list RawMask)) : Prop :=
  let '(scores, boxes, masks) := out in
  scores <> [] /\
  Forall (fun row => length row = n_classes) scores /\
  length boxes = length scores /\
  length masks = length scores /\
  Forall (fun m => m <> []) masks.

(** A segmentation stub over two classes that proposes one region with
    foreground score [score]. *)
Definition one_proposal (score : Q) : ObjectSegmentation :=
  mkSegmentation ["__background__"; "cup"]%string true
    (fun _ => ([[1 - score; score]], [[0; 0; 9; 9]], [[[[1]]]]))
    (fun _ _ _ => inr [[255%Z]]).

Definition colour_image : Image := mkImage [800; 1280; 3]%Z 0.

End DetectSpec.

Module ServoSpec.
Import Py Servoing.

(** [self._robot.cameras[arm]] is [cam]. *)
Definition camera_of (self : Servo) (arm : string) (cam : Camera) : Prop :=
  exists cams,
    camera_attrs (_robot self) !! "cameras"%string = Some cams /\
    cams !! arm = Some cam.

(** The pixel error of [_error] for an [(h, w)] image. *)
Definition pixel_error (self : Servo) (h w : Z) (rroi : RRoi) : Q :=
  np_sqrt self
    (fold_left Qplus
       (map (fun d => d * d)
            [ inject_Z (w / 2) - fst (center rroi);
              inject_Z (h / 2) - snd (center rroi) ]) 0).

(** The pose [_iterate] hands to inverse kinematics: the endpoint pose
    plus [(dx, dy, 0, 0, 0, angle)], with
    [(dx, dy) = (detectedCenter - imageCenter) * factor * kp]. *)
Definition correction (h w : Z) (factor : Q) (rroi : RRoi) : list Q :=
  [ (fst (center rroi) - inject_Z (w / 2)) * factor * kp;
    (snd (center rroi) - inject_Z (h / 2)) * factor * kp;
    0; 0; 0; angle rroi ].

(** The correction with
    [(dx, dy) = (imageCenter - detectedCenter) * factor * kp]. *)
Definition stated_correction (h w : Z) (factor : Q) (rroi : RRoi)
    : list Q :=
  [ (inject_Z (w / 2) - fst (center rroi)) * factor * kp;
    (inject_Z (h / 2) - snd (center rroi)) * factor * kp;
    0; 0; 0; angle rroi ].

(** What the [try] block of [_iterate] does once the move has been
    commanded: detect again on the same image and measure again. *)
Definition remeasure (self : Servo) (arm object_id : string)
    (img : Image) (rroi : RRoi) (camera_error : Q) : M State (RRoi * Q) :=
  try_except
    (let* rroi := _find_rotated_enclosing_rect self img object_id in
     try_except
       (let* camera_error :=
          _error self (firstn 2 (shape img)) object_id rroi arm in
        ret (rroi, camera_error))
       ValueError
       (fun e => modify (emit (EvLogError (exc_msg e))) ;;
                 ret (rroi, camera_error)))
    ValueError
    (fun e => modify (emit (EvLogError (exc_msg e))) ;;
              ret (rroi, camera_error)).

Definition collected (arm : string) (img : Image) (s : State) : State :=
  emit (EvCollectImage arm img) (tick_frames s).

Definition requested (arm : string) (pose : list Q) (s : State) : State :=
  emit (EvIKRequest arm pose) (tick_ik s).

(** No inverse-kinematics request and no move command in a trace. *)
Definition no_motion (t : list Event) : Prop :=
  forall e, In e t ->
    match e with
    | EvIKRequest _ _ | EvMoveTo _ => False
    | _ => True
    end.

End ServoSpec.

Module ServoStubs.
Import Py Servoing.

(** A square root that is exact on squares of rationals. *)
Definition sqrt_stub (q : Q) : Q :=
  Z.sqrt (Qnum q * QDen q) # Qden q.

(** A camera delivering 1280x800 colour frames. *)
Definition camera : Camera :=
  mkCamera (fun k => mkImage [800; 1280; 3]%Z k) 0.0025.

(** A robot handle with the left camera under [cameras], resting at a
    fixed pose, whose inverse kinematics is the stub [ik]. *)
Definition robot (ik : nat -> string -> list Q -> Exc + Config)
    : RobotHandle :=
  mkRobotHandle
    {[ "cameras"%string := {[ "left"%string := camera ]} ]}
    (fun _ _ => [0.5; 0; 0.15; 0; 0; 0])
    ik.

Definition ik_ok : nat -> string -> list Q -> Exc + Config :=
  fun _ _ _ => inr [].


(** Inverse kinematics failing with a [ValueError]. *)
Definition ik_value_error : nat -> string -> list Q -> Exc + Config :=
  fun _ _ _ => inl (mkExc ValueError Robot.no_valid_configuration).

(** A servo instance with tolerance 1 cm and a constant distance
    estimate of 0.3 m, whose segmentation proposes one region of the
    given [score] and whose masks enclose the rectangle [rect]. *)
Definition servo_stub (ik : nat -> string -> list Q -> Exc + Config)
    (score : Q) (rect : RRoi) : Servo :=
  mkServo (robot ik) (DetectSpec.one_proposal score) 0.01
          (fun _ _ _ => inr 0.3) (fun _ => rect) sqrt_stub.

(** A rectangle centred on the image centre [(640, 400)]. *)
Definition centred : RRoi := mkRRoi (640, 400) (50, 30) 0.1.

(** A rectangle 60 pixels to the right of the image centre. *)
Definition off_centre : RRoi := mkRRoi (700, 400) (50, 30) 0.1.

End ServoStubs.

Module TraceOrder.
Import Py Servoing.

(** [s'] is reached from [s] by appending events and counting calls. *)
Definition extends (s s' : State) : Prop :=
  exists rest, trace s' = trace s ++ rest.

(** A computation that only ever appends to the trace. *)
Definition mono {A} (c : M State A) : Prop :=
  forall s, extends s (snd (c s)).

End TraceOrder.

Module MoreStubs.
Import Py Robot.

(** A calibration stub whose range sensor only ever reports the
    out-of-range sentinel; every move succeeds. *)
Definition out_of_range : Hardware :=
  mkHardware (fun _ _ => Response true []) (fun _ => 0) (fun _ => 65535%Z)
             (fun _ => false) (fun _ => [0; 0; 0; 0; 0; 0]) (fun _ => []).

(** The keys [_pixel2position] reads from [self._cam_pars]. *)
Definition parameter_keys : list string :=
  ["mpp"; "dist"; "x_offset"; "y_offset"; "z_offset"]%string.

(** What the calibration loop keeps between the state [s0] it started in
    and the state [w] it has reached with the samples [dist]: six draws
    per IK request, no more moves than requests, one sensor reading per
    move, no more samples than readings, and an untouched gripper. *)
Definition setup_counts (s0 : State) (dist : list Q) (w : State) : Prop :=
  (n_ik s0 <= n_ik w)%nat /\
  (n_random w + 6 * n_ik s0 = n_random s0 + 6 * n_ik w)%nat /\
  (n_moves w + n_ik s0 <= n_ik w + n_moves s0)%nat /\
  (n_moves w + n_range s0 = n_range w + n_moves s0)%nat /\
  (length dist + n_range s0 <= n_range w)%nat /\
  n_grip w = n_grip s0.

End MoreStubs.

Module ArgmaxSpec.

(** [k] is the first index at which the list [l] attains its maximum. *)
Definition first_maximum (l : list Q) (k : nat) : Prop :=
  (k < length l)%nat /\
  (forall j, (j < length l)%nat -> nth j l 0 <= nth k l 0) /\
  (forall j, (j < k)%nat -> nth j l 0 < nth k l 0).

(** Images for the shape check of [detect]. *)
Definition grey_image : Segmentation.Image :=
  Segmentation.mkImage [800; 1280]%Z 0.
Definition four_channel_image : Segmentation.Image :=
  Segmentation.mkImage [800; 1280; 4]%Z 0.

(** A segmentation stub over three classes with two proposals. *)
Definition two_proposals : Segmentation.ObjectSegmentation :=
  Segmentation.mkSegmentation
    ["__background__"; "cup"; "ball"]%string true
    (fun _ => ([[0.1; 0.6; 0.3]; [0.05; 0.05; 0.9]],
               [[0; 0; 9; 9]; [10; 10; 19; 19]],
               [[[[1]]]; [[[1]]]]))
    (fun _ _ _ => inr [[255%Z]]).

End ArgmaxSpec.

Module ServoMore.
Import Py Servoing.

(** The detection call of [_find_rotated_enclosing_rect]: the best
    detection for the identifier ['hand'], the detection of the object
    otherwise, both at the fixed threshold 0.8. *)
Definition detection (self : Servo) (image : Image) (object_id : string)
    : M State Detection :=
  if String.eqb object_id "hand" then
    detect_best (_segmentation self) image 0.8
  else
    detect_object (_segmentation self) image object_id 0.8.

(** Events that touch neither the arm nor the camera: drawing on and
    publishing the image [img], and error logs. *)
Definition display_only (img : Image) (e : Event) : Prop :=
  match e with
  | EvDrawPublish i _ => i = img
  | EvLogError _ => True
  | _ => False
  end.

(** Same counters, a longer trace. *)
Definition quiet_step (img : Image) (s s' : State) : Prop :=
  n_frames s' = n_frames s /\ n_ik s' = n_ik s /\ n_moves s' = n_moves s /\
  exists rest, trace s' = trace s ++ rest /\ Forall (display_only img) rest.

End ServoMore.

Module DemoSpec.
Import Py.

(** The number of grasps, among those numbered [from], ..., [from + n - 1],
    after which the gripper reports an object. *)
Definition successes (hw : Robot.Hardware) (from n : nat) : nat :=
  length (List.filter (Robot.gripping hw) (seq from n)).

(** Between the state [s0] in which [demonstrate] started and the state
    [st] in which its loop is about to test its condition with the
    counter at [n]: the loop has made [attempts] passes, polling
    [rospy.is_shutdown] once before each; every pass has closed the
    gripper once and requested one inverse kinematics solution; the
    counter equals the number of successful grasps so far and has not
    passed the target. *)
Definition counted (hw : Robot.Hardware) (target : Z)
    (s0 : Demonstration.State) (n : Z) (st : Demonstration.State) : Prop :=
  exists attempts,
    Demonstration.n_polls st = (Demonstration.n_polls s0 + attempts)%nat /\
    Robot.n_grip (Demonstration.robot st)
    = (Robot.n_grip (Demonstration.robot s0) + attempts)%nat /\
    Robot.n_ik (Demonstration.robot st)
    = (Robot.n_ik (Demonstration.robot s0) + attempts)%nat /\
    n = Z.of_nat (successes hw (Robot.n_grip (Demonstration.robot s0))
                    attempts) /\
    (0 <= n <= Z.max 0 target)%Z.

(** A gripper that grasps at every second attempt. *)
Definition every_second : Robot.Hardware :=
  Robot.mkHardware (fun _ _ => Robot.Response true []) (fun _ => 0)
    (fun _ => 0%Z) (fun k => Nat.odd k) (fun _ => [0; 0; 0; 0; 0; 0])
    (fun _ => []).

Definition start : Demonstration.State :=
  Demonstration.mkState Robot.initial_state 0.

End DemoSpec.

(** * Properties *)

(** ** Arithmetic helpers *)

Lemma Qltb_lt (a b : Q) : Py.Qltb a b = true <-> a < b.
Proof. unfold Py.Qltb, Qlt. rewrite Z.ltb_lt. lia. Qed.

Lemma Qltb_ge (a b : Q) : Py.Qltb a b = false <-> b <= a.
Proof. unfold Py.Qltb, Qle. rewrite Z.ltb_ge. lia. Qed.

(** Division by a literal, made palatable to [lra]. *)
Ltac qlit := unfold Qdiv; cbn [Qinv Qnum Qden].

(** ** [robot.py]: pose perturbation *)

Section PerturbFacts.
Import Py Robot PerturbSpec.
Variable hw : Hardware.

Lemma perturbe_pose_run (pose : Pose) (s : State) :
  _perturbe_pose hw pose s
  = (Ret (zip_add pose (perturbation hw (n_random s))), draw6 s).
Proof.
  unfold _perturbe_pose, np_random_random, bind, gets, modify, ret,
    perturbation, draw6, tick_random; cbn.
  repeat f_equal; lia.
Qed.


Lemma perturbe_pose_truthy (pose : Pose) (k : nat) :
  pose <> [] -> truthy (zip_add pose (perturbation hw k)) = true.
Proof. destruct pose; [congruence | reflexivity]. Qed.

Hypothesis random_unit : forall k, 0 <= random hw k /\ random hw k < 1.



End PerturbFacts.


(** ** [robot.py]: the pick attempt *)

Lemma while_done {W S} (fuel : nat) (cond : S -> bool)
    (body : S -> Py.M W S) (s : S) :
  cond s = false -> Py.while fuel cond body s = Py.ret s.
Proof. intros H. destruct fuel; cbn; rewrite H; reflexivity. Qed.

Lemma while_step {W S} (fuel : nat) (cond : S -> bool)
    (body : S -> Py.M W S) (s : S) :
  cond s = true ->
  Py.while (Datatypes.S fuel) cond body s
  = Py.bind (body s) (Py.while fuel cond body).
Proof. intros H. cbn. rewrite H. reflexivity. Qed.

(** [C1] The retry loop of [pick_and_place_object] never retries the move:
    it tests the truth value of the list returned by [_perturbe_pose],
    which is never empty.  With a move-to-pose stub that always fails, and
    equally with one that fails twice and would then succeed, the attempt
    issues a single IK request (for the unperturbed top pose), commands no
    move, and goes on to close the gripper, returning what the gripper
    reports. *)
Theorem pick_and_place_grasps_after_failed_move
    (rnd : nat -> Q) (rng : nat -> Z) (grip : nat -> bool)
    (ep : nat -> Robot.Pose) (ja : nat -> Robot.Joints)
    (fuel : nat) (s : Robot.State) :
  let t := 0.0 + (10.0 - 0.0) * rnd (Robot.n_random s) in
  let gripped := grip (Robot.n_grip s) in
  (let r := Robot.pick_and_place_object
              (PickStubs.always_fails rnd rng grip ep ja) (S fuel) s in
   fst r = Py.Ret gripped /\
   Robot.trace (snd r)
   = Robot.trace s ++ PickStubs.trace_after_failed_move t gripped /\
   Robot.n_ik (snd r) = S (Robot.n_ik s)) /\
  (let r := Robot.pick_and_place_object
              (PickStubs.fails_twice rnd rng grip ep ja) (S fuel)
              (Robot.mkState (Robot._cam_pars s) (Robot.resolution s) 0
                 (Robot.n_random s) (Robot.n_range s) (Robot.n_grip s)
                 (Robot.n_moves s) (Robot.trace s)) in
   fst r = Py.Ret gripped /\
   Robot.trace (snd r)
   = Robot.trace s ++ PickStubs.trace_after_failed_move t gripped /\
   Robot.n_ik (snd r) = 1%nat).
Proof.
  intros t gripped. subst t gripped.
  unfold PickStubs.trace_after_failed_move.
  split.
  - destruct fuel; cbn; destruct (grip (Robot.n_grip s)); cbn;
      rewrite <- ?app_assoc; repeat split; reflexivity.
  - destruct fuel; cbn; destruct (grip (Robot.n_grip s)); cbn;
      rewrite <- ?app_assoc; repeat split; reflexivity.
Qed.

(** ** [robot.py]: calibration *)

Lemma while_inv {W S} (I : S -> W -> Prop) (cond : S -> bool)
    (body : S -> Py.M W S) :
  (forall s w s' w',
      I s w -> cond s = true -> body s w = (Py.Ret s', w') -> I s' w') ->
  forall fuel s w s' w',
    I s w -> Py.while fuel cond body s w = (Py.Ret s', w') ->
    I s' w' /\ cond s' = false.
Proof.
  intros Hbody fuel. induction fuel as [|fuel IH]; intros s w s' w' HI Hrun.
  - cbn in Hrun. destruct (cond s) eqn:Hc; [discriminate |].
    injection Hrun as <- <-. auto.
  - cbn in Hrun. destruct (cond s) eqn:Hc.
    + unfold Py.bind in Hrun.
      destruct (body s w) as [[s1 | e |] w1] eqn:Hb; try discriminate.
      eapply IH; [| exact Hrun]. eapply Hbody; eauto.
    + injection Hrun as <- <-. auto.
Qed.

Lemma sum_const (c : Q) (l : list Q) (a : Q) :
  Forall (fun x => x == c) l ->
  fold_left Qplus l a == a + inject_Z (Z.of_nat (length l)) * c.
Proof.
  intros H. revert a. induction H as [|x l Hx _ IH]; intros a.
  - cbn [fold_left length]. change (inject_Z (Z.of_nat 0)) with 0. lra.
  - cbn [fold_left length]. rewrite IH, Hx, Nat2Z.inj_succ.
    unfold Z.succ. rewrite inject_Z_plus. change (inject_Z 1) with 1. lra.
Qed.

Lemma mean_const (c : Q) (l : list Q) :
  l <> [] -> Forall (fun x => x == c) l -> Py.np_mean l == c.
Proof.
  intros Hne H. unfold Py.np_mean. rewrite (sum_const c l 0 H).
  assert (Hn : ~ inject_Z (Z.of_nat (length l)) == 0).
  { destruct l; [congruence |]. cbn [length]. rewrite Nat2Z.inj_succ.
    unfold Z.succ. rewrite inject_Z_plus.
    pose proof (Nat2Z.is_nonneg (length l)) as Hl.
    assert (0 <= inject_Z (Z.of_nat (length l))).
    { change 0 with (inject_Z 0). now rewrite <- Zle_Qle. }
    change (inject_Z 1) with 1. lra. }
  field. exact Hn.
Qed.

Section CalibrationFacts.
Import Py Robot PerturbSpec CalibSpec.
Variable hw : Hardware.

Lemma move_to_pose_run (p : Pose) (s : State) :
  _move_to_pose hw p s =
  match ik_service hw (n_ik s) p with
  | Response true joints =>
      (Ret true, tick_moves (emit (EvMoveJoints joints) (ik_requested p s)))
  | Response false _ =>
      (Ret false, emit (EvLogErr no_valid_configuration) (ik_requested p s))
  | ServiceFails msg =>
      (Ret false, emit (EvLogErr msg) (ik_requested p s))
  end.
Proof.
  unfold _move_to_pose, try_except, _inverse_kinematics, bind, gets,
    modify, ret, raise, ik_requested.
  destruct (ik_service hw (n_ik s) p) as [msg | [|] joints]; reflexivity.
Qed.

Lemma setup_body_eq (pose : Pose) (dist : list Q) (s : State) :
  setup_body hw pose dist s =
  let p := zip_add pose (perturbation hw (n_random s)) in
  match ik_service hw (n_ik s) p with
  | Response true joints =>
      let d := hand_range hw (n_range s) in
      let s' :=
        emit (EvRangeRead d)
          (tick_range
             (tick_moves
                (emit (EvMoveJoints joints) (ik_requested p (draw6 s))))) in
      if (d <? 65000)%Z then
        match nth_error p 2 with
        | Some z => (Ret (dist ++ [inject_Z d / 1000.0 - z]), s')
        | None => (Raise (mkExc IndexError "list index out of range"), s')
        end
      else (Ret dist, s')
  | Response false _ =>
      (Ret dist,
       emit (EvLogErr no_valid_configuration) (ik_requested p (draw6 s)))
  | ServiceFails msg =>
      (Ret dist, emit (EvLogErr msg) (ik_requested p (draw6 s)))
  end.
Proof.
  cbv zeta. unfold setup_body. unfold bind at 1.
  rewrite perturbe_pose_run. unfold bind at 1.
  rewrite move_to_pose_run. change (n_ik (draw6 s)) with (n_ik s).
  destruct (ik_service hw (n_ik s) _) as [msg | [|] joints];
    try reflexivity.
  unfold bind, gets, modify, ret, raise, pose_item.
  change (n_range (tick_moves _)) with (n_range s).
  destruct (hand_range hw (n_range s) <? 65000)%Z; [| reflexivity].
  destruct (nth_error _ 2); reflexivity.
Qed.

(** One pass of the loop body, case by case. *)
Lemma setup_body_run (pose : Pose) (dist : list Q) (s : State) :
  let p := zip_add pose (perturbation hw (n_random s)) in
  let r := setup_body hw pose dist s in
  (exists rest, trace (snd r) = trace s ++ EvIKRequest p :: rest) /\
  _cam_pars (snd r) = _cam_pars s /\
  n_random (snd r) = (n_random s + 6)%nat /\
  match ik_service hw (n_ik s) p with
  | Response true _ =>
      let d := hand_range hw (n_range s) in
      fst r =
        if (d <? ceiling)%Z then
          match nth_error p 2 with
          | Some z => Ret (dist ++ [inject_Z d / 1000.0 - z])
          | None => Raise (mkExc IndexError "list index out of range")
          end
        else Ret dist
  | _ => fst r = Ret dist
  end.
Proof.
  intros p r. subst r. rewrite setup_body_eq. fold p. cbv zeta.
  unfold ceiling, ik_requested.
  destruct (ik_service hw (n_ik s) p) as [msg | [|] joints].
  - cbn. repeat split. eexists. rewrite <- app_assoc. reflexivity.
  - destruct (hand_range hw (n_range s) <? 65000)%Z;
      [destruct (nth_error p 2) |]; cbn; repeat split;
      eexists; rewrite <- !app_assoc; reflexivity.
  - cbn. repeat split. eexists. rewrite <- app_assoc. reflexivity.
Qed.

Lemma commanded_item (n0 j : nat) :
  nth_error (commanded hw n0 j) 2
  = Some (nth 2 (commanded hw n0 j) 0).
Proof. reflexivity. Qed.

Lemma setup_body_inv (n0 : nat) (dist : list Q) (w : State)
    (dist' : list Q) (w' : State) :
  setup_inv hw n0 dist w ->
  (length dist <? n_calibrations)%nat = true ->
  setup_body hw probing_pose dist w = (Ret dist', w') ->
  setup_inv hw n0 dist' w'.
Proof.
  intros (Hlen & Hall & (j & Hj) & Hc) Hcond Hrun.
  apply Nat.ltb_lt in Hcond.
  rewrite setup_body_eq in Hrun. cbv zeta in Hrun.
  rewrite Hj in Hrun. fold (commanded hw n0 j) in Hrun.
  assert (Hnext : exists j', (n_random w + 6 = n0 + 6 * j')%nat)
    by (exists (S j); lia).
  destruct (ik_service hw (n_ik w) (commanded hw n0 j))
    as [msg | [|] joints] eqn:Hik.
  - injection Hrun as <- <-. repeat split; auto.
  - destruct (hand_range hw (n_range w) <? 65000)%Z eqn:Hd.
    + rewrite commanded_item in Hrun. injection Hrun as <- <-.
      repeat split; auto.
      * rewrite length_app. cbn. lia.
      * apply Forall_app. split; [exact Hall |].
        constructor; [| constructor].
        exists j, (n_ik w), (n_range w), joints.
        repeat split; auto. now apply Z.ltb_lt.
    + injection Hrun as <- <-. repeat split; auto.
  - injection Hrun as <- <-. repeat split; auto.
Qed.

Lemma setup_loop_inv (n0 fuel : nat) (dist : list Q) (w : State)
    (dist' : list Q) (w' : State) :
  setup_inv hw n0 dist w ->
  setup_loop hw fuel dist w = (Ret dist', w') ->
  setup_inv hw n0 dist' w' /\ length dist' = n_calibrations.
Proof.
  intros HI Hrun. unfold setup_loop in Hrun.
  apply (while_inv (setup_inv hw n0)) in Hrun; auto.
  - destruct Hrun as [HI' Hc]. split; [exact HI' |].
    apply Nat.ltb_ge in Hc. destruct HI' as (Hlen & _). lia.
  - intros. eapply setup_body_inv; eauto.
Qed.

Lemma perform_setup_eq (fuel : nat) (s : State) :
  _perform_setup hw fuel s =
  match setup_loop hw fuel [] (set_cam_pars (Some ∅) s) with
  | (Ret dist, w) =>
      match _cam_pars w with
      | Some c =>
          (Ret tt,
           set_cam_pars
             (Some (<["z_offset"%string := 0.02 + 0.01 + 0.0]>
                      (<["y_offset"%string := -(0.02)]>
                         (<["x_offset"%string := 0.01]>
                            (<["mpp"%string := 0.0025]>
                               (<["dist"%string := np_mean dist]> c))))))
             w)
      | None =>
          (Raise (mkExc TypeError
                    "'NoneType' object does not support item assignment"),
           w)
      end
  | (Raise e, w) => (Raise e, w)
  | (Diverge, w) => (Diverge, w)
  end.
Proof.
  unfold _perform_setup, setup_loop, n_calibrations, probing_pose.
  unfold bind at 1. unfold modify at 1. unfold bind at 1.
  destruct (while fuel _ _ [] (set_cam_pars (Some ∅) s))
    as [[dist | e |] w]; try reflexivity.
  unfold bind, gets, modify, raise.
  destruct w as [[c|] ? ? ? ? ? ? ?]; reflexivity.
Qed.

(** Whenever [_perform_setup] returns, it has averaged exactly ten
    accepted samples. *)
Lemma perform_setup_samples (fuel : nat) (s s' : State) :
  _perform_setup hw fuel s = (Ret tt, s') ->
  exists dist,
    length dist = n_calibrations /\
    Forall (accepted_sample hw (n_random s)) dist /\
    _cam_pars s' = Some (calibrated (np_mean dist)).
Proof.
  rewrite perform_setup_eq.
  destruct (setup_loop hw fuel [] (set_cam_pars (Some ∅) s))
    as [[dist | e |] w] eqn:Hloop; try discriminate.
  apply (setup_loop_inv (n_random s)) in Hloop.
  - destruct Hloop as [(_ & Hall & _ & Hc) Hlen]. rewrite Hc.
    intros H. injection H as <-. exists dist. repeat split; auto.
  - repeat split; [cbn; lia | constructor | exists 0%nat; cbn; lia].
Qed.

(** With moves that always succeed and readings always below the
    ceiling the loop ends within ten passes. *)
Lemma setup_loop_terminates :
  (forall k p, exists joints, ik_service hw k p = Response true joints) ->
  (forall k, (hand_range hw k < ceiling)%Z) ->
  forall n fuel dist s,
    (length dist + n = n_calibrations)%nat -> (n <= fuel)%nat ->
    exists dist' s', setup_loop hw fuel dist s = (Ret dist', s').
Proof.
  intros Hik Hrange. unfold setup_loop.
  induction n as [|n IH]; intros fuel dist s Hlen Hfuel.
  - rewrite while_done; [eexists _, _; reflexivity |].
    apply Nat.ltb_ge. lia.
  - destruct fuel as [|fuel]; [lia |].
    rewrite while_step by (apply Nat.ltb_lt; lia).
    unfold bind at 1. rewrite setup_body_eq. cbv zeta.
    destruct (Hik (n_ik s)
                (zip_add probing_pose (perturbation hw (n_random s))))
      as [joints ->].
    pose proof (Hrange (n_range s)) as Hd. apply Z.ltb_lt in Hd.
    unfold ceiling in Hd. rewrite Hd.
    change (nth_error (zip_add probing_pose _) 2) with
      (Some (nth 2 (zip_add probing_pose
                      (perturbation hw (n_random s))) 0)).
    cbv iota beta. apply IH; [rewrite length_app; cbn; lia | lia].
Qed.

End CalibrationFacts.

(** The mean of ten equal samples in binary64, checked reading by
    reading. *)
Lemma all_from_close (n : nat) :
  forall d k,
    CalibFloat.all_from n d = true ->
    (d <= k < d + Z.of_nat n)%Z -> CalibFloat.close k = true.
Proof.
  induction n as [|n IH]; intros d k H Hk; [lia |].
  cbn [CalibFloat.all_from] in H. apply andb_prop in H as [H1 H2].
  destruct (Z.eq_dec k d) as [-> | Hne]; [exact H1 |].
  apply (IH (d + 1)%Z); [exact H2 | lia].
Qed.

Lemma valid_readings_close :
  CalibFloat.all_from (Z.to_nat CalibSpec.ceiling) 0 = true.
Proof. vm_compute. reflexivity. Qed.

Lemma steady_mean_close (d : Z) :
  (0 <= d < CalibSpec.ceiling)%Z -> CalibFloat.close d = true.
Proof.
  intros Hd. apply (all_from_close _ 0%Z d valid_readings_close).
  rewrite Z2Nat.id by (unfold CalibSpec.ceiling; lia). lia.
Qed.

(** [C6] Calibration.
    (1) One pass of the loop commands the perturbed probing pose [p]; if
    the move succeeds and the reading [d] is below the ceiling, the sample
    [d/1000 - p[2]] is appended; if the reading is at or above the ceiling,
    or the move fails, nothing is appended.
    (2) Whenever [_perform_setup] returns, [_cam_pars['dist']] is the
    arithmetic mean of exactly ten samples, each taken from an accepted
    reading at a commanded pose.
    (3) With a sensor that always reads a valid [d] and commanded poses
    whose z is 0, that mean equals [d/1000] in exact arithmetic; and if
    moreover every move succeeds, ten passes suffice for [_perform_setup]
    to return.
    (4) In binary64, for every reading [0 <= d < 65000], the mean of the
    ten samples [d/1000.0 - 0.0] is within two units in the last place of
    the float [d/1000.0], whether the samples are added as numpy adds them
    or from left to right. *)
Theorem calibration_average (hw : Robot.Hardware) :
  (forall pose dist s,
      let p := Py.zip_add pose (PerturbSpec.perturbation hw (Robot.n_random s)) in
      let r := Robot.setup_body hw pose dist s in
      (exists rest,
          Robot.trace (snd r) = Robot.trace s ++ Robot.EvIKRequest p :: rest) /\
      match Robot.ik_service hw (Robot.n_ik s) p with
      | Robot.Response true _ =>
          let d := Robot.hand_range hw (Robot.n_range s) in
          fst r =
            if (d <? CalibSpec.ceiling)%Z then
              match nth_error p 2 with
              | Some z => Py.Ret (dist ++ [inject_Z d / 1000.0 - z])
              | None =>
                  Py.Raise (Py.mkExc Py.IndexError "list index out of range")
              end
            else Py.Ret dist
      | _ => fst r = Py.Ret dist
      end) /\
  (forall fuel s s',
      Robot._perform_setup hw fuel s = (Py.Ret tt, s') ->
      exists dist,
        length dist = 10%nat /\
        Forall (CalibSpec.accepted_sample hw (Robot.n_random s)) dist /\
        Robot._cam_pars s' = Some (CalibSpec.calibrated (Py.np_mean dist)) /\
        CalibSpec.calibrated (Py.np_mean dist) !! "dist"%string
        = Some (fold_left Qplus dist 0 / inject_Z 10)) /\
  (forall d fuel s,
      (d < CalibSpec.ceiling)%Z ->
      (forall k, Robot.hand_range hw k = d) ->
      (forall j, nth 2 (CalibSpec.commanded hw (Robot.n_random s) j) 0 == 0) ->
      (forall s',
          Robot._perform_setup hw fuel s = (Py.Ret tt, s') ->
          exists avg,
            Robot._cam_pars s' ≫= (fun c => c !! "dist"%string) = Some avg /\
            avg == inject_Z d / 1000) /\
      ((forall k p, exists joints,
           Robot.ik_service hw k p = Robot.Response true joints) ->
       (10 <= fuel)%nat ->
       exists s', Robot._perform_setup hw fuel s = (Py.Ret tt, s'))) /\
  (forall d,
      (0 <= d < CalibSpec.ceiling)%Z ->
      CalibFloat.within_two_ulps
        (F64.np_mean (CalibFloat.steady_samples d)) (CalibFloat.metres d)
      = true /\
      CalibFloat.within_two_ulps
        (F64.sequential_mean (CalibFloat.steady_samples d))
        (CalibFloat.metres d)
      = true).
Proof.
  split; [| split; [| split]]; cycle 3.
  { intros d Hd. apply andb_prop. exact (steady_mean_close d Hd). }
  - intros pose dist s p r.
    destruct (setup_body_run hw pose dist s) as (Htr & _ & _ & Hres).
    split; [exact Htr | exact Hres].
  - intros fuel s s' Hrun.
    destruct (perform_setup_samples hw fuel s s' Hrun)
      as (dist & Hlen & Hall & Hc).
    exists dist. repeat split; auto.
    unfold CalibSpec.calibrated.
    rewrite !lookup_insert_ne by discriminate.
    rewrite lookup_insert_eq. unfold Py.np_mean.
    unfold CalibSpec.n_calibrations in Hlen. rewrite Hlen. reflexivity.
  - intros d fuel s Hd Hrange Hz. split.
    + intros s' Hrun.
      destruct (perform_setup_samples hw fuel s s' Hrun)
        as (dist & Hlen & Hall & Hc).
      exists (Py.np_mean dist). rewrite Hc. split.
      * cbn. unfold CalibSpec.calibrated.
        rewrite !lookup_insert_ne by discriminate.
        now rewrite lookup_insert_eq.
      * apply mean_const.
        { intros ->. discriminate. }
        eapply Forall_impl; [exact Hall |].
        intros x (j & ki & kr & joints & _ & _ & ->).
        rewrite Hrange, (Hz j). qlit. lra.
    + intros Hik Hfuel. rewrite perform_setup_eq.
      destruct (setup_loop_terminates hw Hik
                  (fun k => eq_ind_r (fun z => (z < CalibSpec.ceiling)%Z)
                              Hd (Hrange k))
                  10%nat fuel [] (Robot.set_cam_pars (Some ∅) s)
                  eq_refl Hfuel) as (dist & w & Hloop).
      rewrite Hloop.
      apply (setup_loop_inv hw (Robot.n_random s)) in Hloop.
      * destruct Hloop as [(_ & _ & _ & ->) _]. eexists. reflexivity.
      * repeat split; [cbn; lia | constructor | exists 0%nat; cbn; lia].
Qed.

Lemma calibration_average_witness :
  exists s' avg,
    Robot._perform_setup (CalibSpec.steady 300) 10 Robot.initial_state
    = (Py.Ret tt, s') /\
    Robot._cam_pars s' ≫= (fun c => c !! "dist"%string) = Some avg /\
    avg == 300 / 1000.
Proof.
  destruct (calibration_average (CalibSpec.steady 300)) as (_ & _ & H & _).
  destruct (H 300%Z 10%nat Robot.initial_state) as [Havg Hret].
  - reflexivity.
  - intros k. reflexivity.
  - intros j. reflexivity.
  - destruct Hret as [s' Hs'].
    + intros k p. exists []. reflexivity.
    + lia.
    + destruct (Havg s' Hs') as (avg & Hlook & Heq).
      exists s', avg. repeat split; assumption.
Defined.

(** [C6], as stated, fails in the arithmetic of the program: with every
    reading 300 and commanded poses whose z is 0, the ten samples are all
    the float [300/1000.0], and their mean is not that float but the next
    float below it (0.29999999999999993 instead of 0.3), whether the
    samples are added as numpy adds them or from left to right. *)
Lemma calibration_average_binary64_counterexample :
  (300 < CalibSpec.ceiling)%Z /\
  CalibFloat.steady_samples 300 = repeat (CalibFloat.metres 300) 10 /\
  F64.np_mean (CalibFloat.steady_samples 300)
  = PrimFloat.next_down (CalibFloat.metres 300) /\
  F64.sequential_mean (CalibFloat.steady_samples 300)
  = PrimFloat.next_down (CalibFloat.metres 300) /\
  PrimFloat.eqb (F64.np_mean (CalibFloat.steady_samples 300))
    (CalibFloat.metres 300) = false /\
  PrimFloat.ltb (F64.np_mean (CalibFloat.steady_samples 300))
    (CalibFloat.metres 300) = true.
Proof.
  split; [reflexivity |].
  repeat split; vm_compute; reflexivity.
Qed.

(** ** [robot.py]: pixel to position *)

Lemma bind_run {W A B} (c : Py.M W A) (k : A -> Py.M W B)
    (w : W) (a : A) (w' : W) :
  c w = (Py.Ret a, w') -> Py.bind c k w = k a w'.
Proof. intros H. unfold Py.bind. now rewrite H. Qed.

Lemma cam_par_run (hw : Robot.Hardware) (s : Robot.State)
    (c : gmap string Q) (key : string) (v : Q) :
  Robot._cam_pars s = Some c -> c !! key = Some v ->
  Robot.cam_par key s = (Py.Ret v, s).
Proof.
  intros Hc Hk. unfold Robot.cam_par, Py.bind, Py.gets.
  now rewrite Hc, Hk.
Qed.

Lemma pixel2position_run (hw : Robot.Hardware) (s : Robot.State)
    (c : gmap string Q) (dist mpp xo yo zo ex ey : Q) (rest : Robot.Pose)
    (px : Q * Q) :
  Robot._cam_pars s = Some c ->
  PixelSpec.calibration c dist mpp xo yo zo ->
  Robot.endpoint_pose hw (Robot.n_moves s) = ex :: ey :: rest ->
  Robot._pixel2position hw px s =
  (Py.Ret
     [ (snd px - inject_Z (snd (Robot.resolution s) / 2)) * mpp * dist + ex + xo;
       (fst px - inject_Z (fst (Robot.resolution s) / 2)) * mpp * dist + ey + yo;
       dist - zo; 0.0; 0.0; 0.0 ],
   s).
Proof.
  intros Hc (Hd & Hm & Hx & Hy & Hz) He.
  unfold Robot._pixel2position.
  rewrite (bind_run _ _ s (Robot.resolution s) s) by reflexivity.
  destruct (Robot.resolution s) as [w h]. cbn [fst snd].
  assert (Hep : Robot._endpoint_pose hw s = (Py.Ret (ex :: ey :: rest), s)).
  { unfold Robot._endpoint_pose, Py.bind, Py.gets, Py.ret. now rewrite He. }
  repeat first
    [ erewrite bind_run by (eapply cam_par_run; eassumption)
    | erewrite bind_run by exact Hep
    | erewrite bind_run by reflexivity ].
  reflexivity.
Qed.





(** ** [segmentation.py]: detection records *)

Ltac destruct_match_in H :=
  match type of H with
  | context [match ?x with _ => _ end] => destruct x eqn:?
  end.

Lemma detect_object_invariant {W} (self : Segmentation.ObjectSegmentation)
    (image : Segmentation.Image) (object_id : string) (threshold : Q)
    (w w' : W) (det : Segmentation.Detection) :
  Segmentation.detect_object self image object_id threshold w
  = (Py.Ret det, w') ->
  DetectSpec.detection_invariant threshold det.
Proof.
  intros H. unfold Segmentation.detect_object, Py.bind in H.
  repeat (destruct_match_in H; try discriminate).
  all: injection H as <- <-; unfold DetectSpec.detection_invariant;
    cbn [Segmentation.det_box Segmentation.det_mask Segmentation.det_score].
  - match goal with Hq : Py.Qltb _ _ = true |- _ => apply Qltb_lt in Hq end.
    repeat split; intros; try discriminate; eauto.
  - match goal with Hq : Py.Qltb _ _ = false |- _ => apply Qltb_ge in Hq end.
    repeat split; intros; try discriminate; auto;
      try (match goal with Hs : is_Some None |- _ =>
                             destruct Hs; discriminate end);
      exfalso; lra.
Qed.

Lemma detect_best_invariant {W} (self : Segmentation.ObjectSegmentation)
    (image : Segmentation.Image) (threshold : Q)
    (w w' : W) (det : Segmentation.Detection) :
  Segmentation.detect_best self image threshold w = (Py.Ret det, w') ->
  DetectSpec.detection_invariant threshold det.
Proof.
  intros H. unfold Segmentation.detect_best, Py.bind in H.
  repeat (destruct_match_in H; try discriminate).
  all: injection H as <- <-; unfold DetectSpec.detection_invariant;
    cbn [Segmentation.det_box Segmentation.det_mask Segmentation.det_score].
  - match goal with Hq : Py.Qltb _ _ = true |- _ => apply Qltb_lt in Hq end.
    repeat split; intros; try discriminate; eauto.
  - match goal with Hq : Py.Qltb _ _ = false |- _ => apply Qltb_ge in Hq end.
    repeat split; intros; try discriminate; auto;
      try (match goal with Hs : is_Some None |- _ =>
                             destruct Hs; discriminate end);
      exfalso; lra.
Qed.

Section DetectionReturns.
Import Py Segmentation DetectSpec.
Context {W : Type}.
Variable self : ObjectSegmentation.

Lemma item_run {A} (l : list A) (i : nat) (a : A) (w : W) :
  nth_error l i = Some a -> item l i w = (Ret a, w).
Proof. intros H. unfold item. now rewrite H. Qed.

Lemma item_lt {A} (l : list A) (i : nat) (w : W) :
  (i < length l)%nat -> exists a, item l i w = (Ret a, w).
Proof.
  intros H. destruct (nth_error l i) as [a|] eqn:E.
  - exists a. now apply item_run.
  - apply nth_error_None in E. lia.
Qed.

Lemma column_run (rows : list (list Q)) (j : nat) (w : W) :
  Forall (fun r => (j < length r)%nat) rows ->
  exists col, column rows j w = (Ret col, w) /\ length col = length rows.
Proof.
  induction 1 as [|r rows Hr _ (col & Hcol & Hlen)].
  - exists []. split; reflexivity.
  - destruct (item_lt r j w Hr) as [x Hx].
    exists (x :: col). cbn [column].
    rewrite (bind_run _ _ _ _ _ Hx), (bind_run _ _ _ _ _ Hcol).
    split; [reflexivity | cbn; lia].
Qed.

Lemma argmax_from_bound (l : list Q) (i : nat) (best : Q) (bi : nat) :
  (bi < i)%nat -> (argmax_from i best bi l < i + length l)%nat.
Proof.
  revert i best bi. induction l as [|x l IH]; intros i best bi Hbi.
  - cbn. lia.
  - cbn [argmax_from length]. destruct (Qltb best x).
    + specialize (IH (S i) x i). lia.
    + specialize (IH (S i) best bi). lia.
Qed.

Lemma np_argmax_some (l : list Q) :
  l <> [] -> exists k, np_argmax l = Some k /\ (k < length l)%nat.
Proof.
  destruct l as [|x l]; [congruence |]. intros _.
  eexists. split; [reflexivity |].
  pose proof (argmax_from_bound l 1 x 0). cbn [length]. lia.
Qed.

Lemma index_bound (l : list string) (x : string) (i : nat) :
  index l x = Some i -> (i < length l)%nat.
Proof.
  revert i. induction l as [|y l IH]; intros i; [discriminate |].
  cbn [index length]. destruct (String.eqb y x).
  - intros [= <-]. lia.
  - destruct (index l x) as [j|]; [| discriminate].
    intros [= <-]. specialize (IH j eq_refl). lia.
Qed.

Lemma length_concat_uniform {A} (m : nat) (l : list (list A)) :
  Forall (fun r => length r = m) l -> length (concat l) = (length l * m)%nat.
Proof.
  induction 1 as [|r l Hr _ IH]; [reflexivity |].
  cbn [concat length]. rewrite length_app, IH, Hr. lia.
Qed.

Lemma detect_run (image : Image) (w : W) :
  net_loaded self = true -> length (shape image) = 3%nat ->
  detect self image w = (Ret (_im_detect self image), w).
Proof.
  intros Hnet Hshape. unfold detect. rewrite Hnet, Hshape. reflexivity.
Qed.

Hypothesis net_ready : net_loaded self = true.
Hypothesis mask_images :
  forall m b sz, exists mi, _mask_image_from_mask self m b sz = inr mi.

Lemma detect_object_returns (image : Image) (object_id : string)
    (threshold : Q) (w : W) :
  length (shape image) = 3%nat ->
  In object_id (_classes self) ->
  well_formed (length (_classes self)) (_im_detect self image) ->
  exists det,
    detect_object self image object_id threshold w = (Ret det, w) /\
    det_id det = object_id.
Proof using net_ready mask_images.
  intros Hshape Hin Hwf. unfold detect_object.
  destruct (index (_classes self) object_id) as [ci|] eqn:Hidx.
  2:{ exfalso. clear - Hin Hidx.
      induction (_classes self) as [|y l IH]; [easy |].
      cbn [index] in Hidx. destruct (String.eqb y object_id) eqn:E;
        [discriminate |].
      destruct Hin as [-> | Hin]; [now rewrite String.eqb_refl in E |].
      destruct (index l object_id); [discriminate | auto]. }
  apply index_bound in Hidx.
  rewrite (bind_run _ _ _ _ _ (detect_run image w net_ready Hshape)).
  destruct (_im_detect self image) as [[scores boxes] masks].
  destruct Hwf as (Hne & Hrows & Hboxes & Hmasks & Hm0).
  destruct (column_run scores ci w) as (col & Hcol & Hlen).
  { eapply Forall_impl; [exact Hrows |]. cbn. intros r ->. exact Hidx. }
  rewrite (bind_run _ _ _ _ _ Hcol).
  destruct (np_argmax_some col) as (k & -> & Hk).
  { intros ->. destruct scores; [congruence | discriminate]. }
  destruct (item_lt col k w Hk) as [sc Hsc].
  destruct (item_lt boxes k w ltac:(lia)) as [bx Hbx].
  destruct (nth_error masks k) as [m|] eqn:Hm;
    [| apply nth_error_None in Hm; lia].
  assert (Hmne : m <> []).
  { rewrite Forall_forall in Hm0. apply Hm0.
    apply list_elem_of_In. eapply nth_error_In; eauto. }
  destruct m as [|m0 m]; [congruence |].
  destruct (mask_images m0 bx (firstn 2 (shape image))) as [mi Hmi].
  rewrite (bind_run _ _ _ _ _ Hsc), (bind_run _ _ _ _ _ Hbx).
  rewrite (bind_run _ _ _ _ _ (item_run _ _ _ w Hm)).
  rewrite (bind_run _ _ w m0 w) by reflexivity.
  rewrite (bind_run _ _ w mi w) by (unfold lift; now rewrite Hmi).
  destruct (Qltb threshold sc); eexists; split; reflexivity.
Qed.

Lemma detect_best_returns (image : Image) (threshold : Q) (w : W) :
  length (shape image) = 3%nat ->
  (2 <= length (_classes self))%nat ->
  well_formed (length (_classes self)) (_im_detect self image) ->
  exists det, detect_best self image threshold w = (Ret det, w).
Proof using net_ready mask_images.
  intros Hshape Hcls Hwf. unfold detect_best.
  rewrite (bind_run _ _ _ _ _ (detect_run image w net_ready Hshape)).
  destruct (_im_detect self image) as [[scores boxes] masks].
  destruct Hwf as (Hne & Hrows & Hboxes & Hmasks & Hm0).
  set (n := length (_classes self)) in *.
  assert (Hfg : Forall (fun r => length r = (n - 1)%nat)
                  (map (skipn 1) scores)).
  { rewrite Forall_map. eapply Forall_impl; [exact Hrows |].
    cbn. intros r Hr. rewrite length_skipn. lia. }
  assert (Hncols :
    match map (skipn 1) scores with [] => 0%nat | r :: _ => length r end
    = (n - 1)%nat).
  { destruct scores as [|r0 scores]; [congruence |].
    cbn [map]. now inversion Hfg. }
  rewrite Hncols.
  pose proof (length_concat_uniform _ _ Hfg) as Hcat.
  rewrite length_map in Hcat.
  destruct (np_argmax_some (concat (map (skipn 1) scores)))
    as (k & -> & Hk).
  { intros E. rewrite E in Hcat. cbn in Hcat.
    destruct scores; [congruence |]. cbn in Hcat. lia. }
  rewrite Hcat in Hk.
  assert (Hq : (k / (n - 1) < length scores)%nat).
  { apply Nat.Div0.div_lt_upper_bound. lia. }
  assert (Hr : (k mod (n - 1) < n - 1)%nat).
  { apply Nat.mod_upper_bound. lia. }
  destruct (nth_error scores (k / (n - 1))) as [row|] eqn:Hrow;
    [| apply nth_error_None in Hrow; lia].
  assert (Hrowlen : length row = n).
  { rewrite Forall_forall in Hrows. apply Hrows.
    apply list_elem_of_In. eapply nth_error_In; eauto. }
  destruct (item_lt row (k mod (n - 1) + 1) w ltac:(lia)) as [sc Hsc].
  destruct (item_lt boxes (k / (n - 1)) w ltac:(lia)) as [bx Hbx].
  destruct (nth_error masks (k / (n - 1))) as [m|] eqn:Hm;
    [| apply nth_error_None in Hm; lia].
  assert (Hmne : m <> []).
  { rewrite Forall_forall in Hm0. apply Hm0.
    apply list_elem_of_In. eapply nth_error_In; eauto. }
  destruct m as [|m0 m]; [congruence |].
  destruct (mask_images m0 bx (firstn 2 (shape image))) as [mi Hmi].
  destruct (item_lt (_classes self) (k mod (n - 1) + 1) w ltac:(lia))
    as [obj Hobj].
  rewrite (bind_run _ _ _ _ _ (item_run _ _ _ w Hrow)).
  rewrite (bind_run _ _ _ _ _ Hsc), (bind_run _ _ _ _ _ Hbx).
  rewrite (bind_run _ _ _ _ _ (item_run _ _ _ w Hm)).
  rewrite (bind_run _ _ w m0 w) by reflexivity.
  rewrite (bind_run _ _ w mi w) by (unfold lift; now rewrite Hmi).
  rewrite (bind_run _ _ _ _ _ Hobj).
  destruct (Qltb threshold sc); eexists; reflexivity.
Qed.

End DetectionReturns.

(** [C8] For every image and threshold, a record returned by
    [detect_object] or [detect_best] has its box and its mask both present
    or both absent, present exactly when the score exceeds the threshold;
    in particular a score at or below the threshold gives
    [box = mask = None].  And the functions do return such a record,
    rather than raise, whenever the network is loaded, the image has three
    dimensions, the requested object is one of the classes (for
    [detect_best]: there is a class besides the background), the network
    output is well formed and the mask raster can be built. *)
Theorem detection_box_mask_invariant {W : Type}
    (self : Segmentation.ObjectSegmentation)
    (image : Segmentation.Image) (threshold : Q) (w : W) :
  (forall object_id w' det,
      Segmentation.detect_object self image object_id threshold w
      = (Py.Ret det, w') ->
      DetectSpec.detection_invariant threshold det /\
      (Segmentation.det_score det <= threshold ->
       Segmentation.det_box det = None /\
       Segmentation.det_mask det = None)) /\
  (forall w' det,
      Segmentation.detect_best self image threshold w = (Py.Ret det, w') ->
      DetectSpec.detection_invariant threshold det /\
      (Segmentation.det_score det <= threshold ->
       Segmentation.det_box det = None /\
       Segmentation.det_mask det = None)) /\
  (Segmentation.net_loaded self = true ->
   (forall m b sz, exists mi,
       Segmentation._mask_image_from_mask self m b sz = inr mi) ->
   length (Segmentation.shape image) = 3%nat ->
   DetectSpec.well_formed (length (Segmentation._classes self))
     (Segmentation._im_detect self image) ->
   (forall object_id,
       In object_id (Segmentation._classes self) ->
       exists det,
         Segmentation.detect_object self image object_id threshold w
         = (Py.Ret det, w) /\
         Segmentation.det_id det = object_id) /\
   ((2 <= length (Segmentation._classes self))%nat ->
    exists det,
      Segmentation.detect_best self image threshold w = (Py.Ret det, w))).
Proof.
  assert (Hbelow : forall det,
    DetectSpec.detection_invariant threshold det ->
    Segmentation.det_score det <= threshold ->
    Segmentation.det_box det = None /\ Segmentation.det_mask det = None).
  { intros det (_ & Hb & Hm) Hle.
    split.
    - destruct (Segmentation.det_box det); [| reflexivity].
      exfalso. assert (threshold < Segmentation.det_score det)
        by (apply Hb; eauto). lra.
    - destruct (Segmentation.det_mask det); [| reflexivity].
      exfalso. assert (threshold < Segmentation.det_score det)
        by (apply Hm; eauto). lra. }
  split; [| split].
  - intros object_id w' det H.
    apply detect_object_invariant in H. split; auto.
  - intros w' det H. apply detect_best_invariant in H. split; auto.
  - intros Hnet Hmask Hshape Hwf. split.
    + intros object_id Hin.
      now apply detect_object_returns.
    + intros Hcls. now apply detect_best_returns.
Qed.

Lemma detection_box_mask_invariant_witness :
  (DetectSpec.detection_invariant 0.8
     (Segmentation.mkDetection "cup" 0.5 None None)) /\
  (exists det,
      Segmentation.detect_best (DetectSpec.one_proposal 0.5)
        DetectSpec.colour_image 0.8 tt = (Py.Ret det, tt)).
Proof.
  pose proof (detection_box_mask_invariant (DetectSpec.one_proposal 0.5)
                DetectSpec.colour_image 0.8 tt) as (Hobj & _ & Hret).
  split.
  - apply (Hobj "cup"%string tt). reflexivity.
  - apply Hret.
    + reflexivity.
    + intros m b sz. eexists. reflexivity.
    + reflexivity.
    + cbn. repeat split; try discriminate;
        repeat constructor; discriminate.
    + cbn. lia.
Defined.

(** ** [servoing/base.py]: state-free and trace-extending computations *)

Lemma pure_ret {W A} (a : A) : pure (@Py.ret W A a).
Proof. intros w. reflexivity. Qed.

Lemma pure_raise {W A} (e : Py.Exc) : pure (@Py.raise W A e).
Proof. intros w. reflexivity. Qed.

Lemma pure_bind {W A B} (c : Py.M W A) (k : A -> Py.M W B) :
  pure c -> (forall a, pure (k a)) -> pure (Py.bind c k).
Proof.
  intros Hc Hk w. unfold Py.bind. specialize (Hc w).
  destruct (c w) as [[a | e |] w1]; cbn in *; subst; auto. apply Hk.
Qed.

Lemma pure_lift {W A} (r : Py.Exc + A) : pure (@Segmentation.lift W A r).
Proof. destruct r; intros w; reflexivity. Qed.

Lemma pure_item {W A} (l : list A) (i : nat) : pure (@Segmentation.item W A l i).
Proof. unfold Segmentation.item. destruct (nth_error l i); intros w; reflexivity. Qed.

Ltac pure_step :=
  first
    [ apply pure_ret | apply pure_raise | apply pure_lift | apply pure_item
    | assumption
    | apply pure_bind; [| intros ?]
    | match goal with
      | |- pure (match ?x with _ => _ end) => destruct x
      end ].

Lemma pure_column {W} (rows : list (list Q)) (j : nat) :
  pure (@Segmentation.column W rows j).
Proof.
  induction rows as [|r rows IH]; cbn [Segmentation.column];
    repeat pure_step.
Qed.

Lemma pure_detect {W} (self : Segmentation.ObjectSegmentation)
    (image : Segmentation.Image) : pure (@Segmentation.detect W self image).
Proof. unfold Segmentation.detect. repeat pure_step. Qed.

Lemma pure_detect_object {W} (self : Segmentation.ObjectSegmentation)
    (image : Segmentation.Image) (object_id : string) (threshold : Q) :
  pure (@Segmentation.detect_object W self image object_id threshold).
Proof.
  unfold Segmentation.detect_object.
  repeat first [apply pure_detect | apply pure_column | pure_step].
Qed.

Lemma pure_detect_best {W} (self : Segmentation.ObjectSegmentation)
    (image : Segmentation.Image) (threshold : Q) :
  pure (@Segmentation.detect_best W self image threshold).
Proof.
  unfold Segmentation.detect_best.
  repeat first [apply pure_detect | apply pure_column | pure_step].
Qed.

Section TraceFacts.
Import Py Servoing TraceOrder.

Lemma extends_refl (s : State) : extends s s.
Proof. exists []. now rewrite app_nil_r. Qed.

Lemma extends_trans (s1 s2 s3 : State) :
  extends s1 s2 -> extends s2 s3 -> extends s1 s3.
Proof.
  intros [r1 H1] [r2 H2]. exists (r1 ++ r2).
  now rewrite H2, H1, app_assoc.
Qed.

Lemma mono_pure {A} (c : M State A) : pure c -> mono c.
Proof. intros H s. rewrite H. apply extends_refl. Qed.

Lemma mono_bind {A B} (c : M State A) (k : A -> M State B) :
  mono c -> (forall a, mono (k a)) -> mono (bind c k).
Proof.
  intros Hc Hk s. unfold bind. specialize (Hc s).
  destruct (c s) as [[a | e |] s1]; cbn in *; auto.
  eapply extends_trans; [exact Hc | apply Hk].
Qed.

Lemma mono_try_except {A} (c : M State A) (cls : ExcClass)
    (h : Exc -> M State A) :
  mono c -> (forall e, mono (h e)) -> mono (try_except c cls h).
Proof.
  intros Hc Hh s. unfold try_except. specialize (Hc s).
  destruct (c s) as [[a | e |] s1]; cbn in *; auto.
  destruct (isinstance e cls); cbn; auto.
  eapply extends_trans; [exact Hc | apply Hh].
Qed.

Lemma mono_emit (e : Event) : mono (modify (emit e)).
Proof. intros s. exists [e]. reflexivity. Qed.

Lemma mono_tick_frames : mono (modify tick_frames).
Proof. intros s. exists []. cbn. now rewrite app_nil_r. Qed.

Lemma mono_tick_ik : mono (modify tick_ik).
Proof. intros s. exists []. cbn. now rewrite app_nil_r. Qed.

Lemma mono_tick_moves : mono (modify tick_moves).
Proof. intros s. exists []. cbn. now rewrite app_nil_r. Qed.

Lemma mono_gets {A} (f : State -> A) : mono (gets f).
Proof. intros s. apply extends_refl. Qed.

End TraceFacts.

Ltac mono_step :=
  first
    [ apply mono_emit | apply mono_tick_frames | apply mono_tick_ik
    | apply mono_tick_moves | apply mono_gets
    | apply mono_pure;
      first [ apply pure_ret | apply pure_raise | apply pure_lift
            | apply pure_detect_object | apply pure_detect_best ]
    | assumption
    | apply mono_bind; [| intros ?]
    | apply mono_try_except; [| intros ?]
    | match goal with
      | |- TraceOrder.mono (match ?x with _ => _ end) => destruct x
      end ].

Section ServoMono.
Import Py Servoing TraceOrder.
Variable self : Servo.

Lemma mono_robot_camera (attr arm : string) :
  mono (robot_camera self attr arm).
Proof. unfold robot_camera. repeat mono_step. Qed.

Lemma mono_camera_collect (arm : string) (cam : Camera) :
  mono (camera_collect arm cam).
Proof. unfold camera_collect. repeat mono_step. Qed.

Lemma mono_unpack2 (l : list Z) : mono (unpack2 l).
Proof. unfold unpack2. repeat mono_step. Qed.

Lemma mono_find (image : Image) (object_id : string) :
  mono (_find_rotated_enclosing_rect self image object_id).
Proof. unfold _find_rotated_enclosing_rect. repeat mono_step. Qed.

Lemma mono_p2c (object_id : string) (rroi : RRoi) (arm : string) :
  mono (_pixel_to_camera_factor self object_id rroi arm).
Proof.
  unfold _pixel_to_camera_factor.
  repeat first [apply mono_robot_camera | mono_step].
Qed.

Lemma mono_error (image_size : list Z) (object_id : string)
    (rroi : RRoi) (arm : string) :
  mono (_error self image_size object_id rroi arm).
Proof.
  unfold _error.
  repeat first [apply mono_unpack2 | apply mono_p2c | mono_step].
Qed.

End ServoMono.

(** ** [servoing/base.py]: one servo iteration *)

Lemma try_bind_run {W A B} (c : Py.M W A) (k : A -> Py.M W B)
    (cls : Py.ExcClass) (h : Py.Exc -> Py.M W B) (w : W) (a : A) (w' : W) :
  c w = (Py.Ret a, w') ->
  Py.try_except (Py.bind c k) cls h w = Py.try_except (k a) cls h w'.
Proof. intros H. unfold Py.try_except, Py.bind. now rewrite H. Qed.

Lemma try_bind_raise {W A B} (c : Py.M W A) (k : A -> Py.M W B)
    (cls : Py.ExcClass) (h : Py.Exc -> Py.M W B) (w : W) (e : Py.Exc)
    (w' : W) :
  c w = (Py.Raise e, w') ->
  Py.try_except (Py.bind c k) cls h w
  = if Py.isinstance e cls then h e w' else (Py.Raise e, w').
Proof. intros H. unfold Py.try_except, Py.bind. now rewrite H. Qed.

Section IterateFacts.
Import Py Servoing ServoSpec.
Variable self : Servo.

Lemma robot_camera_run (arm : string) (cam : Camera) (s : State) :
  camera_of self arm cam ->
  robot_camera self "cameras" arm s = (Ret cam, s).
Proof.
  intros (cams & Hc & Ha). unfold robot_camera. now rewrite Hc, Ha.
Qed.

Lemma robot_camera_missing (attr arm : string) (s : State) :
  camera_attrs (_robot self) !! attr = None ->
  robot_camera self attr arm s
  = (Raise (mkExc AttributeError
              ("'Robot' object has no attribute '" ++ attr ++ "'")), s).
Proof. intros H. unfold robot_camera. now rewrite H. Qed.

Lemma p2c_run (arm object_id : string) (rroi : RRoi) (cam : Camera)
    (d : Q) (s : State) :
  camera_of self arm cam ->
  estimate_distance self object_id rroi arm = inr d ->
  _pixel_to_camera_factor self object_id rroi arm s
  = (Ret (meters_per_pixel cam * d), s).
Proof.
  intros Hcam Hd. unfold _pixel_to_camera_factor.
  rewrite (bind_run _ _ _ _ _ (robot_camera_run arm cam s Hcam)).
  rewrite Hd. reflexivity.
Qed.

Lemma error_run (arm object_id : string) (rroi : RRoi) (cam : Camera)
    (d : Q) (h w : Z) (s : State) :
  camera_of self arm cam ->
  estimate_distance self object_id rroi arm = inr d ->
  _error self [h; w] object_id rroi arm s
  = (Ret (pixel_error self h w rroi * (meters_per_pixel cam * d)), s).
Proof.
  intros Hcam Hd. unfold _error.
  rewrite (bind_run _ _ s (h, w) s) by reflexivity.
  rewrite (bind_run _ _ _ _ _ (p2c_run arm object_id rroi cam d s Hcam Hd)).
  reflexivity.
Qed.

(** [_iterate], case by case. *)
Lemma iterate_eq (arm object_id : string) (rroi : RRoi) (s : State)
    (cam : Camera) (h w : Z) (dims : list Z) (d : Q) :
  camera_of self arm cam ->
  shape (collect_image cam (n_frames s)) = h :: w :: dims ->
  estimate_distance self object_id rroi arm = inr d ->
  let img := collect_image cam (n_frames s) in
  let s1 := collected arm img s in
  let factor := meters_per_pixel cam * d in
  let err := pixel_error self h w rroi * factor in
  let pose :=
    zip_add (endpoint_pose (_robot self) (n_moves s) arm)
            (correction h w factor rroi) in
  let s2 := requested arm pose s1 in
  _iterate self arm object_id rroi s =
  if Qltb (_tolerance self) err then
    match inverse_kinematics (_robot self) (n_ik s) arm pose with
    | inl e =>
        if isinstance e ValueError
        then (Ret (rroi, err), emit (EvLogError (exc_msg e)) s2)
        else (Raise e, s2)
    | inr cfg =>
        remeasure self arm object_id img rroi err
          (tick_moves (emit (EvMoveTo cfg) s2))
    end
  else (Ret (rroi, err), s1).
Proof.
  intros Hcam Hshape Hd img s1 factor err pose s2.
  unfold _iterate.
  rewrite (bind_run _ _ _ _ _ (robot_camera_run arm cam s Hcam)).
  rewrite (bind_run _ _ s img s1) by reflexivity.
  fold img in Hshape. rewrite Hshape. cbn [firstn].
  rewrite (bind_run _ _ _ _ _
             (error_run arm object_id rroi cam d h w s1 Hcam Hd)).
  fold factor err.
  destruct (Qltb (_tolerance self) err); [| reflexivity].
  rewrite (bind_run _ _ _ _ _
             (p2c_run arm object_id rroi cam d s1 Hcam Hd)).
  rewrite (bind_run _ _ s1 (h, w) s1) by reflexivity.
  rewrite (bind_run _ _ s1 (n_moves s) s1) by reflexivity.
  fold factor. change (zip_add _ _) with pose.
  rewrite (try_bind_run _ _ _ _ s1 (n_ik s) s1) by reflexivity.
  rewrite (try_bind_run _ _ _ _ s1 tt (tick_ik s1)) by reflexivity.
  rewrite (try_bind_run _ _ _ _ (tick_ik s1) tt s2) by reflexivity.
  destruct (inverse_kinematics (_robot self) (n_ik s) arm pose)
    as [e | cfg] eqn:Hik.
  - rewrite (try_bind_raise _ _ _ _ s2 e s2) by reflexivity.
    destruct (isinstance e ValueError); reflexivity.
  - rewrite (try_bind_run _ _ _ _ s2 cfg s2) by reflexivity.
    rewrite (try_bind_run _ _ _ _ s2 tt (emit (EvMoveTo cfg) s2))
      by reflexivity.
    rewrite (try_bind_run _ _ _ _ _ tt
               (tick_moves (emit (EvMoveTo cfg) s2))) by reflexivity.
    unfold remeasure. rewrite Hshape. reflexivity.
Qed.

End IterateFacts.

Section IterateTrace.
Import Py Servoing ServoSpec TraceOrder.
Variable self : Servo.

Lemma mono_remeasure (arm object_id : string) (img : Image)
    (rroi : RRoi) (camera_error : Q) :
  mono (remeasure self arm object_id img rroi camera_error).
Proof.
  unfold remeasure.
  repeat first [apply mono_find | apply mono_error | mono_step].
Qed.

End IterateTrace.

(** [C2], as the code has it.  In the Correcting step of [_iterate] (the
    measured error exceeds the tolerance), whatever the rectangle and the
    endpoint pose, the one pose sent to inverse kinematics is the current
    endpoint pose plus [(dx, dy, 0, 0, 0, angle)], where
    [(dx, dy) = (detectedCenter - imageCenter) * pixelToCameraFactor * kp],
    [kp = 0.7] and [angle] is the detected rectangle's angle. *)
Theorem iterate_correction_target (self : Servoing.Servo)
    (arm object_id : string) (rroi : Servoing.RRoi) (s : Servoing.State)
    (cam : Servoing.Camera) (h w : Z) (dims : list Z) (d : Q) :
  ServoSpec.camera_of self arm cam ->
  Segmentation.shape (Servoing.collect_image cam (Servoing.n_frames s))
  = h :: w :: dims ->
  Servoing.estimate_distance self object_id rroi arm = inr d ->
  let img := Servoing.collect_image cam (Servoing.n_frames s) in
  let factor := Servoing.meters_per_pixel cam * d in
  let dx := (fst (Servoing.center rroi) - inject_Z (w / 2)) * factor * 0.7 in
  let dy := (snd (Servoing.center rroi) - inject_Z (h / 2)) * factor * 0.7 in
  let pose :=
    Py.zip_add
      (Servoing.endpoint_pose (Servoing._robot self) (Servoing.n_moves s) arm)
      [dx; dy; 0; 0; 0; Servoing.angle rroi] in
  Servoing._tolerance self < ServoSpec.pixel_error self h w rroi * factor ->
  exists rest,
    Servoing.trace (snd (Servoing._iterate self arm object_id rroi s))
    = Servoing.trace s
      ++ Servoing.EvCollectImage arm img
      :: Servoing.EvIKRequest arm pose :: rest.
Proof.
  intros Hcam Hshape Hd img factor dx dy pose Herr.
  rewrite (iterate_eq self arm object_id rroi s cam h w dims d Hcam Hshape Hd).
  cbv zeta. apply Qltb_lt in Herr. fold factor. rewrite Herr.
  change (Py.zip_add _ (ServoSpec.correction h w factor rroi)) with pose.
  fold img.
  set (s2 := ServoSpec.requested arm pose (ServoSpec.collected arm img s)).
  assert (Hs2 : Servoing.trace s2
                = Servoing.trace s ++ [Servoing.EvCollectImage arm img;
                                       Servoing.EvIKRequest arm pose]).
  { cbn. now rewrite <- app_assoc. }
  assert (Hext : forall s', TraceOrder.extends s2 s' ->
    exists rest, Servoing.trace s'
      = Servoing.trace s ++ Servoing.EvCollectImage arm img
          :: Servoing.EvIKRequest arm pose :: rest).
  { intros s' [rest Hrest]. exists rest.
    rewrite Hrest, Hs2, <- app_assoc. reflexivity. }
  destruct (Servoing.inverse_kinematics _ _ _ _) as [e | cfg].
  - destruct (Py.isinstance e Py.ValueError); apply Hext.
    + exists [Servoing.EvLogError (Py.exc_msg e)]. reflexivity.
    + apply extends_refl.
  - apply Hext.
    eapply extends_trans; [| apply mono_remeasure].
    exists [Servoing.EvMoveTo cfg]. reflexivity.
Qed.

Lemma iterate_correction_target_witness :
  exists rest,
    Servoing.trace
      (snd (Servoing._iterate
              (ServoStubs.servo_stub ServoStubs.ik_ok 0.9 ServoStubs.off_centre)
              "left" "cup" ServoStubs.off_centre Servoing.initial_state))
    = Servoing.trace Servoing.initial_state
      ++ Servoing.EvCollectImage "left" (Segmentation.mkImage [800; 1280; 3]%Z 0)
      :: Servoing.EvIKRequest "left"
           (Py.zip_add [0.5; 0; 0.15; 0; 0; 0]
              [ (700 - inject_Z (1280 / 2)) * (0.0025 * 0.3) * 0.7;
                (400 - inject_Z (800 / 2)) * (0.0025 * 0.3) * 0.7;
                0; 0; 0; 0.1 ])
      :: rest.
Proof.
  refine (iterate_correction_target
            (ServoStubs.servo_stub ServoStubs.ik_ok 0.9 ServoStubs.off_centre)
            "left" "cup" ServoStubs.off_centre Servoing.initial_state
            ServoStubs.camera 800 1280 [3%Z] 0.3 _ _ _ _).
  - eexists. split; reflexivity.
  - reflexivity.
  - reflexivity.
  - vm_compute. reflexivity.
Defined.

(** [C2], as stated, fails: for a rectangle centred 60 pixels to the right
    of the image centre and an error above the tolerance, the x component
    of the one pose sent to inverse kinematics is not the endpoint's x
    plus [(imageCenter - detectedCenter) * factor * kp]. *)
Lemma iterate_stated_correction_counterexample :
  let self :=
    ServoStubs.servo_stub ServoStubs.ik_ok 0.9 ServoStubs.off_centre in
  let r := Servoing._iterate self "left" "cup" ServoStubs.off_centre
             Servoing.initial_state in
  let factor := 0.0025 * 0.3 in
  let stated :=
    Py.zip_add [0.5; 0; 0.15; 0; 0; 0]
      (ServoSpec.stated_correction 800 1280 factor ServoStubs.off_centre) in
  Servoing._tolerance self
  < ServoSpec.pixel_error self 800 1280 ServoStubs.off_centre * factor /\
  (exists pose, In (Servoing.EvIKRequest "left" pose) (Servoing.trace (snd r))) /\
  (forall pose,
      In (Servoing.EvIKRequest "left" pose) (Servoing.trace (snd r)) ->
      ~ nth 0 pose 0 == nth 0 stated 0).
Proof.
  cbv zeta. split; [vm_compute; reflexivity |]. split.
  - eexists. vm_compute. right. left. reflexivity.
  - intros pose Hin Heq. vm_compute in Hin.
    repeat (destruct Hin as [Hin | Hin]; [try discriminate |]);
      [| destruct Hin].
    injection Hin as <-. vm_compute in Heq. discriminate.
Qed.

(** ** [servoing/base.py]: [servo] *)

(** [C3] If the robot handle has no attribute [camears], then for every
    arm and object identifier [servo] raises [AttributeError] at its
    first statement, with the state (and so the trace: no image, no
    detection, no motion) exactly as it was; hence it never returns a
    boolean. *)
Theorem servo_raises_attribute_error (self : Servoing.Servo) :
  Servoing.camera_attrs (Servoing._robot self) !! "camears"%string = None ->
  forall fuel arm object_id s,
    Servoing.servo self fuel arm object_id s
    = (Py.Raise (Py.mkExc Py.AttributeError
                   "'Robot' object has no attribute 'camears'"), s) /\
    forall b s', Servoing.servo self fuel arm object_id s <> (Py.Ret b, s').
Proof.
  intros Hattr fuel arm object_id s.
  assert (H : Servoing.servo self fuel arm object_id s
              = (Py.Raise (Py.mkExc Py.AttributeError
                             "'Robot' object has no attribute 'camears'"), s)).
  { unfold Servoing.servo, Servoing.servo_with, Py.bind.
    now rewrite (robot_camera_missing self "camears" arm s Hattr). }
  split; [exact H |]. intros b s'. rewrite H. discriminate.
Qed.

Lemma servo_raises_attribute_error_witness :
  Servoing.servo
    (ServoStubs.servo_stub ServoStubs.ik_ok 0.9 ServoStubs.centred)
    5 "left" "cup" Servoing.initial_state
  = (Py.Raise (Py.mkExc Py.AttributeError
                 "'Robot' object has no attribute 'camears'"),
     Servoing.initial_state).
Proof.
  refine (proj1 (servo_raises_attribute_error
                   (ServoStubs.servo_stub ServoStubs.ik_ok 0.9
                      ServoStubs.centred) _
                   5%nat "left"%string "cup"%string Servoing.initial_state)).
  vm_compute. reflexivity.
Defined.

Ltac no_motion_tac :=
  let e := fresh "e" in
  let Hin := fresh "Hin" in
  intros e Hin; vm_compute in Hin;
  repeat (destruct Hin as [<- | Hin]; [exact I |]); destruct Hin.

(** [C5] When the initial detection fails, [servo] does not return the
    failure value: it has already raised [AttributeError] at its first
    statement.  Were the camera dictionary read from [cameras], the same
    run would return [False] with no IK request and no move. *)
Theorem servo_detection_failure_raises (fuel : nat) :
  let self := ServoStubs.servo_stub ServoStubs.ik_ok 0.5 ServoStubs.centred in
  let err := Py.mkExc Py.AttributeError
               "'Robot' object has no attribute 'camears'" in
  Servoing.servo self fuel "left" "cup" Servoing.initial_state
  = (Py.Raise err, Servoing.initial_state) /\
  Servoing.servo self fuel "left" "hand" Servoing.initial_state
  = (Py.Raise err, Servoing.initial_state) /\
  (let r := Servoing.servo_with self "cameras" fuel "left" "cup"
              Servoing.initial_state in
   fst r = Py.Ret false /\ ServoSpec.no_motion (Servoing.trace (snd r))) /\
  (let r := Servoing.servo_with self "cameras" fuel "left" "hand"
              Servoing.initial_state in
   fst r = Py.Ret false /\ ServoSpec.no_motion (Servoing.trace (snd r))).
Proof.
  cbv zeta. repeat split; try (vm_compute; reflexivity); no_motion_tac.
Qed.

(** [C7] With a detection centred exactly on the image centre, [servo]
    does not return success: it has already raised [AttributeError] at
    its first statement.  Were the camera dictionary read from [cameras],
    the same run would return [True] after one measurement, with no IK
    request and no move. *)
Theorem servo_centred_detection_raises (fuel : nat) :
  let self := ServoStubs.servo_stub ServoStubs.ik_ok 0.9 ServoStubs.centred in
  let err := Py.mkExc Py.AttributeError
               "'Robot' object has no attribute 'camears'" in
  Servoing.servo self (S fuel) "left" "cup" Servoing.initial_state
  = (Py.Raise err, Servoing.initial_state) /\
  (let r := Servoing.servo_with self "cameras" (S fuel) "left" "cup"
              Servoing.initial_state in
   fst r = Py.Ret true /\ ServoSpec.no_motion (Servoing.trace (snd r))).
Proof.
  cbv zeta. split; [vm_compute; reflexivity |].
  destruct fuel; (split; [vm_compute; reflexivity | no_motion_tac]).
Qed.

(** ** [servoing/base.py]: kinematics failure in an iteration *)




(** * Further properties of the modelled code *)

(** ** [robot.py]: moving, grasping, picking *)

(** [X1] [_move_to_pose] never raises: whatever the IK service does, it
    returns a boolean, [True] exactly when the service answered with a
    valid configuration.  It issues exactly one IK request; a valid answer
    is followed by exactly one joint move with the joints of that answer,
    an invalid answer or a failing service by an error log and no move. *)
Theorem move_to_pose_reports_failure (hw : Robot.Hardware)
    (p : Robot.Pose) (s : Robot.State) :
  let r := Robot._move_to_pose hw p s in
  let reply := Robot.ik_service hw (Robot.n_ik s) p in
  fst r = Py.Ret (match reply with
                  | Robot.Response true _ => true
                  | _ => false
                  end) /\
  Robot.n_ik (snd r) = S (Robot.n_ik s) /\
  match reply with
  | Robot.Response true joints =>
      Robot.trace (snd r)
      = Robot.trace s ++ [Robot.EvIKRequest p; Robot.EvMoveJoints joints] /\
      Robot.n_moves (snd r) = S (Robot.n_moves s)
  | Robot.Response false _ =>
      Robot.trace (snd r)
      = Robot.trace s
        ++ [Robot.EvIKRequest p; Robot.EvLogErr Robot.no_valid_configuration] /\
      Robot.n_moves (snd r) = Robot.n_moves s
  | Robot.ServiceFails msg =>
      Robot.trace (snd r)
      = Robot.trace s ++ [Robot.EvIKRequest p; Robot.EvLogErr msg] /\
      Robot.n_moves (snd r) = Robot.n_moves s
  end.
Proof.
  cbv zeta. rewrite move_to_pose_run.
  destruct (Robot.ik_service hw (Robot.n_ik s) p) as [msg | [|] joints];
    cbn; rewrite <- ?app_assoc; repeat split; reflexivity.
Qed.

(** [X2] [_try_object] returns what the gripper reports after closing.
    Whether or not an object was gripped, the gripper is closed once and
    then opened exactly once; the limb is sent to neutral only after a
    successful grasp.  No IK request is made. *)
Theorem try_object_releases_once (hw : Robot.Hardware) (s : Robot.State) :
  let r := Robot._try_object hw s in
  let gripped := Robot.gripping hw (Robot.n_grip s) in
  fst r = Py.Ret gripped /\
  Robot.trace (snd r)
  = Robot.trace s
    ++ [ Robot.EvRecordImage; Robot.EvDisplayImage;
         Robot.EvGripperClose; Robot.EvGripperOpen ]
    ++ (if gripped then [Robot.EvMoveNeutral] else []) /\
  Robot.n_grip (snd r) = S (Robot.n_grip s) /\
  Robot.n_ik (snd r) = Robot.n_ik s.
Proof.
  cbv zeta. unfold Robot._try_object, Robot._grasp_object, Py.bind, Py.gets,
    Py.modify, Py.ret; cbn.
  destruct (Robot.gripping hw (Robot.n_grip s)); cbn;
    rewrite <- ?app_assoc; repeat split; reflexivity.
Qed.

(** [X3] For every hardware, [pick_and_place_object] ends in a grasp
    attempt and returns what the gripper reports: it never returns
    [False] without having closed the gripper.  It makes exactly one IK
    request, and asks the random source once (for the trigger wait) when
    the direct move succeeds and seven times (once more for a single
    perturbation) when it fails. *)
Theorem pick_and_place_always_grasps (hw : Robot.Hardware) (fuel : nat)
    (s : Robot.State) :
  let r := Robot.pick_and_place_object hw (S fuel) s in
  let moved :=
    match Robot.ik_service hw (Robot.n_ik s) Robot._top_pose with
    | Robot.Response true _ => true
    | _ => false
    end in
  fst r = Py.Ret (Robot.gripping hw (Robot.n_grip s)) /\
  In Robot.EvGripperClose (Robot.trace (snd r)) /\
  Robot.n_ik (snd r) = S (Robot.n_ik s) /\
  Robot.n_grip (snd r) = S (Robot.n_grip s) /\
  Robot.n_random (snd r)
  = (Robot.n_random s + (if moved then 1 else 7))%nat.
Proof.
  cbv zeta.
  set (s1 := Robot.emit
               (Robot.EvSleep
                  (0.0 + (10.0 - 0.0) * Robot.random hw (Robot.n_random s)))
               (Robot.tick_random s)).
  assert (H1 : Robot._trigger_dummy hw 10.0 s = (Py.Ret tt, s1))
    by reflexivity.
  pose proof (move_to_pose_run hw Robot._top_pose s1) as H2.
  change (Robot.n_ik s1) with (Robot.n_ik s) in H2.
  unfold Robot.pick_and_place_object. rewrite (bind_run _ _ _ _ _ H1).
  destruct (Robot.ik_service hw (Robot.n_ik s) Robot._top_pose)
    as [msg | [|] joints];
    rewrite (bind_run _ _ _ _ _ H2); cbn [negb].
  2:{ unfold Robot._try_object, Robot._grasp_object, Py.bind, Py.gets,
        Py.modify, Py.ret; cbn.
      destruct (Robot.gripping hw (Robot.n_grip s)); cbn; repeat split;
        first [ reflexivity | lia
              | repeat rewrite in_app_iff; cbn; tauto ]. }
  all: match goal with
       | |- context [Py.while _ _ _ _] =>
           match goal with
           | |- context [Py.bind (Py.while (S ?f) ?c ?b ?n) ?k ?s2] =>
               assert (Hretry : b n s2 = (Py.Ret (-1)%Z, PerturbSpec.draw6 s2))
                 by (unfold Robot.retry_body, Py.bind;
                     rewrite perturbe_pose_run; reflexivity);
               assert (Hloop : Py.while (S f) c b n s2
                               = (Py.Ret (-1)%Z, PerturbSpec.draw6 s2))
                 by (rewrite while_step by reflexivity;
                     rewrite (bind_run _ _ _ _ _ Hretry);
                     now rewrite while_done);
               rewrite (bind_run _ _ _ _ _ Hloop)
           end
       end;
    cbn [negb Z.eqb Pos.eqb];
    unfold Robot._try_object, Robot._grasp_object, Py.bind, Py.gets,
      Py.modify, Py.ret; cbn;
    destruct (Robot.gripping hw (Robot.n_grip s)); cbn; repeat split;
    first [ reflexivity | lia | repeat rewrite in_app_iff; cbn; tauto ].
Qed.

(** ** [robot.py]: calibration parameters and the calibration loop *)

Lemma bind_raise {W A B} (c : Py.M W A) (k : A -> Py.M W B)
    (w : W) (e : Py.Exc) (w' : W) :
  c w = (Py.Raise e, w') -> Py.bind c k w = (Py.Raise e, w').
Proof. intros H. unfold Py.bind. now rewrite H. Qed.

Lemma cam_par_missing (s : Robot.State) (c : gmap string Q) (key : string) :
  Robot._cam_pars s = Some c -> c !! key = None ->
  Robot.cam_par key s = (Py.Raise (Py.mkExc Py.KeyError key), s).
Proof.
  intros Hc Hk. unfold Robot.cam_par, Py.bind, Py.gets.
  now rewrite Hc, Hk.
Qed.

(** [X4] [_pixel2position] before calibration ([_cam_pars] is [None])
    raises [TypeError].  With a dictionary and an endpoint pose in hand
    it returns a pose if all five parameters are present, and otherwise
    raises [KeyError] naming a parameter the dictionary lacks; in every
    case the state is left as it was. *)
Theorem pixel2position_missing_parameter (hw : Robot.Hardware)
    (px : Q * Q) (s : Robot.State) :
  (Robot._cam_pars s = None ->
   Robot._pixel2position hw px s
   = (Py.Raise (Py.mkExc Py.TypeError
                  "'NoneType' object has no attribute '__getitem__'"), s)) /\
  (forall c ex ey rest,
      Robot._cam_pars s = Some c ->
      Robot.endpoint_pose hw (Robot.n_moves s) = ex :: ey :: rest ->
      (Forall (fun k => is_Some (c !! k)) MoreStubs.parameter_keys ->
       exists p, Robot._pixel2position hw px s = (Py.Ret p, s)) /\
      (forall k, In k MoreStubs.parameter_keys -> c !! k = None ->
       exists k',
         In k' MoreStubs.parameter_keys /\ c !! k' = None /\
         Robot._pixel2position hw px s
         = (Py.Raise (Py.mkExc Py.KeyError k'), s))).
Proof.
  split.
  - intros Hc. unfold Robot._pixel2position.
    rewrite (bind_run _ _ s (Robot.resolution s) s) by reflexivity.
    destruct (Robot.resolution s) as [w h].
    apply bind_raise. unfold Robot.cam_par, Py.bind, Py.gets.
    now rewrite Hc.
  - intros c ex ey rest Hc He.
    assert (Hep : Robot._endpoint_pose hw s = (Py.Ret (ex :: ey :: rest), s)).
    { unfold Robot._endpoint_pose, Py.bind, Py.gets, Py.ret. now rewrite He. }
    assert (Hcases :
      (exists p, Robot._pixel2position hw px s = (Py.Ret p, s)) \/
      (exists k', In k' MoreStubs.parameter_keys /\ c !! k' = None /\
                  Robot._pixel2position hw px s
                  = (Py.Raise (Py.mkExc Py.KeyError k'), s))).
    { unfold Robot._pixel2position.
      rewrite (bind_run _ _ s (Robot.resolution s) s) by reflexivity.
      destruct (Robot.resolution s) as [w h].
      destruct (c !! "mpp"%string) as [mpp|] eqn:Hm;
      [destruct (c !! "dist"%string) as [dist|] eqn:Hd;
       [destruct (c !! "x_offset"%string) as [xo|] eqn:Hx;
        [destruct (c !! "y_offset"%string) as [yo|] eqn:Hy;
         [destruct (c !! "z_offset"%string) as [zo|] eqn:Hz |] |] |] |].
      1: left.
      2-6: right.
      all: repeat first
        [ erewrite bind_run by (eapply cam_par_run; eassumption)
        | erewrite bind_run by exact Hep
        | erewrite bind_run by reflexivity ].
      1: eexists; reflexivity.
      all: eexists; split; [| split; [eassumption |]];
        [| apply bind_raise; eapply cam_par_missing; eassumption];
        unfold MoreStubs.parameter_keys; cbn; tauto. }
    split.
    + intros Hall. destruct Hcases as [H | (k' & Hin & Hnone & _)]; [exact H |].
      exfalso. rewrite Forall_forall in Hall.
      apply list_elem_of_In, Hall in Hin. rewrite Hnone in Hin.
      destruct Hin; discriminate.
    + intros k Hin Hnone. destruct Hcases as [[p Hp] | H]; [| exact H].
      exfalso. revert Hp. unfold Robot._pixel2position.
      rewrite (bind_run _ _ s (Robot.resolution s) s) by reflexivity.
      destruct (Robot.resolution s) as [w h].
      unfold MoreStubs.parameter_keys in Hin. cbn in Hin.
      destruct (c !! "mpp"%string) as [mpp|] eqn:Hm;
      [destruct (c !! "dist"%string) as [dist|] eqn:Hd;
       [destruct (c !! "x_offset"%string) as [xo|] eqn:Hx;
        [destruct (c !! "y_offset"%string) as [yo|] eqn:Hy;
         [destruct (c !! "z_offset"%string) as [zo|] eqn:Hz |] |] |] |].
      1: { destruct Hin as [<- | [<- | [<- | [<- | [<- | []]]]]];
             congruence. }
      all: repeat first
        [ erewrite bind_run by (eapply cam_par_run; eassumption)
        | erewrite bind_run by exact Hep
        | erewrite bind_run by reflexivity ];
        erewrite bind_raise by (eapply cam_par_missing; eassumption);
        discriminate.
Qed.

Lemma pixel2position_missing_parameter_witness :
  exists k',
    In k' MoreStubs.parameter_keys /\
    ({[ "dist"%string := 0.3 ]} : gmap string Q) !! k' = None /\
    Robot._pixel2position (PixelSpec.resting 0.5 0) (430.7, 340.02)
      (Robot.set_cam_pars (Some {[ "dist"%string := 0.3 ]})
         Robot.initial_state)
    = (Py.Raise (Py.mkExc Py.KeyError k'),
       Robot.set_cam_pars (Some {[ "dist"%string := 0.3 ]})
         Robot.initial_state).
Proof.
  refine (proj2 (proj2 (pixel2position_missing_parameter
            (PixelSpec.resting 0.5 0) (430.7, 340.02)
            (Robot.set_cam_pars (Some {[ "dist"%string := 0.3 ]})
               Robot.initial_state))
            {[ "dist"%string := 0.3 ]} 0.5 0 [0; 0; 0; 0] _ _)
            "mpp"%string _ _).
  - reflexivity.
  - reflexivity.
  - cbn. tauto.
  - reflexivity.
Defined.

(** [X5] Calibration and pixel conversion compose: once [_perform_setup]
    has returned, [_pixel2position] does not raise (given an endpoint
    pose with at least x and y); it returns
    [x = (row - h/2) * 0.0025 * avg + endpoint.x + 0.01],
    [y = (col - w/2) * 0.0025 * avg + endpoint.y - 0.02],
    [z = avg - 0.03] and zero orientation, where [avg] is the mean of the
    ten accepted samples. *)
Theorem pixel2position_after_setup (hw : Robot.Hardware) (fuel : nat)
    (s s' : Robot.State) (px : Q * Q) (ex ey : Q) (rest : Robot.Pose) :
  Robot._perform_setup hw fuel s = (Py.Ret tt, s') ->
  Robot.endpoint_pose hw (Robot.n_moves s') = ex :: ey :: rest ->
  exists dist,
    length dist = 10%nat /\
    Forall (CalibSpec.accepted_sample hw (Robot.n_random s)) dist /\
    let avg := Py.np_mean dist in
    Robot._pixel2position hw px s'
    = (Py.Ret
         [ (snd px - inject_Z (snd (Robot.resolution s') / 2)) * 0.0025 * avg
           + ex + 0.01;
           (fst px - inject_Z (fst (Robot.resolution s') / 2)) * 0.0025 * avg
           + ey + -(0.02);
           avg - (0.02 + 0.01 + 0.0); 0.0; 0.0; 0.0 ],
       s').
Proof.
  intros Hrun He.
  destruct (perform_setup_samples hw fuel s s' Hrun)
    as (dist & Hlen & Hall & Hc).
  exists dist. split; [exact Hlen |]. split; [exact Hall |]. cbv zeta.
  apply (pixel2position_run hw s' (CalibSpec.calibrated (Py.np_mean dist))
           (Py.np_mean dist) 0.0025 0.01 (-(0.02)) (0.02 + 0.01 + 0.0)
           ex ey rest px Hc); [| exact He].
  unfold PixelSpec.calibration, CalibSpec.calibrated.
  repeat split;
    repeat first [ rewrite lookup_insert_eq; reflexivity
                 | rewrite lookup_insert_ne by discriminate ].
Qed.

Lemma pixel2position_after_setup_witness :
  exists s' dist,
    Robot._perform_setup (CalibSpec.steady 300) 10 Robot.initial_state
    = (Py.Ret tt, s') /\
    length dist = 10%nat /\
    fst (Robot._pixel2position (CalibSpec.steady 300) (430.7, 340.02) s')
    = Py.Ret
        [ (340.02 - inject_Z (snd (Robot.resolution s') / 2)) * 0.0025
          * Py.np_mean dist + 0 + 0.01;
          (430.7 - inject_Z (fst (Robot.resolution s') / 2)) * 0.0025
          * Py.np_mean dist + 0 + -(0.02);
          Py.np_mean dist - (0.02 + 0.01 + 0.0); 0.0; 0.0; 0.0 ].
Proof.
  destruct (Robot._perform_setup (CalibSpec.steady 300) 10
              Robot.initial_state) as [[[] | e |] s'] eqn:Hrun;
    try (vm_compute in Hrun; discriminate).
  destruct (pixel2position_after_setup (CalibSpec.steady 300) 10
              Robot.initial_state s' (430.7, 340.02) 0 0 [0; 0; 0; 0]
              Hrun eq_refl) as (dist & Hlen & _ & Hpx).
  exists s', dist. split; [reflexivity |]. split; [exact Hlen |].
  cbv zeta in Hpx. rewrite Hpx. reflexivity.
Defined.

(** [X6] The calibration loop has no bound on its attempts: if no pass
    can yield an accepted sample (every reading that follows a successful
    move is at or above the ceiling of 65000, or no move succeeds), then
    [_perform_setup] does not return within any number [fuel] of passes,
    and it has issued one IK request in each of them. *)
Theorem perform_setup_starves (hw : Robot.Hardware) :
  (forall ki p kr,
      match Robot.ik_service hw ki p with
      | Robot.Response true _ => (65000 <= Robot.hand_range hw kr)%Z
      | _ => True
      end) ->
  forall fuel s,
    fst (Robot._perform_setup hw fuel s) = Py.Diverge /\
    Robot.n_ik (snd (Robot._perform_setup hw fuel s))
    = (Robot.n_ik s + fuel)%nat /\
    Robot.n_grip (snd (Robot._perform_setup hw fuel s)) = Robot.n_grip s.
Proof.
  intros Hstarve.
  assert (Hloop : forall fuel s,
    exists s', CalibSpec.setup_loop hw fuel [] s = (Py.Diverge, s') /\
               Robot.n_ik s' = (Robot.n_ik s + fuel)%nat /\
               Robot.n_grip s' = Robot.n_grip s).
  { induction fuel as [|fuel IH]; intros s.
    - exists s. repeat split; first [reflexivity | lia].
    - unfold CalibSpec.setup_loop. rewrite while_step by reflexivity.
      unfold Py.bind at 1. rewrite setup_body_eq. cbv zeta.
      pose proof (Hstarve (Robot.n_ik s)
                    (Py.zip_add CalibSpec.probing_pose
                       (PerturbSpec.perturbation hw (Robot.n_random s)))
                    (Robot.n_range s)) as H.
      destruct (Robot.ik_service hw (Robot.n_ik s) _)
        as [msg | [|] joints].
      + match goal with
        | |- context [Py.while fuel _ _ [] ?s1] =>
            destruct (IH s1) as (s' & Hrun & Hik & Hgrip)
        end.
        exists s'. unfold CalibSpec.setup_loop in Hrun.
        rewrite Hrun. cbn in Hik, Hgrip. repeat split; [lia | exact Hgrip].
      + apply Z.ltb_ge in H. rewrite H.
        match goal with
        | |- context [Py.while fuel _ _ [] ?s1] =>
            destruct (IH s1) as (s' & Hrun & Hik & Hgrip)
        end.
        exists s'. unfold CalibSpec.setup_loop in Hrun.
        rewrite Hrun. cbn in Hik, Hgrip. repeat split; [lia | exact Hgrip].
      + match goal with
        | |- context [Py.while fuel _ _ [] ?s1] =>
            destruct (IH s1) as (s' & Hrun & Hik & Hgrip)
        end.
        exists s'. unfold CalibSpec.setup_loop in Hrun.
        rewrite Hrun. cbn in Hik, Hgrip. repeat split; [lia | exact Hgrip]. }
  intros fuel s. rewrite perform_setup_eq.
  destruct (Hloop fuel (Robot.set_cam_pars (Some ∅) s))
    as (s' & -> & Hik & Hgrip).
  cbn in Hik, Hgrip. cbn [fst snd]. auto.
Qed.

Lemma perform_setup_starves_witness :
  fst (Robot._perform_setup MoreStubs.out_of_range 25 Robot.initial_state)
  = Py.Diverge /\
  Robot.n_ik (snd (Robot._perform_setup MoreStubs.out_of_range 25
                     Robot.initial_state)) = 25%nat.
Proof.
  destruct (perform_setup_starves MoreStubs.out_of_range) with
    (fuel := 25%nat) (s := Robot.initial_state) as (H1 & H2 & _).
  - intros ki p kr. cbn. lia.
  - split; [exact H1 | exact H2].
Defined.

Lemma setup_body_counts (hw : Robot.Hardware) (pose : Robot.Pose)
    (s0 : Robot.State) (dist : list Q) (w : Robot.State)
    (dist' : list Q) (w' : Robot.State) :
  MoreStubs.setup_counts s0 dist w ->
  Robot.setup_body hw pose dist w = (Py.Ret dist', w') ->
  MoreStubs.setup_counts s0 dist' w'.
Proof.
  intros (H1 & H2 & H3 & H4 & H5 & H6) Hrun.
  rewrite setup_body_eq in Hrun. cbv zeta in Hrun.
  unfold MoreStubs.setup_counts.
  destruct (Robot.ik_service hw (Robot.n_ik w) _) as [msg | [|] joints].
  - injection Hrun as <- <-. cbn. repeat split; lia.
  - destruct (Robot.hand_range hw (Robot.n_range w) <? 65000)%Z.
    + destruct (nth_error _ 2); [| discriminate].
      injection Hrun as <- <-. rewrite length_app. cbn.
      repeat split; lia.
    + injection Hrun as <- <-. cbn. repeat split; lia.
  - injection Hrun as <- <-. cbn. repeat split; lia.
Qed.

(** [X7] Whenever [_perform_setup] returns, it has commanded at least ten
    moves, read the range sensor exactly once per move, drawn exactly six
    random numbers per IK request, and never touched the gripper. *)
Theorem perform_setup_accounting (hw : Robot.Hardware) (fuel : nat)
    (s s' : Robot.State) :
  Robot._perform_setup hw fuel s = (Py.Ret tt, s') ->
  (10 + Robot.n_moves s <= Robot.n_moves s')%nat /\
  (Robot.n_moves s' + Robot.n_range s
   = Robot.n_range s' + Robot.n_moves s)%nat /\
  (Robot.n_moves s' + Robot.n_ik s <= Robot.n_ik s' + Robot.n_moves s)%nat /\
  (Robot.n_random s' + 6 * Robot.n_ik s
   = Robot.n_random s + 6 * Robot.n_ik s')%nat /\
  Robot.n_grip s' = Robot.n_grip s.
Proof.
  rewrite perform_setup_eq.
  destruct (CalibSpec.setup_loop hw fuel [] (Robot.set_cam_pars (Some ∅) s))
    as [[dist | e |] w] eqn:Hloop; try discriminate.
  unfold CalibSpec.setup_loop in Hloop.
  apply (while_inv (MoreStubs.setup_counts s)) in Hloop.
  - destruct Hloop as [(H1 & H2 & H3 & H4 & H5 & H6) Hc].
    apply Nat.ltb_ge in Hc. unfold CalibSpec.n_calibrations in Hc.
    destruct (Robot._cam_pars w); [| discriminate].
    intros H. injection H as <-. cbn. repeat split; lia.
  - intros d1 w1 d2 w2 HI _ Hb. eapply setup_body_counts; eauto.
  - unfold MoreStubs.setup_counts. cbn. repeat split; lia.
Qed.

Lemma perform_setup_accounting_witness :
  exists s',
    Robot._perform_setup (CalibSpec.steady 300) 10 Robot.initial_state
    = (Py.Ret tt, s') /\
    (10 + Robot.n_moves Robot.initial_state <= Robot.n_moves s')%nat /\
    Robot.n_grip s' = Robot.n_grip Robot.initial_state.
Proof.
  destruct (Robot._perform_setup (CalibSpec.steady 300) 10
              Robot.initial_state) as [[[] | e |] s'] eqn:Hrun;
    try (vm_compute in Hrun; discriminate).
  destruct (perform_setup_accounting (CalibSpec.steady 300) 10
              Robot.initial_state s' Hrun) as (H1 & _ & _ & _ & H5).
  exists s'. repeat split; assumption.
Defined.

(** ** [segmentation.py]: guards and the choice of the best proposal *)

(** [X8] The guards of [detect].  Without a loaded network it raises
    [RuntimeError].  With one, the shape check is a conjunction: an image
    with exactly three dimensions is passed to the network whatever its
    number of channels; an image with fewer than three dimensions raises
    [IndexError] (from reading [shape[2]]), not the [ValueError] of the
    check; only an array with more than three dimensions whose third
    dimension is not 3 raises that [ValueError]. *)
Theorem detect_shape_guard {W : Type}
    (self : Segmentation.ObjectSegmentation) (image : Segmentation.Image)
    (w : W) :
  (Segmentation.net_loaded self = false ->
   exists msg,
     Segmentation.detect self image w
     = (Py.Raise (Py.mkExc Py.RuntimeError msg), w)) /\
  (Segmentation.net_loaded self = true ->
   (length (Segmentation.shape image) = 3%nat ->
    Segmentation.detect self image w
    = (Py.Ret (Segmentation._im_detect self image), w)) /\
   ((length (Segmentation.shape image) < 3)%nat ->
    exists msg,
      Segmentation.detect self image w
      = (Py.Raise (Py.mkExc Py.IndexError msg), w)) /\
   ((3 < length (Segmentation.shape image))%nat ->
    (nth 2 (Segmentation.shape image) 0%Z = 3%Z ->
     Segmentation.detect self image w
     = (Py.Ret (Segmentation._im_detect self image), w)) /\
    (nth 2 (Segmentation.shape image) 0%Z <> 3%Z ->
     exists msg,
       Segmentation.detect self image w
       = (Py.Raise (Py.mkExc Py.ValueError msg), w)))).
Proof.
  split.
  - intros Hnet. unfold Segmentation.detect. rewrite Hnet.
    eexists. reflexivity.
  - intros Hnet. unfold Segmentation.detect. rewrite Hnet. cbn [negb].
    destruct image as [sh fr]. cbn [Segmentation.shape].
    split; [| split].
    + intros ->. reflexivity.
    + intros Hlt.
      destruct sh as [|a [|b [|c sh]]]; cbn in Hlt; try lia;
        eexists; reflexivity.
    + intros Hgt.
      destruct sh as [|a [|b [|c [|d sh]]]]; cbn in Hgt; try lia.
      cbn [nth]. split.
      * intros ->. reflexivity.
      * intros Hne. apply Z.eqb_neq in Hne.
        unfold Segmentation.item, Py.bind; cbn. rewrite Hne.
        eexists. reflexivity.
Qed.

Lemma detect_shape_guard_witness :
  (exists msg,
      Segmentation.detect ArgmaxSpec.two_proposals ArgmaxSpec.grey_image tt
      = (Py.Raise (Py.mkExc Py.IndexError msg), tt)) /\
  Segmentation.detect ArgmaxSpec.two_proposals
    ArgmaxSpec.four_channel_image tt
  = (Py.Ret (Segmentation._im_detect ArgmaxSpec.two_proposals
               ArgmaxSpec.four_channel_image), tt).
Proof.
  destruct (proj2 (detect_shape_guard ArgmaxSpec.two_proposals
                     ArgmaxSpec.grey_image tt) eq_refl) as (_ & Hlow & _).
  destruct (proj2 (detect_shape_guard ArgmaxSpec.two_proposals
                     ArgmaxSpec.four_channel_image tt) eq_refl)
    as (Hthree & _ & _).
  split.
  - apply Hlow. cbn. lia.
  - apply Hthree. reflexivity.
Defined.

Lemma index_none (l : list string) (x : string) :
  ~ In x l -> Segmentation.index l x = None.
Proof.
  induction l as [|y l IH]; [reflexivity |].
  intros Hnin. cbn [Segmentation.index].
  destruct (String.eqb y x) eqn:E.
  - apply String.eqb_eq in E. subst. exfalso. apply Hnin. now left.
  - rewrite IH; [reflexivity |]. intros H. apply Hnin. now right.
Qed.

Lemma index_some (l : list string) (x : string) (i : nat) :
  Segmentation.index l x = Some i ->
  nth_error l i = Some x /\
  forall j y, (j < i)%nat -> nth_error l j = Some y -> y <> x.
Proof.
  revert i. induction l as [|y l IH]; intros i; [discriminate |].
  cbn [Segmentation.index]. destruct (String.eqb y x) eqn:E.
  - intros [= <-]. apply String.eqb_eq in E. subst.
    split; [reflexivity | intros j z Hj; lia].
  - destruct (Segmentation.index l x) as [k|]; [| discriminate].
    intros [= <-]. destruct (IH k eq_refl) as [Hk Hfirst].
    split; [exact Hk |].
    intros [|j] z Hj Hz.
    + injection Hz as <-. now apply String.eqb_neq in E.
    + apply (Hfirst j z); [lia | exact Hz].
Qed.

(** [X9] [detect_object] checks the object identifier first: for an
    identifier that is not among the classes it raises [KeyError] naming
    it, whether or not a network is loaded and whatever the image; for a
    known identifier without a loaded network it raises
    [RuntimeError]. *)
Theorem detect_object_unknown_object {W : Type}
    (self : Segmentation.ObjectSegmentation) (image : Segmentation.Image)
    (object_id : string) (threshold : Q) (w : W) :
  (~ In object_id (Segmentation._classes self) ->
   Segmentation.detect_object self image object_id threshold w
   = (Py.Raise (Py.mkExc Py.KeyError object_id), w)) /\
  (In object_id (Segmentation._classes self) ->
   Segmentation.net_loaded self = false ->
   exists msg,
     Segmentation.detect_object self image object_id threshold w
     = (Py.Raise (Py.mkExc Py.RuntimeError msg), w)).
Proof.
  split.
  - intros Hnin. unfold Segmentation.detect_object.
    now rewrite (index_none _ _ Hnin).
  - intros Hin Hnet. unfold Segmentation.detect_object.
    destruct (Segmentation.index (Segmentation._classes self) object_id)
      as [ci|] eqn:Hidx.
    + unfold Py.bind, Segmentation.detect. rewrite Hnet.
      eexists. reflexivity.
    + exfalso. clear - Hin Hidx.
      induction (Segmentation._classes self) as [|y l IH]; [easy |].
      cbn [Segmentation.index] in Hidx.
      destruct (String.eqb y object_id) eqn:E; [discriminate |].
      destruct Hin as [-> | Hin]; [now rewrite String.eqb_refl in E |].
      destruct (Segmentation.index l object_id); [discriminate | auto].
Qed.

Lemma detect_object_unknown_object_witness :
  Segmentation.detect_object ArgmaxSpec.two_proposals
    ArgmaxSpec.grey_image "spoon" 0.8 tt
  = (Py.Raise (Py.mkExc Py.KeyError "spoon"), tt).
Proof.
  refine (proj1 (detect_object_unknown_object ArgmaxSpec.two_proposals
                   ArgmaxSpec.grey_image "spoon" 0.8 tt) _).
  cbn. intros [H | [H | [H | []]]]; discriminate.
Defined.

Lemma argmax_from_first_maximum (pre l : list Q) (best : Q) (bi : nat) :
  (bi < length pre)%nat ->
  nth bi (pre ++ l) 0 == best ->
  (forall j, (j < length pre)%nat -> nth j (pre ++ l) 0 <= best) ->
  (forall j, (j < bi)%nat -> nth j (pre ++ l) 0 < best) ->
  ArgmaxSpec.first_maximum (pre ++ l)
    (Segmentation.argmax_from (length pre) best bi l).
Proof.
  revert pre best bi.
  induction l as [|x l IH]; intros pre best bi Hbi Hbest Hle Hlt.
  - cbn [Segmentation.argmax_from]. rewrite app_nil_r in *.
    split; [exact Hbi |]. split.
    + intros j Hj. rewrite Hbest. now apply Hle.
    + intros j Hj. rewrite Hbest. now apply Hlt.
  - cbn [Segmentation.argmax_from].
    assert (Hx : nth (length pre) (pre ++ x :: l) 0 = x).
    { rewrite app_nth2 by lia. now rewrite Nat.sub_diag. }
    assert (Hsplit : pre ++ x :: l = (pre ++ [x]) ++ l)
      by now rewrite <- app_assoc.
    assert (Hlen : length (pre ++ [x]) = S (length pre))
      by (rewrite length_app; cbn; lia).
    destruct (Py.Qltb best x) eqn:Hq.
    + apply Qltb_lt in Hq. rewrite Hsplit, <- Hlen.
      apply IH; rewrite <- ?Hsplit, ?Hlen.
      * lia.
      * now rewrite Hx.
      * intros j Hj. destruct (Nat.eq_dec j (length pre)) as [-> | Hne].
        -- rewrite Hx. lra.
        -- specialize (Hle j ltac:(lia)). lra.
      * intros j Hj. specialize (Hle j Hj). lra.
    + apply Qltb_ge in Hq. rewrite Hsplit, <- Hlen.
      apply IH; rewrite <- ?Hsplit, ?Hlen.
      * lia.
      * exact Hbest.
      * intros j Hj. destruct (Nat.eq_dec j (length pre)) as [-> | Hne].
        -- now rewrite Hx.
        -- apply Hle. lia.
      * exact Hlt.
Qed.

Lemma np_argmax_first_maximum (l : list Q) (k : nat) :
  Segmentation.np_argmax l = Some k -> ArgmaxSpec.first_maximum l k.
Proof.
  destruct l as [|x l]; [discriminate |]. intros [= <-].
  apply (argmax_from_first_maximum [x] l x 0).
  - cbn. lia.
  - reflexivity.
  - intros [|j] Hj; cbn in *; [lra | lia].
  - intros j Hj. lia.
Qed.

Lemma item_inv {W A} (l : list A) (i : nat) (w w' : W) (a : A) :
  Segmentation.item l i w = (Py.Ret a, w') ->
  nth_error l i = Some a /\ w' = w.
Proof.
  unfold Segmentation.item. destruct (nth_error l i); [| discriminate].
  intros [= <- <-]. auto.
Qed.

Lemma column_inv {W} (rows : list (list Q)) (j : nat) (w w' : W)
    (col : list Q) :
  Segmentation.column rows j w = (Py.Ret col, w') ->
  col = map (fun r => nth j r 0) rows /\ w' = w.
Proof.
  revert col w'. induction rows as [|r rows IH]; intros col w'.
  - intros [= <- <-]. auto.
  - cbn [Segmentation.column]. unfold Py.bind at 1.
    destruct (Segmentation.item r j w) as [[x | e |] w1] eqn:Hx;
      try discriminate.
    apply item_inv in Hx. destruct Hx as [Hx ->].
    unfold Py.bind at 1.
    destruct (Segmentation.column rows j w) as [[xs | e |] w2] eqn:Hxs;
      try discriminate.
    destruct (IH xs w2 eq_refl) as [-> ->].
    intros [= <- <-]. split; [| reflexivity].
    cbn [map]. f_equal. symmetry. now apply nth_error_nth.
Qed.

Lemma detect_inv {W} (self : Segmentation.ObjectSegmentation)
    (image : Segmentation.Image) (w w' : W)
    (d : list (list Q) * list Segmentation.Box
         * list (list Segmentation.RawMask)) :
  Segmentation.detect self image w = (Py.Ret d, w') ->
  d = Segmentation._im_detect self image /\ w' = w.
Proof.
  unfold Segmentation.detect.
  destruct (negb (Segmentation.net_loaded self)); [discriminate |].
  unfold Py.bind.
  destruct (negb (length (Segmentation.shape image) =? 3)%nat).
  - destruct (Segmentation.item (Segmentation.shape image) 2 w)
      as [[c | e |] w1] eqn:Hc; try discriminate.
    apply item_inv in Hc. destruct Hc as [_ ->]. cbn.
    destruct (negb (c =? 3)%Z); [discriminate |].
    intros [= <- <-]. auto.
  - cbn. intros [= <- <-]. auto.
Qed.

(** [X10] When [detect_object] returns, the record carries the requested
    identifier and the highest score of the requested class over all
    proposals, taken from the first proposal that attains it; a box, if
    present, is the box of that proposal. *)
Theorem detect_object_picks_maximum {W : Type}
    (self : Segmentation.ObjectSegmentation) (image : Segmentation.Image)
    (object_id : string) (threshold : Q) (w w' : W)
    (det : Segmentation.Detection) (ci : nat)
    (scores : list (list Q)) (boxes : list Segmentation.Box)
    (masks : list (list Segmentation.RawMask)) :
  Segmentation.index (Segmentation._classes self) object_id = Some ci ->
  Segmentation._im_detect self image = (scores, boxes, masks) ->
  Segmentation.detect_object self image object_id threshold w
  = (Py.Ret det, w') ->
  Segmentation.det_id det = object_id /\
  exists k row,
    nth_error scores k = Some row /\
    Segmentation.det_score det = nth ci row 0 /\
    (forall j r, nth_error scores j = Some r ->
                 nth ci r 0 <= Segmentation.det_score det) /\
    (forall j r, (j < k)%nat -> nth_error scores j = Some r ->
                 nth ci r 0 < Segmentation.det_score det) /\
    (forall b, Segmentation.det_box det = Some b ->
               nth_error boxes k = Some b).
Proof.
  intros Hidx Hnet H.
  unfold Segmentation.detect_object in H. rewrite Hidx in H.
  unfold Py.bind at 1 in H.
  destruct (Segmentation.detect self image w) as [[d | e |] w1] eqn:Hdet;
    try discriminate.
  apply detect_inv in Hdet. destruct Hdet as [-> ->]. rewrite Hnet in H.
  unfold Py.bind at 1 in H.
  destruct (Segmentation.column scores ci w) as [[col | e |] w1] eqn:Hcol;
    try discriminate.
  apply column_inv in Hcol. destruct Hcol as [-> ->].
  destruct (Segmentation.np_argmax _) as [k|] eqn:Hk; [| discriminate].
  apply np_argmax_first_maximum in Hk.
  destruct Hk as (Hklt & Hmax & Hfirst). rewrite length_map in Hklt, Hmax.
  unfold Py.bind at 1 in H.
  destruct (Segmentation.item _ k w) as [[sc | e |] w1] eqn:Hsc;
    try discriminate.
  apply item_inv in Hsc. destruct Hsc as [Hsc ->].
  unfold Py.bind at 1 in H.
  destruct (Segmentation.item boxes k w) as [[bx | e |] w1] eqn:Hbx;
    try discriminate.
  apply item_inv in Hbx. destruct Hbx as [Hbx ->].
  assert (Hnthmap : forall j r, nth_error scores j = Some r ->
            nth j (map (fun r => nth ci r 0) scores) 0 = nth ci r 0).
  { intros j r Hj.
    apply (nth_error_nth (map (fun r => nth ci r 0) scores) j 0).
    now rewrite nth_error_map, Hj. }
  destruct (nth_error scores k) as [row|] eqn:Hrow;
    [| apply nth_error_None in Hrow; lia].
  assert (Hscore : sc = nth ci row 0).
  { rewrite nth_error_map, Hrow in Hsc. now injection Hsc as <-. }
  assert (Hres : Segmentation.det_id det = object_id /\
                 Segmentation.det_score det = sc /\
                 (forall b, Segmentation.det_box det = Some b -> b = bx)).
  { revert H. unfold Py.bind.
    repeat match goal with
           | |- context [match ?x with _ => _ end] => destruct x
           end; try discriminate;
      intros [= <- <-]; cbn; repeat split; congruence. }
  destruct Hres as (Hid & Hds & Hbox). split; [exact Hid |].
  exists k, row. rewrite Hds, Hscore.
  split; [exact Hrow |]. split; [reflexivity |]. split; [| split].
  - intros j r Hj. rewrite <- (Hnthmap j r Hj), <- (Hnthmap k row Hrow).
    apply Hmax. apply nth_error_Some. congruence.
  - intros j r Hlt Hj.
    rewrite <- (Hnthmap j r Hj), <- (Hnthmap k row Hrow).
    now apply Hfirst.
  - intros b Hb. now rewrite (Hbox b Hb).
Qed.

Lemma detect_object_picks_maximum_witness :
  exists k row,
    nth_error [[0.1; 0.6; 0.3]; [0.05; 0.05; 0.9]] k = Some row /\
    0.9 = nth 2 row 0 /\
    (forall j r,
        nth_error [[0.1; 0.6; 0.3]; [0.05; 0.05; 0.9]] j = Some r ->
        nth 2 r 0 <= 0.9).
Proof.
  destruct (detect_object_picks_maximum ArgmaxSpec.two_proposals
              DetectSpec.colour_image "ball" 0.8 tt tt
              (Segmentation.mkDetection "ball" 0.9
                 (Some [10; 10; 19; 19]) (Some [[255%Z]]))
              2 [[0.1; 0.6; 0.3]; [0.05; 0.05; 0.9]]
              [[0; 0; 9; 9]; [10; 10; 19; 19]]
              [[[[1]]]; [[[1]]]] eq_refl eq_refl eq_refl)
    as (_ & k & row & Hrow & Hscore & Hmax & _).
  exists k, row. repeat split; assumption.
Defined.

Lemma nth_concat_uniform (m : nat) (l : list (list Q)) (i c : nat) :
  Forall (fun r => length r = m) l ->
  (i < length l)%nat -> (c < m)%nat ->
  nth (i * m + c) (concat l) 0 = nth c (nth i l []) 0.
Proof.
  intros H. revert i. induction H as [|r l Hr _ IH]; intros i Hi Hc.
  - cbn in Hi. lia.
  - cbn [concat]. destruct i as [|i].
    + cbn [Nat.mul Nat.add nth]. apply app_nth1. lia.
    + rewrite app_nth2 by (rewrite Hr; cbn; lia).
      rewrite Hr. replace (S i * m + c - m)%nat with (i * m + c)%nat
        by (cbn; lia).
      cbn [nth]. apply IH; [cbn in Hi; lia | exact Hc].
Qed.

Lemma nth_skipn_one (r : list Q) (c : nat) :
  nth c (skipn 1 r) 0 = nth (c + 1) r 0.
Proof.
  destruct r as [|a r]; [now destruct c |].
  cbn [skipn]. now rewrite Nat.add_1_r.
Qed.

(** [X11] When [detect_best] returns on a rectangular score array with
    [n] columns, the record's score is the highest score over all
    proposals and all classes but the background (column 0); it is taken
    from a column [j >= 1], the record's identifier is the class of that
    column, and a box, if present, is the box of the chosen proposal. *)
Theorem detect_best_picks_maximum {W : Type}
    (self : Segmentation.ObjectSegmentation) (image : Segmentation.Image)
    (threshold : Q) (w w' : W) (det : Segmentation.Detection) (n : nat)
    (scores : list (list Q)) (boxes : list Segmentation.Box)
    (masks : list (list Segmentation.RawMask)) :
  Segmentation._im_detect self image = (scores, boxes, masks) ->
  Forall (fun r => length r = n) scores ->
  Segmentation.detect_best self image threshold w = (Py.Ret det, w') ->
  exists i j row,
    nth_error scores i = Some row /\
    (1 <= j < n)%nat /\
    Segmentation.det_score det = nth j row 0 /\
    nth_error (Segmentation._classes self) j
    = Some (Segmentation.det_id det) /\
    (forall i' r j',
        nth_error scores i' = Some r -> (1 <= j' < n)%nat ->
        nth j' r 0 <= Segmentation.det_score det) /\
    (forall b, Segmentation.det_box det = Some b ->
               nth_error boxes i = Some b).
Proof.
  intros Hnet Hrect H.
  unfold Segmentation.detect_best in H. unfold Py.bind at 1 in H.
  destruct (Segmentation.detect self image w) as [[d | e |] w1] eqn:Hdet;
    try discriminate.
  apply detect_inv in Hdet. destruct Hdet as [-> ->]. rewrite Hnet in H.
  set (fg := map (skipn 1) scores) in *.
  assert (Hfg : Forall (fun r => length r = (n - 1)%nat) fg).
  { unfold fg. rewrite Forall_map. eapply Forall_impl; [exact Hrect |].
    cbn. intros r Hr. rewrite length_skipn. lia. }
  pose proof (length_concat_uniform _ _ Hfg) as Hcat.
  unfold fg in Hcat at 2. rewrite length_map in Hcat.
  destruct (Segmentation.np_argmax (concat fg)) as [k|] eqn:Hk;
    [| discriminate].
  apply np_argmax_first_maximum in Hk.
  destruct Hk as (Hklt & Hmax & _). rewrite Hcat in Hklt, Hmax.
  assert (Hm : (0 < n - 1)%nat) by (destruct (n - 1)%nat; lia).
  assert (Hncols :
    match fg with [] => 0%nat | r :: _ => length r end = (n - 1)%nat).
  { destruct fg as [|r0 fg'] eqn:Efg.
    - unfold fg in Efg. destruct scores; [cbn in Hklt; lia | discriminate].
    - now inversion Hfg. }
  rewrite Hncols in H.
  set (m := (n - 1)%nat) in *.
  assert (Hq : (k / m < length scores)%nat)
    by (apply Nat.Div0.div_lt_upper_bound; lia).
  assert (Hr : (k mod m < m)%nat) by (apply Nat.mod_upper_bound; lia).
  assert (Hkeq : k = (k / m * m + k mod m)%nat).
  { rewrite (Nat.div_mod_eq k m) at 1. lia. }
  unfold Py.bind at 1 in H.
  destruct (Segmentation.item scores (k / m) w) as [[row | e |] w1] eqn:Hrow;
    try discriminate.
  apply item_inv in Hrow. destruct Hrow as [Hrow ->].
  unfold Py.bind at 1 in H.
  destruct (Segmentation.item row (k mod m + 1) w) as [[sc | e |] w1] eqn:Hsc;
    try discriminate.
  apply item_inv in Hsc. destruct Hsc as [Hsc ->].
  unfold Py.bind at 1 in H.
  destruct (Segmentation.item boxes (k / m) w) as [[bx | e |] w1] eqn:Hbx;
    try discriminate.
  apply item_inv in Hbx. destruct Hbx as [Hbx ->].
  assert (Hres :
    exists obj,
      nth_error (Segmentation._classes self) (k mod m + 1) = Some obj /\
      Segmentation.det_id det = obj /\
      Segmentation.det_score det = sc /\
      (forall b, Segmentation.det_box det = Some b -> b = bx)).
  { revert H. unfold Py.bind.
    destruct (Segmentation.item masks (k / m) w) as [[mk | e |] w1];
      try discriminate.
    destruct (Segmentation.item mk 0 w1) as [[m0 | e |] w2];
      try discriminate.
    destruct (Segmentation.lift _ w2) as [[mi | e |] w3];
      try discriminate.
    destruct (Segmentation.item (Segmentation._classes self) _ w3)
      as [[obj | e |] w4] eqn:Hobj; try discriminate.
    apply item_inv in Hobj. destruct Hobj as [Hobj _].
    destruct (Py.Qltb threshold sc); intros [= <- <-]; exists obj; cbn;
      repeat split; congruence. }
  destruct Hres as (obj & Hobj & Hid & Hds & Hbox).
  assert (Hentry : forall i' r j',
    nth_error scores i' = Some r -> (1 <= j' < n)%nat ->
    nth j' r 0 = nth (i' * m + (j' - 1)) (concat fg) 0).
  { intros i' r j' Hi' Hj'.
    assert (Hi'lt : (i' < length scores)%nat)
      by (apply nth_error_Some; congruence).
    rewrite (nth_concat_uniform m fg i' (j' - 1) Hfg)
      by (unfold fg; rewrite ?length_map; unfold m; lia).
    unfold fg. change [] with (skipn 1 (@nil Q)).
    rewrite map_nth, (nth_error_nth scores i' [] Hi'), nth_skipn_one.
    f_equal. lia. }
  exists (k / m)%nat, (k mod m + 1)%nat, row.
  assert (Hn : n = (m + 1)%nat) by (unfold m; lia).
  split; [exact Hrow |].
  split; [generalize dependent (k mod m)%nat; intros; lia |].
  assert (Hscore : sc = nth (k mod m + 1) row 0)
    by (symmetry; now apply nth_error_nth).
  split; [congruence |]. split; [congruence |]. split.
  - intros i' r j' Hi' Hj'. rewrite Hds, Hscore.
    rewrite (Hentry i' r j' Hi' Hj').
    rewrite (Hentry (k / m)%nat row (k mod m + 1)%nat Hrow)
      by (clear - Hr Hn; generalize dependent (k mod m)%nat; intros; lia).
    replace (k / m * m + (k mod m + 1 - 1))%nat with k by lia.
    apply Hmax.
    assert (Hi'lt : (i' < length scores)%nat)
      by (apply nth_error_Some; congruence).
    unfold m. nia.
  - intros b Hb. now rewrite (Hbox b Hb).
Qed.

Lemma detect_best_picks_maximum_witness :
  exists i j row,
    nth_error [[0.1; 0.6; 0.3]; [0.05; 0.05; 0.9]] i = Some row /\
    (1 <= j < 3)%nat /\
    0.9 = nth j row 0 /\
    nth_error ["__background__"; "cup"; "ball"]%string j = Some "ball"%string.
Proof.
  destruct (detect_best_picks_maximum ArgmaxSpec.two_proposals
              DetectSpec.colour_image 0.8 tt tt
              (Segmentation.mkDetection "ball" 0.9
                 (Some [10; 10; 19; 19]) (Some [[255%Z]]))
              3 [[0.1; 0.6; 0.3]; [0.05; 0.05; 0.9]]
              [[0; 0; 9; 9]; [10; 10; 19; 19]]
              [[[[1]]]; [[[1]]]] eq_refl
              ltac:(repeat constructor) eq_refl)
    as (i & j & row & Hrow & Hj & Hscore & Hid & _).
  exists i, j, row. repeat split; try assumption; lia.
Defined.

(** ** [servoing/base.py]: detection, iteration and the servo loop *)

Lemma detection_pure (self : Servoing.Servo) (image : Segmentation.Image)
    (object_id : string) : pure (ServoMore.detection self image object_id).
Proof.
  unfold ServoMore.detection. destruct (String.eqb object_id "hand").
  - apply pure_detect_best.
  - apply pure_detect_object.
Qed.

Lemma detection_invariant (self : Servoing.Servo)
    (image : Segmentation.Image) (object_id : string)
    (s s' : Servoing.State) (det : Segmentation.Detection) :
  ServoMore.detection self image object_id s = (Py.Ret det, s') ->
  DetectSpec.detection_invariant 0.8 det.
Proof.
  unfold ServoMore.detection. destruct (String.eqb object_id "hand").
  - apply detect_best_invariant.
  - apply detect_object_invariant.
Qed.

Lemma find_eq (self : Servoing.Servo) (image : Segmentation.Image)
    (object_id : string) (s : Servoing.State) :
  let s1 := Servoing.emit (Servoing.EvDetect image) s in
  Servoing._find_rotated_enclosing_rect self image object_id s =
  match fst (ServoMore.detection self image object_id s1) with
  | Py.Ret det =>
      match Segmentation.det_mask det with
      | Some mask =>
          (Py.Ret (Servoing.mask_to_rroi self mask),
           Servoing.emit
             (Servoing.EvDrawPublish image (Servoing.mask_to_rroi self mask))
             s1)
      | None =>
          (Py.Raise
             (Py.mkExc Py.ValueError
                ("Segmentation of " ++ Segmentation.det_id det
                 ++ (if String.eqb object_id "hand" then " in hand" else "")
                 ++ " failed!")), s1)
      end
  | Py.Raise e => (Py.Raise e, s1)
  | Py.Diverge => (Py.Diverge, s1)
  end.
Proof.
  cbv zeta. unfold Servoing._find_rotated_enclosing_rect.
  rewrite (bind_run _ _ s tt (Servoing.emit (Servoing.EvDetect image) s))
    by reflexivity.
  fold (ServoMore.detection self image object_id).
  pose proof (detection_pure self image object_id
                (Servoing.emit (Servoing.EvDetect image) s)) as Hp.
  unfold Py.bind at 1.
  destruct (ServoMore.detection self image object_id _)
    as [[det | e |] s'] eqn:Hdet; cbn [fst snd] in *; subst s';
    try reflexivity.
  destruct (Segmentation.det_mask det); reflexivity.
Qed.

(** [X12] [_find_rotated_enclosing_rect] always detects at the fixed
    threshold 0.8.  If the detection returns a record, the rectangle of
    its mask is returned (and drawn and published) exactly when the score
    exceeds 0.8; otherwise a [ValueError] is raised and nothing is
    published.  An exception of the detection itself (such as the
    [KeyError] for an unknown identifier) is passed on unchanged. *)
Theorem find_rect_outcomes (self : Servoing.Servo)
    (image : Segmentation.Image) (object_id : string) (s : Servoing.State) :
  let s1 := Servoing.emit (Servoing.EvDetect image) s in
  let r := Servoing._find_rotated_enclosing_rect self image object_id s in
  match fst (ServoMore.detection self image object_id s1) with
  | Py.Ret det =>
      (0.8 < Segmentation.det_score det ->
       exists mask,
         Segmentation.det_mask det = Some mask /\
         r = (Py.Ret (Servoing.mask_to_rroi self mask),
              Servoing.emit
                (Servoing.EvDrawPublish image
                   (Servoing.mask_to_rroi self mask)) s1)) /\
      (Segmentation.det_score det <= 0.8 ->
       exists msg, r = (Py.Raise (Py.mkExc Py.ValueError msg), s1))
  | Py.Raise e => r = (Py.Raise e, s1)
  | Py.Diverge => r = (Py.Diverge, s1)
  end.
Proof.
  cbv zeta. rewrite find_eq. cbv zeta.
  destruct (ServoMore.detection self image object_id _)
    as [[det | e |] s'] eqn:Hdet; cbn [fst]; try reflexivity.
  apply detection_invariant in Hdet. destruct Hdet as (_ & _ & Hm).
  split.
  - intros Hgt. apply Hm in Hgt. destruct Hgt as [mask Hmask].
    exists mask. rewrite Hmask. auto.
  - intros Hle. destruct (Segmentation.det_mask det) as [mask|] eqn:Hmask.
    + exfalso. assert (0.8 < Segmentation.det_score det)
        by (apply Hm; eauto). lra.
    + eexists. reflexivity.
Qed.

Lemma find_rect_outcomes_witness :
  Servoing._find_rotated_enclosing_rect
    (ServoStubs.servo_stub ServoStubs.ik_ok 0.9 ServoStubs.centred)
    DetectSpec.colour_image "cup" Servoing.initial_state
  = (Py.Ret ServoStubs.centred,
     Servoing.emit
       (Servoing.EvDrawPublish DetectSpec.colour_image ServoStubs.centred)
       (Servoing.emit (Servoing.EvDetect DetectSpec.colour_image)
          Servoing.initial_state)).
Proof.
  pose proof (find_rect_outcomes
                (ServoStubs.servo_stub ServoStubs.ik_ok 0.9 ServoStubs.centred)
                DetectSpec.colour_image "cup" Servoing.initial_state) as H.
  cbv zeta in H.
  change (fst (ServoMore.detection _ _ _ _)) with
    (Py.Ret (Segmentation.mkDetection "cup" 0.9 (Some [0; 0; 9; 9])
               (Some [[255%Z]]))) in H.
  cbv iota in H. destruct H as [H _].
  destruct H as (mask & Hmask & Hr); [reflexivity |].
  rewrite Hr. reflexivity.
Defined.

(** [X13] The Converged case of [_iterate]: when the measured error does
    not exceed the tolerance, [_iterate] collects one frame and returns
    the rectangle it was given together with that error; it asks no
    inverse kinematics, commands no move and detects nothing. *)
Theorem iterate_converged (self : Servoing.Servo)
    (arm object_id : string) (rroi : Servoing.RRoi) (s : Servoing.State)
    (cam : Servoing.Camera) (h w : Z) (dims : list Z) (d : Q) :
  ServoSpec.camera_of self arm cam ->
  Segmentation.shape (Servoing.collect_image cam (Servoing.n_frames s))
  = h :: w :: dims ->
  Servoing.estimate_distance self object_id rroi arm = inr d ->
  let img := Servoing.collect_image cam (Servoing.n_frames s) in
  let err :=
    ServoSpec.pixel_error self h w rroi * (Servoing.meters_per_pixel cam * d) in
  err <= Servoing._tolerance self ->
  let r := Servoing._iterate self arm object_id rroi s in
  fst r = Py.Ret (rroi, err) /\
  Servoing.trace (snd r)
  = Servoing.trace s ++ [Servoing.EvCollectImage arm img] /\
  Servoing.n_frames (snd r) = S (Servoing.n_frames s) /\
  Servoing.n_ik (snd r) = Servoing.n_ik s /\
  Servoing.n_moves (snd r) = Servoing.n_moves s.
Proof.
  intros Hcam Hshape Hd img err Herr r. unfold r.
  rewrite (iterate_eq self arm object_id rroi s cam h w dims d
             Hcam Hshape Hd).
  cbv zeta. fold err. apply Qltb_ge in Herr. rewrite Herr.
  repeat split.
Qed.

Lemma iterate_converged_witness :
  fst (Servoing._iterate
         (ServoStubs.servo_stub ServoStubs.ik_ok 0.9 ServoStubs.centred)
         "left" "cup" ServoStubs.centred Servoing.initial_state)
  = Py.Ret (ServoStubs.centred,
            ServoSpec.pixel_error
              (ServoStubs.servo_stub ServoStubs.ik_ok 0.9 ServoStubs.centred)
              800 1280 ServoStubs.centred * (0.0025 * 0.3)).
Proof.
  refine (proj1 (iterate_converged
            (ServoStubs.servo_stub ServoStubs.ik_ok 0.9 ServoStubs.centred)
            "left" "cup" ServoStubs.centred Servoing.initial_state
            ServoStubs.camera 800 1280 [3%Z] 0.3 _ _ _ _)).
  - eexists. split; reflexivity.
  - reflexivity.
  - reflexivity.
  - vm_compute. discriminate.
Defined.

Lemma pure_robot_camera (self : Servoing.Servo) (attr arm : string) :
  pure (Servoing.robot_camera self attr arm).
Proof. unfold Servoing.robot_camera. repeat pure_step. Qed.

Lemma pure_unpack2 (l : list Z) : pure (Servoing.unpack2 l).
Proof. unfold Servoing.unpack2. repeat pure_step. Qed.

Lemma pure_error (self : Servoing.Servo) (image_size : list Z)
    (object_id : string) (rroi : Servoing.RRoi) (arm : string) :
  pure (Servoing._error self image_size object_id rroi arm).
Proof.
  unfold Servoing._error, Servoing._pixel_to_camera_factor.
  repeat first [apply pure_unpack2 | apply pure_robot_camera | pure_step].
Qed.

Lemma quiet_step_refl (img : Segmentation.Image) (s : Servoing.State) :
  ServoMore.quiet_step img s s.
Proof.
  repeat split. exists []. split; [now rewrite app_nil_r | constructor].
Qed.

Lemma quiet_step_emit (img : Segmentation.Image) (e : Servoing.Event)
    (s s' : Servoing.State) :
  ServoMore.display_only img e ->
  ServoMore.quiet_step img s s' ->
  ServoMore.quiet_step img s (Servoing.emit e s').
Proof.
  intros He (Hf & Hi & Hm & rest & Ht & Hall).
  split; [exact Hf |]. split; [exact Hi |]. split; [exact Hm |].
  exists (rest ++ [e]). split.
  - cbn. now rewrite Ht, <- app_assoc.
  - apply Forall_app. split; [exact Hall |]. now repeat constructor.
Qed.

Lemma remeasure_quiet (self : Servoing.Servo) (arm object_id : string)
    (img : Segmentation.Image) (rroi : Servoing.RRoi) (camera_error : Q)
    (s : Servoing.State) :
  ServoMore.quiet_step img
    (Servoing.emit (Servoing.EvDetect img) s)
    (snd (ServoSpec.remeasure self arm object_id img rroi camera_error s)).
Proof.
  unfold ServoSpec.remeasure, Py.try_except at 1, Py.bind at 1.
  rewrite find_eq. cbv zeta.
  set (s1 := Servoing.emit (Servoing.EvDetect img) s).
  pose proof (quiet_step_refl img s1) as Hs1.
  assert (Hlog : forall m s',
    ServoMore.quiet_step img s1 s' ->
    ServoMore.quiet_step img s1
      (Servoing.emit (Servoing.EvLogError m) s'))
    by (intros m s'; now apply quiet_step_emit).
  destruct (fst (ServoMore.detection self img object_id s1))
    as [det | e |].
  - destruct (Segmentation.det_mask det) as [mask|].
    + set (s2 := Servoing.emit _ s1).
      assert (Hs2 : ServoMore.quiet_step img s1 s2)
        by (apply quiet_step_emit; [reflexivity | exact Hs1]).
      pose proof (pure_error self (firstn 2 (Segmentation.shape img))
                    object_id (Servoing.mask_to_rroi self mask) arm s2) as Hp.
      destruct (Servoing._error self _ object_id _ arm s2)
        as [[e' | e' |] s3] eqn:He; cbn [snd] in Hp; subst s3.
      * unfold Py.try_except, Py.bind. rewrite He. exact Hs2.
      * destruct (Py.isinstance e' Py.ValueError) eqn:Hi;
          unfold Py.try_except, Py.bind; rewrite He;
          cbn -[Py.isinstance]; rewrite ?Hi; cbn -[Py.isinstance];
          rewrite ?Hi; [apply Hlog |]; exact Hs2.
      * unfold Py.try_except, Py.bind. rewrite He. exact Hs2.
    + cbn -[Py.isinstance]. apply Hlog, Hs1.
  - destruct (Py.isinstance e Py.ValueError);
      cbn -[Py.isinstance]; [apply Hlog |]; exact Hs1.
  - exact Hs1.
Qed.

(** [X14] A correcting iteration whose inverse kinematics succeeds
    collects exactly one frame, issues exactly one IK request and
    commands exactly one move; the detection that follows the move runs
    on the frame collected before the move, and nothing but drawing on
    that frame and error logging happens after it. *)
Theorem iterate_redetects_on_old_frame (self : Servoing.Servo)
    (arm object_id : string) (rroi : Servoing.RRoi) (s : Servoing.State)
    (cam : Servoing.Camera) (h w : Z) (dims : list Z) (d : Q)
    (cfg : Servoing.Config) :
  ServoSpec.camera_of self arm cam ->
  Segmentation.shape (Servoing.collect_image cam (Servoing.n_frames s))
  = h :: w :: dims ->
  Servoing.estimate_distance self object_id rroi arm = inr d ->
  let img := Servoing.collect_image cam (Servoing.n_frames s) in
  let factor := Servoing.meters_per_pixel cam * d in
  let pose :=
    Py.zip_add
      (Servoing.endpoint_pose (Servoing._robot self) (Servoing.n_moves s) arm)
      (ServoSpec.correction h w factor rroi) in
  Servoing._tolerance self < ServoSpec.pixel_error self h w rroi * factor ->
  Servoing.inverse_kinematics (Servoing._robot self) (Servoing.n_ik s) arm pose
  = inr cfg ->
  let r := Servoing._iterate self arm object_id rroi s in
  Servoing.n_frames (snd r) = S (Servoing.n_frames s) /\
  Servoing.n_ik (snd r) = S (Servoing.n_ik s) /\
  Servoing.n_moves (snd r) = S (Servoing.n_moves s) /\
  exists rest,
    Servoing.trace (snd r)
    = Servoing.trace s
      ++ [ Servoing.EvCollectImage arm img; Servoing.EvIKRequest arm pose;
           Servoing.EvMoveTo cfg; Servoing.EvDetect img ]
      ++ rest /\
    Forall (ServoMore.display_only img) rest.
Proof.
  intros Hcam Hshape Hd img factor pose Herr Hik r. unfold r.
  rewrite (iterate_eq self arm object_id rroi s cam h w dims d
             Hcam Hshape Hd).
  cbv zeta. fold factor pose img. apply Qltb_lt in Herr.
  rewrite Herr, Hik.
  match goal with
  | |- context [ServoSpec.remeasure self arm object_id img rroi ?e ?s3] =>
      pose proof (remeasure_quiet self arm object_id img rroi e s3)
        as (Hf & Hi & Hm & rest & Ht & Hall);
      rewrite Hf, Hi, Hm, Ht
  end.
  cbn. repeat split. exists rest. split; [| exact Hall].
  now rewrite <- !app_assoc.
Qed.

Lemma iterate_redetects_on_old_frame_witness :
  Servoing.n_frames
    (snd (Servoing._iterate
            (ServoStubs.servo_stub ServoStubs.ik_ok 0.9 ServoStubs.off_centre)
            "left" "cup" ServoStubs.off_centre Servoing.initial_state))
  = 1%nat.
Proof.
  refine (proj1 (iterate_redetects_on_old_frame
            (ServoStubs.servo_stub ServoStubs.ik_ok 0.9 ServoStubs.off_centre)
            "left" "cup" ServoStubs.off_centre Servoing.initial_state
            ServoStubs.camera 800 1280 [3%Z] 0.3 [] _ _ _ _ _)).
  - eexists. split; reflexivity.
  - reflexivity.
  - reflexivity.
  - vm_compute. reflexivity.
  - reflexivity.
Defined.

(** [X15] The servo loop has no iteration cap.  If the error of the
    current rectangle exceeds the tolerance and every inverse-kinematics
    request fails with a [ValueError], each pass leaves rectangle and
    error as they were, so the loop does not end within any number [fuel]
    of passes; it collects a frame and issues an IK request in each pass
    and never commands a move. *)
Theorem servo_loop_stalls (self : Servoing.Servo)
    (arm object_id : string) (rroi : Servoing.RRoi)
    (cam : Servoing.Camera) (h w : Z) (d : Q) :
  ServoSpec.camera_of self arm cam ->
  (forall k, exists dims,
      Segmentation.shape (Servoing.collect_image cam k) = h :: w :: dims) ->
  Servoing.estimate_distance self object_id rroi arm = inr d ->
  (forall k pose, exists e,
      Servoing.inverse_kinematics (Servoing._robot self) k arm pose = inl e /\
      Py.isinstance e Py.ValueError = true) ->
  let err :=
    ServoSpec.pixel_error self h w rroi * (Servoing.meters_per_pixel cam * d) in
  Servoing._tolerance self < err ->
  forall fuel camera_error s,
    Servoing._tolerance self < camera_error ->
    let r := Servoing.servo_loop self fuel arm object_id rroi camera_error s in
    fst r = Py.Diverge /\
    Servoing.n_frames (snd r) = (Servoing.n_frames s + fuel)%nat /\
    Servoing.n_ik (snd r) = (Servoing.n_ik s + fuel)%nat /\
    Servoing.n_moves (snd r) = Servoing.n_moves s.
Proof.
  intros Hcam Hshape Hd Hik err Herr fuel.
  induction fuel as [|fuel IH]; intros ce s Hce r; unfold r.
  - unfold Servoing.servo_loop. cbn [Py.while snd].
    apply Qltb_lt in Hce. rewrite Hce. cbn. repeat split; lia.
  - unfold Servoing.servo_loop.
    rewrite while_step by (now apply Qltb_lt). cbn [fst].
    destruct (Hshape (Servoing.n_frames s)) as [dims Hsh].
    unfold Py.bind at 1 2 3 4.
    rewrite (iterate_eq self arm object_id rroi s cam h w dims d
               Hcam Hsh Hd).
    cbv zeta. fold err.
    pose proof Herr as Hq. apply Qltb_lt in Hq. rewrite Hq.
    match goal with
    | |- context [Servoing.inverse_kinematics _ ?k arm ?pose] =>
        destruct (Hik k pose) as (e & -> & ->)
    end.
    match goal with
    | |- context [Py.while fuel _ _ (rroi, err) ?s3] =>
        pose proof (IH err s3 Herr) as H;
        unfold Servoing.servo_loop in H; cbv zeta in H;
        destruct H as (H1 & H2 & H3 & H4)
    end.
    rewrite H1, H2, H3, H4. cbn. repeat split; lia.
Qed.

Lemma servo_loop_stalls_witness :
  fst (Servoing.servo_loop
         (ServoStubs.servo_stub ServoStubs.ik_value_error 0.9
            ServoStubs.off_centre)
         7 "left" "cup" ServoStubs.off_centre 0.02 Servoing.initial_state)
  = Py.Diverge.
Proof.
  refine (proj1 (servo_loop_stalls
            (ServoStubs.servo_stub ServoStubs.ik_value_error 0.9
               ServoStubs.off_centre)
            "left" "cup" ServoStubs.off_centre ServoStubs.camera
            800 1280 0.3 _ _ _ _ _ 7%nat 0.02 Servoing.initial_state _)).
  - eexists. split; reflexivity.
  - intros k. exists [3%Z]. reflexivity.
  - reflexivity.
  - intros k pose. eexists. split; reflexivity.
  - vm_compute. reflexivity.
  - vm_compute. reflexivity.
Defined.

Lemma servo_with_eq (self : Servoing.Servo) (attr : string) (fuel : nat)
    (arm object_id : string) (s : Servoing.State)
    (cams : gmap string Servoing.Camera) (cam : Servoing.Camera) :
  Servoing.camera_attrs (Servoing._robot self) !! attr = Some cams ->
  cams !! arm = Some cam ->
  let img := Servoing.collect_image cam (Servoing.n_frames s) in
  let s1 := ServoSpec.collected arm img s in
  Servoing.servo_with self attr fuel arm object_id s =
  match Servoing._find_rotated_enclosing_rect self img object_id s1 with
  | (Py.Ret rroi, s2) =>
      match Servoing.servo_loop self fuel arm object_id rroi
              (2 * Servoing._tolerance self) s2 with
      | (Py.Ret _, s3) => (Py.Ret true, s3)
      | (Py.Raise e, s3) => (Py.Raise e, s3)
      | (Py.Diverge, s3) => (Py.Diverge, s3)
      end
  | (Py.Raise e, s2) =>
      if Py.isinstance e Py.ValueError
      then (Py.Ret false, Servoing.emit (Servoing.EvLogError (Py.exc_msg e)) s2)
      else (Py.Raise e, s2)
  | (Py.Diverge, s2) => (Py.Diverge, s2)
  end.
Proof.
  intros Hattr Harm img s1. unfold Servoing.servo_with.
  assert (Hcam : Servoing.robot_camera self attr arm s = (Py.Ret cam, s))
    by (unfold Servoing.robot_camera; now rewrite Hattr, Harm).
  rewrite (bind_run _ _ _ _ _ Hcam).
  rewrite (bind_run _ _ s img s1) by reflexivity.
  unfold Py.bind at 1. unfold Py.try_except, Py.bind at 1.
  destruct (Servoing._find_rotated_enclosing_rect self img object_id s1)
    as [[rroi | e |] s2]; cbn -[Py.isinstance].
  - unfold Py.bind.
    destruct (Servoing.servo_loop self fuel arm object_id rroi _ s2)
      as [[res | e |] s3]; reflexivity.
  - destruct (Py.isinstance e Py.ValueError); reflexivity.
  - reflexivity.
Qed.

(** [X16] [servo] after its first statement, for whichever attribute of
    the robot handle the camera dictionary is read from.  If the detection
    on the first frame returns a record whose score does not exceed 0.8,
    [servo] logs the failure and returns [False]; it has collected one
    frame and asked for no inverse kinematics and no move, whatever the
    tolerance.  If the detection itself raises, a [ValueError] is turned
    into [False] in the same way and any other exception (such as the
    [KeyError] for an unknown identifier) leaves [servo]. *)
Theorem servo_detection_failure_outcomes (self : Servoing.Servo)
    (attr : string) (fuel : nat) (arm object_id : string)
    (s : Servoing.State)
    (cams : gmap string Servoing.Camera) (cam : Servoing.Camera) :
  Servoing.camera_attrs (Servoing._robot self) !! attr = Some cams ->
  cams !! arm = Some cam ->
  let img := Servoing.collect_image cam (Servoing.n_frames s) in
  let s2 := Servoing.emit (Servoing.EvDetect img)
              (ServoSpec.collected arm img s) in
  let r := Servoing.servo_with self attr fuel arm object_id s in
  match fst (ServoMore.detection self img object_id s2) with
  | Py.Ret det =>
      Segmentation.det_score det <= 0.8 ->
      exists msg,
        r = (Py.Ret false, Servoing.emit (Servoing.EvLogError msg) s2) /\
        Servoing.trace (snd r)
        = Servoing.trace s
          ++ [ Servoing.EvCollectImage arm img; Servoing.EvDetect img;
               Servoing.EvLogError msg ]
  | Py.Raise e =>
      r = if Py.isinstance e Py.ValueError
          then (Py.Ret false,
                Servoing.emit (Servoing.EvLogError (Py.exc_msg e)) s2)
          else (Py.Raise e, s2)
  | Py.Diverge => r = (Py.Diverge, s2)
  end.
Proof.
  intros Hattr Harm img s2 r. unfold r.
  rewrite (servo_with_eq self attr fuel arm object_id s cams cam Hattr Harm).
  cbv zeta. fold img. rewrite find_eq. cbv zeta. fold s2.
  destruct (ServoMore.detection self img object_id s2)
    as [[det | e |] s'] eqn:Hdet; cbn [fst]; try reflexivity.
  intros Hle. apply detection_invariant in Hdet.
  destruct Hdet as (_ & _ & Hm).
  destruct (Segmentation.det_mask det) as [mask|] eqn:Hmask.
  - exfalso. assert (0.8 < Segmentation.det_score det)
      by (apply Hm; eauto). lra.
  - eexists. split; [reflexivity |]. cbn. now rewrite <- !app_assoc.
Qed.

Lemma servo_detection_failure_outcomes_witness :
  Servoing.servo_with
    (ServoStubs.servo_stub ServoStubs.ik_ok 0.9 ServoStubs.centred)
    "cameras" 3 "left" "spoon" Servoing.initial_state
  = (Py.Raise (Py.mkExc Py.KeyError "spoon"),
     Servoing.emit
       (Servoing.EvDetect (Segmentation.mkImage [800; 1280; 3]%Z 0))
       (ServoSpec.collected "left" (Segmentation.mkImage [800; 1280; 3]%Z 0)
          Servoing.initial_state)).
Proof.
  exact (servo_detection_failure_outcomes
           (ServoStubs.servo_stub ServoStubs.ik_ok 0.9 ServoStubs.centred)
           "cameras" 3 "left" "spoon" Servoing.initial_state
           {[ "left"%string := ServoStubs.camera ]} ServoStubs.camera
           eq_refl eq_refl).
Defined.

(** [X17] With a tolerance that is zero or negative, [servo] (for
    whichever attribute the camera dictionary is read from) returns
    [True] as soon as the first detection has succeeded: the loop
    condition [2 * tolerance > tolerance] is false, so no error is ever
    measured and no second frame collected. *)
Theorem servo_nonpositive_tolerance (self : Servoing.Servo)
    (attr : string) (fuel : nat) (arm object_id : string)
    (s : Servoing.State)
    (cams : gmap string Servoing.Camera) (cam : Servoing.Camera)
    (rroi : Servoing.RRoi) (s2 : Servoing.State) :
  Servoing.camera_attrs (Servoing._robot self) !! attr = Some cams ->
  cams !! arm = Some cam ->
  let img := Servoing.collect_image cam (Servoing.n_frames s) in
  Servoing._find_rotated_enclosing_rect self img object_id
    (ServoSpec.collected arm img s) = (Py.Ret rroi, s2) ->
  Servoing._tolerance self <= 0 ->
  Servoing.servo_with self attr fuel arm object_id s = (Py.Ret true, s2) /\
  Servoing.n_frames s2 = S (Servoing.n_frames s) /\
  Servoing.n_ik s2 = Servoing.n_ik s /\
  Servoing.n_moves s2 = Servoing.n_moves s.
Proof.
  intros Hattr Harm img Hfind Htol.
  rewrite (servo_with_eq self attr fuel arm object_id s cams cam Hattr Harm).
  cbv zeta. fold img. rewrite Hfind.
  unfold Servoing.servo_loop.
  rewrite while_done by (cbn [snd]; apply Qltb_ge; lra).
  split; [reflexivity |].
  rewrite find_eq in Hfind. cbv zeta in Hfind.
  destruct (fst (ServoMore.detection self img object_id _))
    as [det | e |]; try discriminate.
  destruct (Segmentation.det_mask det); [| discriminate].
  injection Hfind as _ <-. repeat split.
Qed.

Lemma servo_nonpositive_tolerance_witness :
  Servoing.servo_with
    (Servoing.mkServo (ServoStubs.robot ServoStubs.ik_ok)
       (DetectSpec.one_proposal 0.9) 0 (fun _ _ _ => inr 0.3)
       (fun _ => ServoStubs.off_centre) ServoStubs.sqrt_stub)
    "cameras" 0 "left" "cup" Servoing.initial_state
  = (Py.Ret true,
     Servoing.emit
       (Servoing.EvDrawPublish (Segmentation.mkImage [800; 1280; 3]%Z 0)
          ServoStubs.off_centre)
       (Servoing.emit
          (Servoing.EvDetect (Segmentation.mkImage [800; 1280; 3]%Z 0))
          (ServoSpec.collected "left"
             (Segmentation.mkImage [800; 1280; 3]%Z 0)
             Servoing.initial_state))).
Proof.
  refine (proj1 (servo_nonpositive_tolerance
            (Servoing.mkServo (ServoStubs.robot ServoStubs.ik_ok)
               (DetectSpec.one_proposal 0.9) 0 (fun _ _ _ => inr 0.3)
               (fun _ => ServoStubs.off_centre) ServoStubs.sqrt_stub)
            "cameras" 0 "left" "cup" Servoing.initial_state
            {[ "left"%string := ServoStubs.camera ]} ServoStubs.camera
            ServoStubs.off_centre _ _ _ _ _)).
  - reflexivity.
  - reflexivity.
  - reflexivity.
  - cbn. lra.
Defined.

(** [X18] The base class cannot servo.  With [estimate_distance] as the
    base class defines it, [_error] and [_pixel_to_camera_factor] raise
    [NotImplementedError]; [_iterate] raises it after collecting one
    frame, its handler for [ValueError] not applying; and so does the
    servo loop on its first pass. *)
Theorem base_class_not_implemented (self : Servoing.Servo)
    (arm object_id : string) (rroi : Servoing.RRoi) (s : Servoing.State)
    (cam : Servoing.Camera) (h w : Z) (dims : list Z) :
  ServoSpec.camera_of self arm cam ->
  Segmentation.shape (Servoing.collect_image cam (Servoing.n_frames s))
  = h :: w :: dims ->
  (forall o r a,
      Servoing.estimate_distance self o r a
      = Servoing.base_estimate_distance o r a) ->
  let failure := Py.mkExc Py.NotImplementedError "" in
  let img := Servoing.collect_image cam (Servoing.n_frames s) in
  Servoing._pixel_to_camera_factor self object_id rroi arm s
  = (Py.Raise failure, s) /\
  Servoing._error self [h; w] object_id rroi arm s = (Py.Raise failure, s) /\
  Servoing._iterate self arm object_id rroi s
  = (Py.Raise failure, ServoSpec.collected arm img s) /\
  forall fuel camera_error,
    Servoing._tolerance self < camera_error ->
    Servoing.servo_loop self (S fuel) arm object_id rroi camera_error s
    = (Py.Raise failure, ServoSpec.collected arm img s).
Proof.
  intros Hcam Hshape Hbase failure img.
  assert (Hp2c : forall st,
    Servoing._pixel_to_camera_factor self object_id rroi arm st
    = (Py.Raise failure, st)).
  { intros st. unfold Servoing._pixel_to_camera_factor.
    rewrite (bind_run _ _ _ _ _ (robot_camera_run self arm cam st Hcam)).
    rewrite Hbase. reflexivity. }
  assert (Herr : forall st,
    Servoing._error self [h; w] object_id rroi arm st
    = (Py.Raise failure, st)).
  { intros st. unfold Servoing._error.
    rewrite (bind_run _ _ st (h, w) st) by reflexivity.
    now rewrite (bind_raise _ _ _ _ _ (Hp2c st)). }
  assert (Hit : Servoing._iterate self arm object_id rroi s
                = (Py.Raise failure, ServoSpec.collected arm img s)).
  { unfold Servoing._iterate.
    rewrite (bind_run _ _ _ _ _ (robot_camera_run self arm cam s Hcam)).
    rewrite (bind_run _ _ s img (ServoSpec.collected arm img s))
      by reflexivity.
    fold img in Hshape. rewrite Hshape. cbn [firstn].
    now rewrite (bind_raise _ _ _ _ _ (Herr _)). }
  split; [apply Hp2c |]. split; [apply Herr |]. split; [exact Hit |].
  intros fuel ce Hce. unfold Servoing.servo_loop.
  rewrite while_step by (now apply Qltb_lt).
  cbn [fst]. now rewrite (bind_raise _ _ _ _ _ Hit).
Qed.

Lemma base_class_not_implemented_witness :
  Servoing._iterate
    (Servoing.mkServo (ServoStubs.robot ServoStubs.ik_ok)
       (DetectSpec.one_proposal 0.9) 0.01 Servoing.base_estimate_distance
       (fun _ => ServoStubs.off_centre) ServoStubs.sqrt_stub)
    "left" "cup" ServoStubs.off_centre Servoing.initial_state
  = (Py.Raise (Py.mkExc Py.NotImplementedError ""),
     ServoSpec.collected "left" (Segmentation.mkImage [800; 1280; 3]%Z 0)
       Servoing.initial_state).
Proof.
  refine (proj1 (proj2 (proj2 (base_class_not_implemented
            (Servoing.mkServo (ServoStubs.robot ServoStubs.ik_ok)
               (DetectSpec.one_proposal 0.9) 0.01
               Servoing.base_estimate_distance
               (fun _ => ServoStubs.off_centre) ServoStubs.sqrt_stub)
            "left" "cup" ServoStubs.off_centre Servoing.initial_state
            ServoStubs.camera 800 1280 [3%Z] _ _ _)))).
  - eexists. split; reflexivity.
  - reflexivity.
  - intros o r a. reflexivity.
Defined.

(** ** [demonstration.py]: counting picked objects *)

Lemma try_object_grip (hw : Robot.Hardware) (s : Robot.State) :
  fst (Robot._try_object hw s) = Py.Ret (Robot.gripping hw (Robot.n_grip s)) /\
  Robot.n_grip (snd (Robot._try_object hw s)) = S (Robot.n_grip s) /\
  Robot.n_ik (snd (Robot._try_object hw s)) = Robot.n_ik s.
Proof.
  unfold Robot._try_object, Robot._grasp_object, Py.bind, Py.gets,
    Py.modify, Py.ret; cbn.
  destruct (Robot.gripping hw (Robot.n_grip s)); cbn;
    repeat split; reflexivity.
Qed.

Lemma pick_and_place_run (hw : Robot.Hardware) (fuel : nat)
    (s : Robot.State) :
  exists s_mid,
    Robot.pick_and_place_object hw (S fuel) s = Robot._try_object hw s_mid /\
    Robot.n_grip s_mid = Robot.n_grip s /\
    Robot.n_ik s_mid = S (Robot.n_ik s).
Proof.
  set (s1 := Robot.emit
               (Robot.EvSleep
                  (0.0 + (10.0 - 0.0) * Robot.random hw (Robot.n_random s)))
               (Robot.tick_random s)).
  assert (H1 : Robot._trigger_dummy hw 10.0 s = (Py.Ret tt, s1))
    by reflexivity.
  pose proof (move_to_pose_run hw Robot._top_pose s1) as H2.
  unfold Robot.pick_and_place_object. rewrite (bind_run _ _ _ _ _ H1).
  assert (Hretry : forall s2,
    Py.while (S fuel) (fun n => (0 <? n)%Z) (Robot.retry_body hw)
      Robot._N_TRIES s2 = (Py.Ret (-1)%Z, PerturbSpec.draw6 s2)).
  { intros s2. rewrite while_step by reflexivity.
    assert (Hb : Robot.retry_body hw Robot._N_TRIES s2
                 = (Py.Ret (-1)%Z, PerturbSpec.draw6 s2))
      by (unfold Robot.retry_body, Py.bind;
          rewrite perturbe_pose_run; reflexivity).
    rewrite (bind_run _ _ _ _ _ Hb). now rewrite while_done. }
  destruct (Robot.ik_service hw (Robot.n_ik s1) Robot._top_pose)
    as [msg | [|] joints];
    rewrite (bind_run _ _ _ _ _ H2); cbn [negb];
    try rewrite (bind_run _ _ _ _ _ (Hretry _));
    cbn [negb Z.eqb Pos.eqb];
    eexists; (split; [reflexivity | split; reflexivity]).
Qed.

Lemma successes_step (hw : Robot.Hardware) (from n : nat) :
  DemoSpec.successes hw from (S n)
  = (DemoSpec.successes hw from n
     + if Robot.gripping hw (from + n) then 1 else 0)%nat.
Proof.
  unfold DemoSpec.successes.
  rewrite seq_S, List.filter_app, length_app. cbn [List.filter].
  destruct (Robot.gripping hw (from + n)); reflexivity.
Qed.

Lemma while_do_inv {W S} (I : S -> W -> Prop) (cond : S -> Py.M W bool)
    (body : S -> Py.M W S) :
  (forall s w0 w s' w',
      I s w0 -> cond s w0 = (Py.Ret true, w) ->
      body s w = (Py.Ret s', w') -> I s' w') ->
  forall fuel s w s' w',
    I s w ->
    Demonstration.while_do fuel cond body s w = (Py.Ret s', w') ->
    exists w0, I s' w0 /\ cond s' w0 = (Py.Ret false, w').
Proof.
  intros Hbody fuel.
  induction fuel as [|fuel IH]; intros s w s' w' HI Hrun;
    cbn [Demonstration.while_do] in Hrun; unfold Py.bind at 1 in Hrun;
    destruct (cond s w) as [[[|] | e |] w1] eqn:Hc; try discriminate.
  - injection Hrun as <- <-. eauto.
  - unfold Py.bind at 1 in Hrun.
    destruct (body s w1) as [[s1 | e |] w2] eqn:Hb; try discriminate.
    eapply IH; [| exact Hrun]. eapply Hbody; eauto.
  - injection Hrun as <- <-. eauto.
Qed.

Lemma attempt_run (hw : Robot.Hardware) (pick_fuel : nat) (n : Z)
    (st : Demonstration.State) :
  exists r',
    let g := Robot.gripping hw (Robot.n_grip (Demonstration.robot st)) in
    Demonstration.attempt hw (S pick_fuel) n st
    = (Py.Ret (if g then (n + 1)%Z else n),
       Demonstration.mkState r' (Demonstration.n_polls st)) /\
    Robot.n_grip r' = S (Robot.n_grip (Demonstration.robot st)) /\
    Robot.n_ik r' = S (Robot.n_ik (Demonstration.robot st)).
Proof.
  destruct (pick_and_place_run hw pick_fuel (Demonstration.robot st))
    as (s_mid & Hpick & Hmid & Hmik).
  destruct (try_object_grip hw s_mid) as (Hfst & Hsnd & Hik).
  rewrite Hmid in Hfst, Hsnd. rewrite Hmik in Hik.
  exists (snd (Robot._try_object hw s_mid)). cbv zeta.
  split; [| split; [exact Hsnd | exact Hik]].
  unfold Demonstration.attempt, Py.bind, Demonstration.on_robot.
  rewrite Hpick.
  destruct (Robot._try_object hw s_mid) as [o r']. cbn [fst snd] in *.
  subst o. destruct (Robot.gripping hw _); reflexivity.
Qed.

(** [X19] [demonstrate] counts successful grasps.  It only ever returns
    [True].  When it returns, its loop has made some number [attempts] of
    passes: it has polled [rospy.is_shutdown] [attempts + 1] times, closed
    the gripper exactly [attempts] times and requested exactly [attempts]
    inverse kinematics solutions, one of each per pass.  The number of
    passes whose grasp succeeded does not exceed the requested number of
    objects, and equals it (zero for a request of zero or less) if no
    shutdown was signalled.  For a request of zero or less it returns
    after a single poll without touching the robot. *)
Theorem demonstrate_counts_successes (hw : Robot.Hardware)
    (is_shutdown : nat -> bool) (fuel pick_fuel : nat)
    (n_objects_to_pick : Z) (s : Demonstration.State) :
  (forall b s',
      Demonstration.demonstrate hw is_shutdown fuel (S pick_fuel)
        n_objects_to_pick s = (Py.Ret b, s') ->
      b = true /\
      exists attempts,
        Demonstration.n_polls s'
        = (Demonstration.n_polls s + attempts + 1)%nat /\
        Robot.n_grip (Demonstration.robot s')
        = (Robot.n_grip (Demonstration.robot s) + attempts)%nat /\
        Robot.n_ik (Demonstration.robot s')
        = (Robot.n_ik (Demonstration.robot s) + attempts)%nat /\
        (Z.of_nat (DemoSpec.successes hw
                     (Robot.n_grip (Demonstration.robot s)) attempts)
         <= Z.max 0 n_objects_to_pick)%Z /\
        ((forall k, is_shutdown k = false) ->
         Z.of_nat (DemoSpec.successes hw
                     (Robot.n_grip (Demonstration.robot s)) attempts)
         = Z.max 0 n_objects_to_pick)) /\
  ((n_objects_to_pick <= 0)%Z ->
   Demonstration.demonstrate hw is_shutdown fuel (S pick_fuel)
     n_objects_to_pick s
   = (Py.Ret true,
      Demonstration.mkState (Demonstration.robot s)
        (S (Demonstration.n_polls s)))).
Proof.
  split.
  - intros b s' Hrun. unfold Demonstration.demonstrate in Hrun.
    unfold Py.bind at 1 in Hrun.
    destruct (Demonstration.while_do fuel _ _ 0%Z s)
      as [[n | e |] s1] eqn:Hloop; try discriminate.
    injection Hrun as <- <-. split; [reflexivity |].
    apply (while_do_inv (DemoSpec.counted hw n_objects_to_pick s)) in Hloop.
    + destruct Hloop
        as (w0 & (attempts & Hp & Hg & Hk & Hn & Hbound) & Hexit).
      unfold Demonstration.keep_going, Py.bind,
        Demonstration.rospy_is_shutdown in Hexit.
      exists attempts.
      destruct (is_shutdown (Demonstration.n_polls w0)) eqn:Hdown;
        cbn in Hexit.
      * injection Hexit as <-.
        cbn [Demonstration.robot Demonstration.n_polls].
        split; [lia |]. split; [exact Hg |]. split; [exact Hk |].
        split; [lia |].
        intros Hnever. rewrite Hnever in Hdown. discriminate.
      * injection Hexit as Hlt <-.
        cbn [Demonstration.robot Demonstration.n_polls].
        apply Z.ltb_ge in Hlt.
        split; [lia |]. split; [exact Hg |]. split; [exact Hk |].
        split; lia.
    + intros n0 w0 w n1 w' (attempts & Hp & Hg & Hk & Hn & Hbound) Hc Hb.
      unfold Demonstration.keep_going, Py.bind,
        Demonstration.rospy_is_shutdown in Hc.
      destruct (is_shutdown (Demonstration.n_polls w0)); cbn in Hc;
        [discriminate |].
      injection Hc as Hlt <-. apply Z.ltb_lt in Hlt.
      destruct (attempt_run hw pick_fuel n0
                  (Demonstration.mkState (Demonstration.robot w0)
                     (S (Demonstration.n_polls w0))))
        as (r' & Hrun & Hgrip & Hik).
      cbv zeta in Hrun.
      cbn [Demonstration.robot Demonstration.n_polls] in Hrun, Hgrip, Hik.
      rewrite Hrun in Hb. injection Hb as <- <-.
      exists (S attempts). cbn [Demonstration.robot Demonstration.n_polls].
      split; [lia |].
      split; [rewrite Hgrip, Hg; lia |].
      split; [rewrite Hik, Hk; lia |].
      rewrite successes_step, Hg. clear Hrun.
      destruct (Robot.gripping hw
                  (Robot.n_grip (Demonstration.robot s) + attempts));
        split; lia.
    + exists 0%nat. cbn. repeat split; lia.
  - intros Hle. unfold Demonstration.demonstrate.
    assert (Hloop : Demonstration.while_do fuel
                      (Demonstration.keep_going is_shutdown n_objects_to_pick)
                      (Demonstration.attempt hw (S pick_fuel)) 0%Z s
                    = (Py.Ret 0%Z,
                       Demonstration.mkState (Demonstration.robot s)
                         (S (Demonstration.n_polls s)))).
    { assert (Hc : Demonstration.keep_going is_shutdown n_objects_to_pick
                     0%Z s
                   = (Py.Ret false,
                      Demonstration.mkState (Demonstration.robot s)
                        (S (Demonstration.n_polls s)))).
      { unfold Demonstration.keep_going, Py.bind,
          Demonstration.rospy_is_shutdown.
        destruct (is_shutdown (Demonstration.n_polls s)); cbn;
          [reflexivity |].
        assert (H : (0 <? n_objects_to_pick)%Z = false)
          by (apply Z.ltb_ge; lia).
        now rewrite H. }
      destruct fuel; cbn [Demonstration.while_do];
        now rewrite (bind_run _ _ _ _ _ Hc). }
    now rewrite (bind_run _ _ _ _ _ Hloop).
Qed.

Lemma demonstrate_counts_successes_witness :
  exists s' attempts,
    Demonstration.demonstrate DemoSpec.every_second (fun _ => false)
      10 1 2 DemoSpec.start = (Py.Ret true, s') /\
    Demonstration.n_polls s' = (attempts + 1)%nat /\
    Robot.n_grip (Demonstration.robot s') = attempts /\
    Z.of_nat (DemoSpec.successes DemoSpec.every_second 0 attempts) = 2%Z.
Proof.
  destruct (Demonstration.demonstrate DemoSpec.every_second
              (fun _ => false) 10 1 2 DemoSpec.start)
    as [[b | e |] s'] eqn:Hrun; try (vm_compute in Hrun; discriminate).
  destruct (proj1 (demonstrate_counts_successes DemoSpec.every_second
                     (fun _ => false) 10 0 2 DemoSpec.start) b s' Hrun)
    as (-> & attempts & Hp & Hg & _ & _ & Hall).
  exists s', attempts.
  split; [reflexivity |]. split; [exact Hp |]. split; [exact Hg |].
  apply Hall. reflexivity.
Defined.

(** [X20] [demonstrate] has no bound on its attempts: while no shutdown
    is signalled and the gripper never reports an object, a request for
    at least one object does not return within any number [fuel] of
    attempts, and the gripper has been closed once in each of them. *)
Theorem demonstrate_never_gripping (hw : Robot.Hardware)
    (is_shutdown : nat -> bool) (pick_fuel : nat) (n_objects_to_pick : Z) :
  (forall k, is_shutdown k = false) ->
  (forall k, Robot.gripping hw k = false) ->
  (0 < n_objects_to_pick)%Z ->
  forall fuel s,
    let r := Demonstration.demonstrate hw is_shutdown fuel (S pick_fuel)
               n_objects_to_pick s in
    fst r = Py.Diverge /\
    Robot.n_grip (Demonstration.robot (snd r))
    = (Robot.n_grip (Demonstration.robot s) + fuel)%nat.
Proof.
  intros Hup Hgrip Hpos.
  assert (Hloop : forall fuel s,
    exists s',
      Demonstration.while_do fuel
        (Demonstration.keep_going is_shutdown n_objects_to_pick)
        (Demonstration.attempt hw (S pick_fuel)) 0%Z s = (Py.Diverge, s') /\
      Robot.n_grip (Demonstration.robot s')
      = (Robot.n_grip (Demonstration.robot s) + fuel)%nat).
  { assert (Hc : forall s,
      Demonstration.keep_going is_shutdown n_objects_to_pick 0%Z s
      = (Py.Ret true,
         Demonstration.mkState (Demonstration.robot s)
           (S (Demonstration.n_polls s)))).
    { intros s. unfold Demonstration.keep_going, Py.bind,
        Demonstration.rospy_is_shutdown.
      rewrite Hup. cbn.
      assert (H : (0 <? n_objects_to_pick)%Z = true) by (apply Z.ltb_lt; lia).
      now rewrite H. }
    induction fuel as [|fuel IH]; intros s; cbn [Demonstration.while_do];
      rewrite (bind_run _ _ _ _ _ (Hc s)).
    - eexists. split; [reflexivity |]. cbn. lia.
    - destruct (attempt_run hw pick_fuel 0%Z
                  (Demonstration.mkState (Demonstration.robot s)
                     (S (Demonstration.n_polls s))))
        as (r' & Hrun & Hg & _).
      cbv zeta in Hrun. cbn [Demonstration.robot] in Hrun, Hg.
      rewrite Hgrip in Hrun. rewrite (bind_run _ _ _ _ _ Hrun).
      destruct (IH (Demonstration.mkState r'
                      (Demonstration.n_polls
                         (Demonstration.mkState (Demonstration.robot s)
                            (S (Demonstration.n_polls s))))))
        as (s' & Hs' & Hn).
      exists s'. split; [exact Hs' |].
      cbn [Demonstration.robot] in Hn. lia. }
  intros fuel s r. unfold r, Demonstration.demonstrate.
  destruct (Hloop fuel s) as (s' & Hs' & Hn).
  unfold Py.bind. rewrite Hs'. cbn [fst snd]. auto.
Qed.

Lemma demonstrate_never_gripping_witness :
  fst (Demonstration.demonstrate MoreStubs.out_of_range (fun _ => false)
         6 1 1 DemoSpec.start) = Py.Diverge.
Proof.
  refine (proj1 (demonstrate_never_gripping MoreStubs.out_of_range
                   (fun _ => false) 0 1 _ _ _ 6%nat DemoSpec.start)).
  - reflexivity.
  - reflexivity.
  - reflexivity.
Defined.
